(** * Detection-and-grouping pipeline of the litter reporting backend

    A shallow embedding of the Python sources
      - api/litter_detections/litter_detections_service.py
      - api/uploads/uploads_routes.py, utils/geoutils.py
      - api/litter_reports/litter_reports_service.py
      - api/litter_groups/litter_groups_service.py
    and the properties of the pipeline stated against it.

    Conventions.  Python floats are modelled by exact rationals ([Q]);
    the float literals 0.10, 0.05, 0.45 and 1e-6 stand for the rationals
    they denote.  Where the rounding of a float decides the answer, at the
    density thresholds of [determine_severity], the function is modelled a
    second time in binary64 (module [SeverityFloat]).  UUIDs are natural
    numbers ([N]).  Timestamps are integers counting microseconds, the
    resolution of [datetime]. *)

From Stdlib Require Import String.
From Stdlib Require Import List Arith ZArith NArith QArith Qminmax Bool.
From Stdlib Require Import Lia Lqa Permutation.
From Stdlib Require Floats Uint63.
From Equations Require Import Equations.
Import ListNotations.

Local Open Scope Z_scope.

(* ===================================================================== *)
(** ** Severity policy: [determine_severity]                              *)
(* ===================================================================== *)

Module Severity.
Local Open Scope Q_scope.

(** The four strings the function returns. *)
Inductive level : Type := none | low | medium | high.

Definition level_eqb (a b : level) : bool :=
  match a, b with
  | none, none | low, low | medium, medium | high, high => true
  | _, _ => false
  end.

Definition rank (s : level) : nat :=
  match s with none => 0 | low => 1 | medium => 2 | high => 3 end.

(** [a] is at most as severe as [b]. *)
Definition level_le (a b : level) : Prop := (rank a <= rank b)%nat.

(** The [if total_count < 5 / elif total_count < 15 / else] ladder. *)
Definition count_level (total_count : Z) : level :=
  if (total_count <? 5)%Z then low
  else if (total_count <? 15)%Z then medium
  else high.

(** One pass of the loop body: a box with fewer than four entries is
    skipped, otherwise [max(0, x2 - x1) * max(0, y2 - y1)]. *)
Definition box_area (box : list Q) : Q :=
  match box with
  | x1 :: y1 :: x2 :: y2 :: _ => Qmax 0 (x2 - x1) * Qmax 0 (y2 - y1)
  | _ => 0
  end.

(** [boxes_area = 0.0; for box in bounding_boxes: boxes_area += w * h]. *)
Definition boxes_area (bounding_boxes : list (list Q)) : Q :=
  fold_left (fun acc box => acc + box_area box) bounding_boxes 0.

Definition Qlt_bool (a b : Q) : bool := negb (Qle_bool b a).

(** [determine_severity(total_count, bounding_boxes, image_size=None)].
    [image_size] is [None] or a pair; a pair is truthy whatever it holds,
    a list is truthy when it is not empty. *)
Definition determine_severity
    (total_count : Z) (bounding_boxes : list (list Q))
    (image_size : option (Q * Q)) : level :=
  if (total_count =? 0)%Z then none
  else
    let severity := count_level total_count in
    match image_size, bounding_boxes with
    | Some (img_w, img_h), _ :: _ =>
        let img_area := img_w * img_h in
        if Qlt_bool 0 img_area then
          let density := boxes_area bounding_boxes / img_area in
          if Qlt_bool (1 # 10) density && negb (level_eqb severity high)
          then high
          else if Qlt_bool (1 # 20) density && level_eqb severity low
          then medium
          else severity
        else severity
    | _, _ => severity
    end.

(** The count-based level in the words of the specification: [low] below
    five objects, [medium] below fifteen, [high] from fifteen on. *)
Definition policy_count_level (n : Z) : level :=
  if (n <? 5)%Z then low else if (n <? 15)%Z then medium else high.

End Severity.

(* ===================================================================== *)
(** ** [determine_severity] in double precision                           *)
(* ===================================================================== *)

(** The same function with the arithmetic Python performs: box
    coordinates, their differences, products and running sum, and the
    quotient by the image area are binary64 values rounded to nearest, and
    [0.10] and [0.05] are the doubles nearest to one tenth and one
    twentieth.  Comparisons with a NaN are false. *)
Module SeverityFloat.
Import PrimFloat.
Import Severity.
Local Open Scope float_scope.
Set Warnings "-inexact-float".

(** [max(0.0, v)]: the second argument is taken only when it compares
    greater than the first, so a NaN gives [0.0]. *)
Definition max0 (v : float) : float := if 0 <? v then v else 0.

(** The conversion of the int [img_area] in [boxes_area / img_area], for
    [0 <= n < 2^63]: the nearest double, ties to even. *)
Definition float_of_int (n : Z) : float := of_uint63 (Uint63.of_Z n).

(** [w * h] of one box with at least four entries. *)
Definition box_area (box : list float) : float :=
  match box with
  | x1 :: y1 :: x2 :: y2 :: _ => max0 (x2 - x1) * max0 (y2 - y1)
  | _ => 0
  end.

(** [boxes_area = 0.0; for box in bounding_boxes: if len(box) >= 4:
    boxes_area += w * h]. *)
Definition boxes_area (bounding_boxes : list (list float)) : float :=
  fold_left (fun acc box =>
               if Nat.leb 4 (List.length box) then acc + box_area box
               else acc)
            bounding_boxes 0.

(** [determine_severity(total_count, bounding_boxes, image_size)] with
    [image_size] a pair of ints or [None]. *)
Definition determine_severity
    (total_count : Z) (bounding_boxes : list (list float))
    (image_size : option (Z * Z)) : level :=
  if (total_count =? 0)%Z then none
  else
    let severity := count_level total_count in
    match image_size, bounding_boxes with
    | Some (img_w, img_h), _ :: _ =>
        let img_area := (img_w * img_h)%Z in
        if (0 <? img_area)%Z then
          let density := boxes_area bounding_boxes / float_of_int img_area in
          if (0.10 <? density) && negb (level_eqb severity high)
          then high
          else if (0.05 <? density) && level_eqb severity low
          then medium
          else severity
        else severity
    | _, _ => severity
    end.

(** *** The policy in the words of the specification

    [none] for zero objects, else the count-based level, raised to [high]
    when the covered fraction exceeds 10% and from [low] to [medium] when
    it exceeds 5%.  The covered fraction is a parameter, so that the same
    policy can be read with the sum of the box areas or with the area of
    their union. *)
Definition severity_policy (n : Z) (covered_fraction : float) : level :=
  if (n =? 0)%Z then none
  else if 0.10 <? covered_fraction then high
  else if 0.05 <? covered_fraction then
    match policy_count_level n with low => medium | s => s end
  else policy_count_level n.

(** Area of the union of the boxes, counted on the pixel grid of a
    [w] x [h] image: the number of unit cells [[i,i+1] x [j,j+1]] that lie
    inside at least one box.  Exact for boxes with integer corners inside
    the image. *)
Definition cell_in_box (i j : Z) (box : list float) : bool :=
  match box with
  | x1 :: y1 :: x2 :: y2 :: _ =>
      (x1 <=? float_of_int i) && (float_of_int (i + 1) <=? x2) &&
      (y1 <=? float_of_int j) && (float_of_int (j + 1) <=? y2)
  | _ => false
  end.

Definition grid (w h : nat) : list (Z * Z) :=
  list_prod (map Z.of_nat (seq 0 w)) (map Z.of_nat (seq 0 h)).

Definition union_area (bounding_boxes : list (list float)) (w h : nat) : Z :=
  Z.of_nat (List.length
    (filter (fun c => existsb (cell_in_box (fst c) (snd c)) bounding_boxes)
            (grid w h))).

End SeverityFloat.

(* ===================================================================== *)
(** ** Safety-net greedy non-max suppression: [_nms]                      *)
(* ===================================================================== *)

Module Nms.
Local Open Scope Q_scope.

(** One row [x1, y1, x2, y2] of the [boxes] array. *)
Record Box : Type := mkBox { bx1 : Q; by1 : Q; bx2 : Q; by2 : Q }.

Definition zero_box : Box := mkBox 0 0 0 0.

(** [areas = (x2 - x1) * (y2 - y1)], not clamped. *)
Definition area (b : Box) : Q := (bx2 b - bx1 b) * (by2 b - by1 b).

(** [inter = w * h] with [w = max(0, xx2 - xx1)], [h = max(0, yy2 - yy1)]. *)
Definition inter (a b : Box) : Q :=
  let xx1 := Qmax (bx1 a) (bx1 b) in
  let yy1 := Qmax (by1 a) (by1 b) in
  let xx2 := Qmin (bx2 a) (bx2 b) in
  let yy2 := Qmin (by2 a) (by2 b) in
  Qmax 0 (xx2 - xx1) * Qmax 0 (yy2 - yy1).

(** The denominator [areas[i] + areas[j] - inter + 1e-6]. *)
Definition iou_den (a b : Box) : Q :=
  area a + area b - inter a b + (1 # 1000000).

(** The mask [iou <= iou_thresh].  Where the denominator is zero numpy
    yields [inf] or [nan], and the comparison is false. *)
Definition iou_le (iou_thresh : Q) (a b : Box) : bool :=
  if Qeq_bool (iou_den a b) 0 then false
  else Qle_bool (inter a b / iou_den a b) iou_thresh.

(** [scores.argsort()]: indices by ascending score.  numpy does not fix
    the order of equal scores; the model sorts stably. *)
Fixpoint insert_by (key : nat -> Q) (x : nat) (l : list nat) : list nat :=
  match l with
  | [] => [x]
  | y :: l' =>
      if Qle_bool (key x) (key y) then x :: l else y :: insert_by key x l'
  end.

Definition argsort (scores : list Q) : list nat :=
  fold_right (insert_by (fun i => nth i scores 0)) []
             (seq 0 (List.length scores)).

Lemma filter_length_le {A : Type} (f : A -> bool) (l : list A) :
  (List.length (filter f l) <= List.length l)%nat.
Proof.
  induction l as [|a l IH]; simpl; [lia|].
  destruct (f a); simpl; lia.
Defined.

Section Loop.

(** [keeps i j]: box [j] survives next to the kept box [i]. *)
Variable keeps : nat -> nat -> bool.

(** The [while order.size > 0] loop: keep the head, drop from the rest
    what overlaps it too much, go on with what is left.  (The early
    [break] on a single remaining index returns the same list.) *)
Equations nms_loop (order : list nat) : list nat
  by wf (List.length order) lt :=
nms_loop [] := [];
nms_loop (i :: rest) := i :: nms_loop (filter (keeps i) rest).
Next Obligation.
  pose proof (filter_length_le (keeps i) rest). simpl. lia.
Defined.

End Loop.

(** [_nms(boxes, scores, iou_thresh)], the kept indices.  The model
    describes calls with one score per box, as its caller makes them. *)
Definition _nms (boxes : list Box) (scores : list Q) (iou_thresh : Q)
  : list nat :=
  match boxes with
  | [] => []
  | _ :: _ =>
      let order := rev (argsort scores) in
      nms_loop (fun i j => iou_le iou_thresh (nth i boxes zero_box)
                                              (nth j boxes zero_box))
               order
  end.

(** Fancy indexing [a[keep_idx]]. *)
Definition take_rows {A : Type} (d : A) (a : list A) (idx : list nat)
  : list A :=
  map (fun i => nth i a d) idx.

End Nms.

(* ===================================================================== *)
(** ** The relational store                                               *)
(* ===================================================================== *)

Module Store.
Local Open Scope Q_scope.

Definition uuid : Type := N.
Definition timestamp : Type := Z.

(** [timedelta(seconds=s)] and [timedelta(days=d)] in microseconds. *)
Definition seconds (s : Z) : Z := (s * 1000000)%Z.
Definition days (d : Z) : Z := (d * 86400 * 1000000)%Z.

(** A PostGIS point of SRID 4326: [x] is the longitude, [y] the latitude. *)
Record Point : Type := mkPoint { pt_x : Q; pt_y : Q }.

(** [ST_SetSRID(ST_MakePoint(lng, lat), 4326)]; NULL when an argument is. *)
Definition st_makepoint (lng lat : option Q) : option Point :=
  match lng, lat with
  | Some x, Some y => Some (mkPoint x y)
  | _, _ => None
  end.

(** The JSON text kept in [LitterReport.detection_results]. *)
Inductive ResultsJson : Type :=
| NoLitterJson
| DetectionJson (total_litter_count : Z) (severity_level : Severity.level)
| ErrorJson (message : string).

Record Upload : Type := mkUpload {
  up_id : uuid;
  up_user_id : Z;
  up_session_id : option string;
  up_file_url : string;
  up_latitude : option Q;
  up_longitude : option Q
}.

Record LitterReport : Type := mkReport {
  lr_id : uuid;
  lr_user_id : Z;
  lr_group_id : option uuid;
  lr_upload_id : option uuid;
  lr_latitude : Q;
  lr_longitude : Q;
  lr_detection_results : option ResultsJson;
  lr_severity : option Severity.level;
  lr_status : string;
  lr_is_detected : bool;
  lr_is_grouped : bool;
  lr_created_at : timestamp;
  lr_geom : option Point
}.

(** [phash] is the 64-bit perceptual hash whose hexadecimal text the
    column stores; [embedding] is the raw byte string. *)
Record ImageFingerprint : Type := mkFingerprint {
  fp_report_id : uuid;
  fp_phash : N;
  fp_embedding : list Byte.byte
}.

Record LitterGroup : Type := mkGroup {
  lg_id : uuid;
  lg_name : string;
  lg_geom : option Point;
  lg_is_locked : bool
}.

Record LitterDetection : Type := mkDetection {
  ld_litter_report_id : uuid;
  ld_detected_objects : list (string * Q);
  ld_bounding_boxes : list (list Q);
  ld_total_litter_count : Z;
  ld_severity_level : Severity.level;
  ld_detection_confidence : Q
}.

(** The committed contents of the five tables. *)
Record DB : Type := mkDB {
  uploads : list Upload;
  litter_reports : list LitterReport;
  image_fingerprints : list ImageFingerprint;
  litter_groups : list LitterGroup;
  litter_detections : list LitterDetection
}.

(** [db.get(LitterReport, id)] and [db.get(Upload, id)]. *)
Definition get_report (db : DB) (id : uuid) : option LitterReport :=
  find (fun r => N.eqb (lr_id r) id) (litter_reports db).

Definition get_upload (db : DB) (id : uuid) : option Upload :=
  find (fun u => N.eqb (up_id u) id) (uploads db).

(** [UPDATE litter_reports SET ... WHERE id = :rid]. *)
Definition update_report (f : LitterReport -> LitterReport) (rid : uuid)
    (db : DB) : DB :=
  mkDB (uploads db)
       (map (fun r => if N.eqb (lr_id r) rid then f r else r)
            (litter_reports db))
       (image_fingerprints db) (litter_groups db) (litter_detections db).

Definition set_group (gid : uuid) (r : LitterReport) : LitterReport :=
  mkReport (lr_id r) (lr_user_id r) (Some gid) (lr_upload_id r)
           (lr_latitude r) (lr_longitude r) (lr_detection_results r)
           (lr_severity r) (lr_status r) (lr_is_detected r) true
           (lr_created_at r) (lr_geom r).

Definition set_geom (g : option Point) (r : LitterReport) : LitterReport :=
  mkReport (lr_id r) (lr_user_id r) (lr_group_id r) (lr_upload_id r)
           (lr_latitude r) (lr_longitude r) (lr_detection_results r)
           (lr_severity r) (lr_status r) (lr_is_detected r) (lr_is_grouped r)
           (lr_created_at r) g.

(** [report.status = s; report.is_detected = d; report.detection_results = j]. *)
Definition set_outcome (s : string) (d : bool) (j : ResultsJson)
    (r : LitterReport) : LitterReport :=
  mkReport (lr_id r) (lr_user_id r) (lr_group_id r) (lr_upload_id r)
           (lr_latitude r) (lr_longitude r) (Some j)
           (lr_severity r) s d (lr_is_grouped r)
           (lr_created_at r) (lr_geom r).

(** [report.status = "error"; report.detection_results = j]. *)
Definition set_error (j : ResultsJson) (r : LitterReport) : LitterReport :=
  mkReport (lr_id r) (lr_user_id r) (lr_group_id r) (lr_upload_id r)
           (lr_latitude r) (lr_longitude r) (Some j)
           (lr_severity r) "error" (lr_is_detected r) (lr_is_grouped r)
           (lr_created_at r) (lr_geom r).

(** [report.severity = v; report.is_detected = True;
    report.detection_results = j]. *)
Definition set_detected (v : Severity.level) (j : ResultsJson)
    (r : LitterReport) : LitterReport :=
  mkReport (lr_id r) (lr_user_id r) (lr_group_id r) (lr_upload_id r)
           (lr_latitude r) (lr_longitude r) (Some j)
           (Some v) (lr_status r) true (lr_is_grouped r)
           (lr_created_at r) (lr_geom r).

(** What a call raises: an [HTTPException] or any other exception. *)
Inductive Detail : Type :=
| Duplicate (reason : string) (ids : list uuid)
| Message (text : string).

Inductive Exn : Type :=
| HTTPException (status_code : Z) (detail : Detail)
| OtherException (what : string).

End Store.

(* ===================================================================== *)
(** ** Spatial grouper: radius attachment and cluster suggestions         *)
(* ===================================================================== *)

Module Grouper.
Import Store.
Local Open Scope Q_scope.

(** Square of [ST_Distance] between two geometry points: the planar
    distance in the units of the spatial reference, degrees for SRID 4326.
    Ordering by the distance is ordering by its square. *)
Definition dist2 (p q : Point) : Q :=
  (pt_x p - pt_x q) * (pt_x p - pt_x q) + (pt_y p - pt_y q) * (pt_y p - pt_y q).

(** [ST_DWithin(geom, point, radius)] over geometry values; NULL, hence
    no match, when one of them is NULL. *)
Definition st_dwithin (g p : option Point) (radius : Q) : bool :=
  match g, p with
  | Some a, Some b =>
      Qle_bool 0 radius && Qle_bool (dist2 a b) (radius * radius)
  | _, _ => false
  end.

Definition group_dist2 (p : Point) (g : LitterGroup) : Q :=
  match lg_geom g with Some a => dist2 a p | None => 0 end.

(** [ORDER BY ST_Distance(geom, point) LIMIT 1]: a row of least distance,
    the first of them in table order. *)
Fixpoint order_by_distance_limit_1 (p : Point) (rows : list LitterGroup)
  : option LitterGroup :=
  match rows with
  | [] => None
  | g :: rest =>
      match order_by_distance_limit_1 p rest with
      | None => Some g
      | Some b =>
          if Qle_bool (group_dist2 p g) (group_dist2 p b) then Some g
          else Some b
      end
  end.

(** The [SELECT id FROM litter_groups WHERE ST_DWithin(...) ORDER BY ...
    LIMIT 1] of [_assign_to_nearest_group]. *)
Definition nearest_group_row (db : DB) (lat lng : Q) (radius_m : Q)
  : option LitterGroup :=
  let point := mkPoint lng lat in
  order_by_distance_limit_1 point
    (filter (fun g => st_dwithin (lg_geom g) (Some point) radius_m)
            (litter_groups db)).

(** [_assign_to_nearest_group(db, report_id, lat, lng, radius_m)]. *)
Definition _assign_to_nearest_group (db : DB) (report_id : uuid)
    (lat lng : Q) (radius_m : Q) : DB :=
  match nearest_group_row db lat lng radius_m with
  | Some row => update_report (set_group (lg_id row)) report_id db
  | None => db
  end.

(** One row of [SELECT id, ST_X(ST_Transform(geom, 3857)) AS x,
    ST_Y(ST_Transform(geom, 3857)) AS y, severity FROM litter_reports]. *)
Record Row : Type := mkRow {
  row_id : uuid;
  row_xy : option (Q * Q);
  row_severity : option Severity.level
}.

(** A suggestion: the hull and the reprojected GeoJSON geometries are
    left out, the bounding box is kept as its bounds in EPSG:3857. *)
Record ClusterSuggestion : Type := mkSuggestion {
  cluster_id : Z;
  report_count : Z;
  avg_severity : Severity.level;
  bbox_bounds : Q * Q * Q * Q;
  members : list (uuid * option Severity.level)
}.

(** [MultiPoint(points).envelope.bounds]: (minx, miny, maxx, maxy). *)
Fixpoint bounds_from (b : Q * Q * Q * Q) (pts : list (Q * Q))
  : Q * Q * Q * Q :=
  match pts with
  | [] => b
  | (x, y) :: rest =>
      let '(minx, miny, maxx, maxy) := b in
      bounds_from (Qmin minx x, Qmin miny y, Qmax maxx x, Qmax maxy y) rest
  end.

Definition bounds (pts : list (Q * Q)) : Q * Q * Q * Q :=
  match pts with
  | [] => (0, 0, 0, 0)
  | (x, y) :: rest => bounds_from (x, y, x, y) rest
  end.

(** [sorted(set(labels))]. *)
Fixpoint insert_label (x : Z) (l : list Z) : list Z :=
  match l with
  | [] => [x]
  | y :: l' =>
      if (x <? y)%Z then x :: l
      else if (x =? y)%Z then l
      else y :: insert_label x l'
  end.

Definition sorted_set (labels : list Z) : list Z :=
  fold_right insert_label [] labels.

(** The array of coordinates; [None] when a coordinate is NULL (the
    clustering library then raises). *)
Fixpoint coords_of (rows : list Row) : option (list (Q * Q)) :=
  match rows with
  | [] => Some []
  | r :: rest =>
      match row_xy r, coords_of rest with
      | Some xy, Some cs => Some (xy :: cs)
      | _, _ => None
      end
  end.

(** Step 5 of the loop body: the severity of one cluster from the points
    that carry its label. *)
Definition cluster_severity (points : list (Q * Q)) : Severity.level :=
  let report_count := Z.of_nat (List.length points) in
  let '(minx, miny, maxx, maxy) := bounds points in
  let bounding_boxes := [[minx; miny; maxx; maxy]] in
  Severity.determine_severity report_count bounding_boxes None.

(** The cluster severity in the words of the specification: the policy of
    [determine_severity] with the member count as the object count and the
    area of the cluster's bounding box as the reference area. *)
Definition policy_cluster_severity (points : list (Q * Q)) : Severity.level :=
  let report_count := Z.of_nat (List.length points) in
  let '(minx, miny, maxx, maxy) := bounds points in
  Severity.determine_severity report_count [[minx; miny; maxx; maxy]]
    (Some (maxx - minx, maxy - miny)).

Section Clustering.

(** [ST_Transform(geom, 3857)] of the store, read as coordinates. *)
Variable st_transform_3857 : Point -> Q * Q.

(** [DBSCAN(eps, min_samples).fit(coords).labels_]: one label per point,
    [-1] for noise. *)
Variable dbscan : Q -> Z -> list (Q * Q) -> list Z.

(** The query has no WHERE clause: every row of [litter_reports]. *)
Definition select_rows (db : DB) : list Row :=
  map (fun r => mkRow (lr_id r)
                      (option_map st_transform_3857 (lr_geom r))
                      (lr_severity r))
      (litter_reports db).

Definition suggestion_of (rows : list Row) (coords : list (Q * Q))
    (labels : list Z) (cluster_label : Z) : list ClusterSuggestion :=
  if (cluster_label =? -1)%Z then []
  else
    let idx := filter (fun e => (snd e =? cluster_label)%Z)
                      (combine (combine rows coords) labels) in
    match idx with
    | [] => []
    | _ :: _ =>
        let points := map (fun e => snd (fst e)) idx in
        [ mkSuggestion cluster_label
            (Z.of_nat (List.length idx))
            (cluster_severity points)
            (bounds points)
            (map (fun e => (row_id (fst (fst e)),
                            row_severity (fst (fst e)))) idx) ]
    end.

(** [get_cluster_suggestions(eps=500.0, minpts=3)]; [None] when the
    clustering raises on a NULL coordinate.  [dbscan] stands for a run
    that answers: what DBSCAN rejects otherwise (an [eps] that is not
    positive) and a failing [ST_Transform] are outside this model. *)
Definition get_cluster_suggestions (db : DB) (eps : Q) (minpts : Z)
  : option (list ClusterSuggestion) :=
  let rows := select_rows db in
  match rows with
  | [] => Some []
  | _ :: _ =>
      match coords_of rows with
      | None => None
      | Some coords =>
          let labels := dbscan eps minpts coords in
          Some (flat_map (suggestion_of rows coords labels)
                         (sorted_set labels))
      end
  end.

End Clustering.

End Grouper.

(* ===================================================================== *)
(** ** Deduplication gate: the upload endpoint                            *)
(* ===================================================================== *)

Module Uploads.
Import Store.
Local Open Scope Q_scope.

Definition SPATIAL_RADIUS_M : Q := 50.
Definition TEMPORAL_WINDOW_S : Z := (30 * 60)%Z.
Definition PHASH_THRESHOLD : nat := 8.

(** [ph - old_hash] of two image hashes: the number of differing bits. *)
Fixpoint popcount_pos (p : positive) : nat :=
  match p with
  | xH => 1
  | xO q => popcount_pos q
  | xI q => S (popcount_pos q)
  end.

Definition popcount (n : N) : nat :=
  match n with N0 => 0 | Npos p => popcount_pos p end.

Definition hamming (a b : N) : nat := popcount (N.lxor a b).

Section Geography.

(** [ST_DWithin] over geography values: true ground distance in meters. *)
Variable st_dwithin_geography : Point -> Point -> Q -> bool.

(** [find_spatio_temporal(db, model, lat, lng, ts, radius_m, window_s)]. *)
Definition find_spatio_temporal (db : DB) (lat lng : option Q)
    (ts : timestamp) (radius_m : Q) (window_s : Z) : list uuid :=
  let point_geo := st_makepoint lng lat in
  let start := (ts - seconds window_s)%Z in
  let end_ := (ts + seconds window_s)%Z in
  map lr_id
    (filter (fun r =>
               (start <=? lr_created_at r)%Z && (lr_created_at r <=? end_)%Z &&
               match lr_geom r, point_geo with
               | Some g, Some p => st_dwithin_geography g p radius_m
               | _, _ => false
               end)
            (litter_reports db)).

End Geography.

(** The uploaded file as the endpoint reads it.  [file_phash] is
    [imagehash.phash(Image.open(BytesIO(img_bytes)))], [None] when the
    imaging library cannot open the bytes and raises. *)
Record UploadFile : Type := mkFile {
  file_name : string;
  file_phash : option N
}.

(** What the request draws from its surroundings: the two clocks
    ([datetime.utcnow()] of the endpoint, [datetime.now] behind
    [created_at]), the [uuid4] defaults of the two new rows, the URL under
    which the file is stored, and whether writing it to disk succeeds. *)
Record Env : Type := mkEnv {
  utcnow : timestamp;
  localnow : timestamp;
  new_upload_id : uuid;
  new_report_id : uuid;
  new_file_url : string;
  disk_write_ok : bool
}.

(** Rows of [select(ImageFingerprint.report_id, ImageFingerprint.phash)
    .join(LitterReport, ...).where(LitterReport.created_at >= one_week_ago)]. *)
Definition recent_fingerprints (db : DB) (one_week_ago : timestamp)
  : list (uuid * N) :=
  flat_map
    (fun fp =>
       map (fun _ => (fp_report_id fp, fp_phash fp))
           (filter (fun r => N.eqb (fp_report_id fp) (lr_id r) &&
                             (one_week_ago <=? lr_created_at r)%Z)
                   (litter_reports db)))
    (image_fingerprints db).

(** The loop that fills [dup_ids]. *)
Definition phash_duplicates (ph : N) (rows : list (uuid * N)) : list uuid :=
  map fst
    (filter (fun row => (hamming ph (snd row) <=? PHASH_THRESHOLD)%nat) rows).

(** [create_upload_with_file] behind [create_upload_controller]: write the
    file, insert the row, commit.  A primary-key clash fails the commit. *)
Definition create_upload_controller (env : Env) (db : DB) (file : UploadFile)
    (latitude longitude : option Q) (user_id : Z) (session_id : string)
  : (Exn + Upload) * DB :=
  if negb (disk_write_ok env) then (inl (OtherException "OSError"), db)
  else
    let upload := mkUpload (new_upload_id env) user_id (Some session_id)
                           (new_file_url env) latitude longitude in
    if existsb (fun u => N.eqb (up_id u) (up_id upload)) (uploads db)
    then (inl (OtherException "IntegrityError"), db)
    else (inr upload,
          mkDB (uploads db ++ [upload]) (litter_reports db)
               (image_fingerprints db) (litter_groups db)
               (litter_detections db)).

(** [create_litter_report]: insert the row, set its [geom], attempt the
    radius attachment within 500; any exception is swallowed and answered
    with [None]. *)
Definition create_litter_report (env : Env) (db : DB) (user_id : Z)
    (upload_id : uuid) (latitude longitude : Q)
  : option LitterReport * DB :=
  let new_report :=
    mkReport (new_report_id env) user_id None (Some upload_id)
             latitude longitude None None "pending" false false
             (localnow env) None in
  if existsb (fun r => N.eqb (lr_id r) (lr_id new_report)) (litter_reports db)
  then (None, db)
  else
    let db1 := mkDB (uploads db) (litter_reports db ++ [new_report])
                    (image_fingerprints db) (litter_groups db)
                    (litter_detections db) in
    let db2 := update_report
                 (set_geom (st_makepoint (Some longitude) (Some latitude)))
                 (lr_id new_report) db1 in
    let db3 := Grouper._assign_to_nearest_group db2 (lr_id new_report)
                 latitude longitude 500 in
    (get_report db3 (lr_id new_report), db3).

(** [create_report_controller]. *)
Definition create_report_controller (env : Env) (db : DB) (user_id : Z)
    (upload_id : uuid) (latitude longitude : Q)
  : (Exn + LitterReport) * DB :=
  match create_litter_report env db user_id upload_id latitude longitude with
  | (Some report, db') => (inr report, db')
  | (None, db') =>
      (inl (HTTPException 400 (Message "Failed to create litter report")), db')
  end.

(** [upload_create_report_and_detect], the handler of
    [POST /uploads/{session_id}/full].  The result is the id of the 201
    response or what the handler raises, with the store it leaves. *)
Definition upload_create_report_and_detect (env : Env) (session_id : string)
    (file : UploadFile) (latitude longitude : option Q) (db : DB)
    (user_id : Z) : (Exn + uuid) * DB :=
  let now := utcnow env in
  (* 1. read and hash the image *)
  match file_phash file with
  | None => (inl (OtherException "UnidentifiedImageError"), db)
  | Some ph =>
      (* 2. global pHash dedupe, last week only *)
      let one_week_ago := (now - days 7)%Z in
      let rows := recent_fingerprints db one_week_ago in
      match phash_duplicates ph rows with
      | (_ :: _) as dup_ids =>
          (inl (HTTPException 409 (Duplicate "phash" dup_ids)), db)
      | [] =>
          (* 3. save upload *)
          match create_upload_controller env db file latitude longitude
                                         user_id session_id with
          | (inl e, db1) => (inl e, db1)
          | (inr upload, db1) =>
              (* 4. create report; the schema requires both coordinates *)
              match latitude, longitude with
              | Some lat, Some lng =>
                  match create_report_controller env db1 user_id
                                                 (up_id upload) lat lng with
                  | (inl e, db2) => (inl e, db2)
                  | (inr report, db2) =>
                      (* 5. persist pHash and spatial data *)
                      let fp := mkFingerprint (lr_id report) ph [] in
                      if existsb (fun f => N.eqb (fp_report_id f)
                                                 (lr_id report))
                                 (image_fingerprints db2)
                      then (inl (OtherException "IntegrityError"), db2)
                      else
                        (inr (lr_id report),
                         update_report
                           (set_geom (st_makepoint longitude latitude))
                           (lr_id report)
                           (mkDB (uploads db2) (litter_reports db2)
                                 (image_fingerprints db2 ++ [fp])
                                 (litter_groups db2)
                                 (litter_detections db2)))
                  end
              | _, _ => (inl (OtherException "ValidationError"), db1)
              end
          end
      end
  end.

(** Number of components of the float32 vector a byte string holds. *)
Definition embedding_dim (embedding : list Byte.byte) : nat :=
  Nat.div (List.length embedding) 4.

(** A vector whose L2 norm is within [eps] of 1, said of its square:
    (1 - eps)^2 <= |v|^2 <= (1 + eps)^2. *)
Definition unit_norm (eps : Q) (v : list Q) : Prop :=
  let n2 := fold_right (fun x acc => x * x + acc) 0 v in
  (1 - eps) * (1 - eps) <= n2 /\ n2 <= (1 + eps) * (1 + eps).

End Uploads.

(* ===================================================================== *)
(** ** Object detector                                                    *)
(* ===================================================================== *)

Module Detection.
Import Store.
Local Open Scope Q_scope.

(** The first output of the ONNX session: its shape, and its data read as
    rows once a leading axis of length one is dropped. *)
Record Tensor : Type := mkTensor {
  shape : list nat;
  data : list (list Q)
}.

Inductive OrtOutcome : Type :=
| OrtRaises (what : string)
| OrtOutputs (preds : option Tensor).

(** Image bytes, as the detector sees them: what [cv2.imdecode] makes of
    them ([None], or the height and width of the decoded image) and what
    the ONNX session answers for them. *)
Record ImageBytes : Type := mkImage {
  imdecode : option (Z * Z);
  session_run : OrtOutcome
}.

Inductive HttpOutcome : Type :=
| RequestException
| Response (status_code : Z) (location : option string) (content : ImageBytes).

(** Surroundings of a detector run: [settings.UPLOAD_URL] (or
    [UPLOAD_BASE_URL]), [urlparse(url).scheme], the answer to the k-th
    GET request, and whether the model file is there. *)
Record Env : Type := mkEnv {
  upload_base : option string;
  urlparse_scheme : string -> string;
  http_get : nat -> HttpOutcome;
  model_file_exists : bool
}.

Definition is_redirect (status : Z) : bool :=
  existsb (Z.eqb status) [301; 302; 303; 307; 308]%Z.

(** The [for attempt in range(1, max_attempts + 1)] loop: [n] attempts
    left, [k] requests made so far, [resp] the last response. *)
Fixpoint attempts (env : Env) (n k : nat)
    (resp : option (Z * option string * ImageBytes))
  : option (Z * option string * ImageBytes) * nat :=
  match n with
  | O => (resp, k)
  | S n' =>
      match http_get env k with
      | RequestException => attempts env n' (S k) None
      | Response st loc body =>
          if (st =? 200)%Z then (Some (st, loc, body), S k)
          else if (400 <=? st)%Z && (st <? 500)%Z
               then (Some (st, loc, body), S k)
          else attempts env n' (S k) (Some (st, loc, body))
      end
  end.

(** [fetch_image_bytes(path_or_url)]. *)
Definition fetch_image_bytes (env : Env) (path_or_url : string)
  : Exn + ImageBytes :=
  let scheme := urlparse_scheme env path_or_url in
  let configured :=
    if String.eqb scheme "http" || String.eqb scheme "https" then true
    else match upload_base env with
         | Some base => negb (String.eqb base "")
         | None => false
         end in
  if negb configured then
    inl (HTTPException 500
           (Message "Server misconfiguration: UPLOAD_URL not set"))
  else
    match attempts env 3 0 None with
    | (None, _) =>
        inl (HTTPException 500 (Message "Failed to download image: no response"))
    | (Some (st, loc, body), k) =>
        let '(st', body') :=
          match is_redirect st, loc with
          | true, Some l =>
              if String.eqb l "" then (st, body)
              else match http_get env k with
                   | Response st2 _ body2 => (st2, body2)
                   | RequestException => (st, body)
                   end
          | _, _ => (st, body)
          end in
        if (st' =? 200)%Z then inr body'
        else inl (HTTPException 502 (Message "Failed to download image"))
    end.

(** [int(x)] and [x.astype(int)] of a float: truncation towards zero. *)
Definition Qtrunc (q : Q) : Z := Z.quot (Qnum q) (Zpos (Qden q)).

(** [_letterbox_resize]: the scale and the paddings (left, top); [None]
    when a resized side has no pixel and the resize raises. *)
Definition _letterbox_resize (h w : Z) (new_shape : Z)
  : option (Q * (Z * Z)) :=
  let scale := Qmin (inject_Z new_shape / inject_Z w)
                    (inject_Z new_shape / inject_Z h) in
  let new_w := Qtrunc (inject_Z w * scale) in
  let new_h := Qtrunc (inject_Z h * scale) in
  if (new_w <=? 0)%Z || (new_h <=? 0)%Z then None
  else
    let pad_w := (new_shape - new_w)%Z in
    let pad_h := (new_shape - new_h)%Z in
    Some (scale, ((pad_w / 2)%Z, (pad_h / 2)%Z)).

(** The dictionary [run_detection_on_image_bytes] returns. *)
Record DetectionResults : Type := mkResults {
  detected_objects : list (string * Q);
  bounding_boxes : list (list Q);
  total_litter_count : Z;
  severity_level : Severity.level;
  detection_confidence : Q
}.

Definition nothing_detected : DetectionResults :=
  mkResults [] [] 0 Severity.none 0.

Definition LABELS : list string :=
  ["plastic_bag"; "plastic_bottle"; "paper_waste"; "food_wrapper"]%string.

(** [LABELS[int(cls_idx)]]: negative indices count from the end, anything
    else out of range raises. *)
Definition label_of (cls_idx : Z) : option string :=
  if (0 <=? cls_idx)%Z && (cls_idx <? 4)%Z
  then nth_error LABELS (Z.to_nat cls_idx)
  else if (-4 <=? cls_idx)%Z && (cls_idx <? 0)%Z
  then nth_error LABELS (Z.to_nat (cls_idx + 4))
  else None.

Fixpoint labels_of (classes : list Z) (scores : list Q)
  : option (list (string * Q)) :=
  match classes, scores with
  | c :: cs, s :: ss =>
      match label_of c, labels_of cs ss with
      | Some l, Some rest => Some ((l, s) :: rest)
      | _, _ => None
      end
  | _, _ => Some []
  end.

Definition clip (lo hi x : Q) : Q := Qmin hi (Qmax lo x).

Definition mean (l : list Q) : Q :=
  match l with
  | [] => 0
  | _ => fold_right Qplus 0 l / inject_Z (Z.of_nat (List.length l))
  end.

(** Undo the letterbox for one row and clamp it to the image. *)
Definition remap_row (scale : Q) (pad_x pad_y w0 h0 : Z) (row : list Q)
  : Nms.Box :=
  let s := scale + (1 # 1000000000) in
  let fx x := clip 0 (inject_Z w0) ((x - inject_Z pad_x) / s) in
  let fy y := clip 0 (inject_Z h0) ((y - inject_Z pad_y) / s) in
  Nms.mkBox (fx (nth 0 row 0)) (fy (nth 1 row 0))
            (fx (nth 2 row 0)) (fy (nth 3 row 0)).

Definition box_to_list (b : Nms.Box) : list Q :=
  [Nms.bx1 b; Nms.by1 b; Nms.bx2 b; Nms.by2 b].

(** [run_detection_on_image_bytes(img_bytes, conf_thresh=0.25,
    iou_thresh=0.45, input_size=640)].  [model_file_exists] stands for
    [get_ort_session()] returning a session. *)
Definition run_detection_on_image_bytes (env : Env) (img : ImageBytes)
    (conf_thresh iou_thresh : Q) (input_size : Z) : Exn + DetectionResults :=
  match imdecode img with
  | None => inl (OtherException "BAD_DECODE")
  | Some (h0, w0) =>
  match _letterbox_resize h0 w0 input_size with
  | None => inl (OtherException "cv2.error")
  | Some (scale, (pad_x, pad_y)) =>
  if negb (model_file_exists env) then inl (OtherException "Model not found")
  else
  match session_run img with
  | OrtRaises what => inl (OtherException what)
  | OrtOutputs None => inr nothing_detected
  | OrtOutputs (Some preds) =>
  if Nat.eqb (fold_right Nat.mul 1%nat (shape preds)) 0
  then inr nothing_detected
  else
    let shape2 := match shape preds with
                  | [1%nat; n; c] => [n; c]
                  | s => s
                  end in
    match shape2 with
    | [_; ncols] =>
        if (ncols <? 6)%nat
        then inl (OtherException "Unexpected ONNX output shape")
        else
          let kept := filter (fun row => Qle_bool conf_thresh (nth 4 row 0))
                             (data preds) in
          match kept with
          | [] => inr nothing_detected
          | _ :: _ =>
              let boxes := map (remap_row scale pad_x pad_y w0 h0) kept in
              let scores := map (fun row => nth 4 row 0) kept in
              let classes := map (fun row => Qtrunc (nth 5 row 0)) kept in
              let keep_idx := Nms._nms boxes scores iou_thresh in
              let final_boxes :=
                map box_to_list (Nms.take_rows Nms.zero_box boxes keep_idx) in
              let final_scores := Nms.take_rows 0 scores keep_idx in
              let final_classes := Nms.take_rows 0%Z classes keep_idx in
              match labels_of final_classes final_scores with
              | None => inl (OtherException "IndexError")
              | Some detections =>
                  let total := Z.of_nat (List.length detections) in
                  inr (mkResults detections final_boxes total
                         (Severity.determine_severity total final_boxes
                            (Some (inject_Z w0, inject_Z h0)))
                         (mean final_scores))
              end
          end
    | _ => inl (OtherException "Unexpected ONNX output shape")
    end
  end end end.

(** [create_litter_detection(db, report_id)]: what it returns or raises,
    and the store it leaves.  The store argument is the committed state;
    [db.rollback()] discards what was not committed. *)
Definition create_litter_detection (env : Env) (db : DB) (report_id : uuid)
  : (Exn + LitterDetection) * DB :=
  (* 1) fetch report + upload *)
  match get_report db report_id with
  | None => (inl (HTTPException 404 (Message "Report not found")), db)
  | Some report =>
  match match lr_upload_id report with
        | Some uid => get_upload db uid
        | None => None
        end with
  | None => (inl (HTTPException 400 (Message "No upload or file_url")), db)
  | Some upload =>
  if String.eqb (up_file_url upload) ""
  then (inl (HTTPException 400 (Message "No upload or file_url")), db)
  else
  (* 2) fetch image *)
  match fetch_image_bytes env (up_file_url upload) with
  | inl e => (* except HTTPException: db.rollback(); raise *)
      (inl e, db)
  | inr img_bytes =>
  (* 3) run detection *)
  match run_detection_on_image_bytes env img_bytes (1 # 4) (9 # 20) 640 with
  | inl (HTTPException st d) => (inl (HTTPException st d), db)
  | inl (OtherException what) =>
      (* except Exception: rollback, mark the report, commit, raise 500 *)
      (inl (HTTPException 500 (Message "Detection service error")),
       update_report (set_error (ErrorJson what)) report_id db)
  | inr detection_results =>
      let total := total_litter_count detection_results in
      if (total =? 0)%Z then
        (inl (HTTPException 400 (Message "No litter detected.")),
         update_report (set_outcome "no-litter" false NoLitterJson)
                       report_id db)
      else
        (* 4) persist detection row, 5) update report *)
        let detection :=
          mkDetection report_id
            (detected_objects detection_results)
            (bounding_boxes detection_results)
            total
            (severity_level detection_results)
            (detection_confidence detection_results) in
        let db1 := mkDB (uploads db) (litter_reports db)
                        (image_fingerprints db) (litter_groups db)
                        (litter_detections db ++ [detection]) in
        (inr detection,
         update_report
           (set_detected (severity_level detection_results)
              (DetectionJson total (severity_level detection_results)))
           report_id db1)
  end end end end.

(** The statuses in which a report is settled after a failed run. *)
Definition terminal (status : string) : bool :=
  String.eqb status "no-litter" || String.eqb status "error".

End Detection.

(* ===================================================================== *)
(** ** Reading and patching detection data                                *)
(* ===================================================================== *)

Module DetectionQueries.
Import Store.

(** [get_detections_for_report(db, report_id)]. *)
Definition get_detections_for_report (db : DB) (report_id : uuid)
  : list LitterDetection :=
  filter (fun d => N.eqb (ld_litter_report_id d) report_id)
         (litter_detections db).

(** [report.severity = detection_results.get("severity_level");
    report.is_detected = True; report.detection_results = ...]. *)
Definition set_payload (severity_level : option Severity.level)
    (j : ResultsJson) (r : LitterReport) : LitterReport :=
  mkReport (lr_id r) (lr_user_id r) (lr_group_id r) (lr_upload_id r)
           (lr_latitude r) (lr_longitude r) (Some j)
           severity_level (lr_status r) true (lr_is_grouped r)
           (lr_created_at r) (lr_geom r).

(** [update_litter_report_with_detection(db, litter_report_id,
    detection_results)].  The dictionary is given by what the function
    reads from it: the value under ["severity_level"] ([None] when the
    key is missing) and the JSON it encodes to. *)
Definition update_litter_report_with_detection (db : DB)
    (litter_report_id : uuid) (severity_level : option Severity.level)
    (detection_results : ResultsJson) : (Exn + LitterReport) * DB :=
  match get_report db litter_report_id with
  | None => (inl (HTTPException 404 (Message "Report not found")), db)
  | Some report =>
      (inr (set_payload severity_level detection_results report),
       update_report (set_payload severity_level detection_results)
                     litter_report_id db)
  end.

End DetectionQueries.

(* ===================================================================== *)
(** * Properties                                                          *)
(* ===================================================================== *)

(** ** Severity *)

Module SeverityFacts.
Import Severity.
Local Open Scope Q_scope.

Lemma Qlt_bool_true (a b : Q) : Qlt_bool a b = true <-> a < b.
Proof.
  unfold Qlt_bool. rewrite negb_true_iff. split; intro H.
  - apply Qnot_le_lt. intro Hle. apply Qle_bool_iff in Hle. congruence.
  - destruct (Qle_bool b a) eqn:E; [|reflexivity].
    apply Qle_bool_iff in E. exfalso. exact (Qlt_not_le _ _ H E).
Qed.

Lemma count_level_not_none (n : Z) : count_level n <> none.
Proof.
  unfold count_level.
  destruct (n <? 5)%Z; [discriminate|]. destruct (n <? 15)%Z; discriminate.
Qed.

(** The function answers [none] for a zero count and for nothing else. *)
Lemma determine_severity_none_iff n boxes size :
  determine_severity n boxes size = none <-> n = 0%Z.
Proof.
  unfold determine_severity.
  destruct (Z.eqb_spec n 0) as [->|Hn]; [tauto|].
  split; [|contradiction]. intro H. exfalso.
  pose proof (count_level_not_none n) as Hc.
  destruct size as [[w h]|]; [|contradiction].
  destruct boxes; [contradiction|].
  destruct (Qlt_bool 0 (w * h)); [|contradiction].
  destruct (Qlt_bool (1 # 10) _ && _); [discriminate|].
  destruct (Qlt_bool (1 # 20) _ && _); [discriminate|contradiction].
Qed.

(** The density adjustment never lowers the count-based level. *)
Lemma determine_severity_escalates n boxes size :
  n <> 0%Z -> level_le (count_level n) (determine_severity n boxes size).
Proof.
  intro Hn. unfold determine_severity, level_le.
  destruct (Z.eqb_spec n 0) as [E|_]; [contradiction|].
  destruct size as [[w h]|]; [|lia].
  destruct boxes; [lia|].
  destruct (Qlt_bool 0 (w * h)); [|lia].
  destruct (count_level n); simpl;
    repeat match goal with |- context [Qlt_bool ?a ?b] =>
             destruct (Qlt_bool a b); simpl end; lia.
Qed.

End SeverityFacts.

(** ** Severity, in double precision *)

Module SeverityFloatFacts.
Import PrimFloat.
Import Severity SeverityFloat.
Local Open Scope float_scope.
Set Warnings "-inexact-float".

(** With no box the sum is [0.0], and [0.0 / a] (a zero or a NaN, whatever
    [a] is) exceeds no positive threshold. *)
Lemma float_density_of_no_box (a t : float) :
  (0 <? t) = true -> (t <? boxes_area [] / a) = false.
Proof.
  intro Ht. change (boxes_area []) with 0.
  rewrite FloatAxioms.ltb_spec, FloatAxioms.div_spec.
  rewrite FloatAxioms.ltb_spec in Ht.
  change (FloatOps.Prim2SF 0) with (SpecFloat.S754_zero false) in *.
  destruct (FloatOps.Prim2SF a) as [s|s| |s m e];
    destruct (FloatOps.Prim2SF t) as [s'|s'| |s' m' e'];
    try destruct s; try destruct s';
    try discriminate; reflexivity.
Qed.

Lemma float_severity_none_iff n boxes size :
  determine_severity n boxes size = none <-> n = 0%Z.
Proof.
  unfold determine_severity.
  destruct (Z.eqb_spec n 0) as [->|Hn]; [tauto|].
  split; [|contradiction]. intro H. exfalso. revert H.
  assert (Hc : count_level n <> none).
  { unfold count_level.
    destruct (n <? 5)%Z; [discriminate|].
    destruct (n <? 15)%Z; discriminate. }
  destruct size as [[w h]|]; [|exact Hc].
  destruct boxes; [exact Hc|].
  destruct (0 <? w * h)%Z; [|exact Hc].
  cbv zeta.
  destruct (_ && _); [discriminate|].
  destruct (_ && _); [discriminate|exact Hc].
Qed.

Lemma float_severity_escalates n boxes size :
  n <> 0%Z -> level_le (count_level n) (determine_severity n boxes size).
Proof.
  intro Hn. unfold determine_severity, level_le.
  destruct (Z.eqb_spec n 0) as [E|_]; [contradiction|].
  destruct size as [[w h]|]; [|lia].
  destruct boxes; [lia|].
  destruct (0 <? w * h)%Z; [|lia].
  cbv zeta.
  destruct (count_level n); simpl;
    repeat match goal with |- context [ltb ?a ?b] =>
             destruct (ltb a b); simpl end; lia.
Qed.




(** Rounding at the threshold.  On a 640 x 480 image a box of 160 x 192
    covers one tenth; a second box of side 2^-30 adds 2^-60 to the sum,
    which the double 30720 absorbs.  The quotient is the double [0.10]
    itself, it does not compare greater, and two objects stay at
    [medium]. *)
Lemma determine_severity_rounds_at_threshold :
  boxes_area [[0; 0; 160; 192]; [0; 0; 0x1p-30; 0x1p-30]] = 30720
  /\ boxes_area [[0; 0; 160; 192]; [0; 0; 0x1p-30; 0x1p-30]]
       / float_of_int (640 * 480) = 0.10
  /\ determine_severity 2 [[0; 0; 160; 192]; [0; 0; 0x1p-30; 0x1p-30]]
       (Some (640, 480)%Z) = medium.
Proof. repeat split; vm_compute; reflexivity. Qed.

End SeverityFloatFacts.

(** ** Non-max suppression *)

Module NmsFacts.
Import Nms.
Local Open Scope Q_scope.

Lemma inter_sym (a b : Box) : inter a b == inter b a.
Proof.
  unfold inter.
  rewrite (Q.max_comm (bx1 a) (bx1 b)), (Q.max_comm (by1 a) (by1 b)).
  rewrite (Q.min_comm (bx2 a) (bx2 b)), (Q.min_comm (by2 a) (by2 b)).
  reflexivity.
Qed.

Lemma iou_den_sym (a b : Box) : iou_den a b == iou_den b a.
Proof. unfold iou_den. rewrite (inter_sym a b). ring. Qed.

(** The overlap test does not depend on which box is held and which is
    compared. *)
Lemma iou_le_sym (t : Q) (a b : Box) : iou_le t a b = iou_le t b a.
Proof.
  unfold iou_le.
  rewrite (Qeqb_comp _ _ (iou_den_sym a b) 0 0 (Qeq_refl 0)).
  destruct (Qeq_bool (iou_den b a) 0); [reflexivity|].
  apply Qleb_comp; [|reflexivity].
  rewrite (inter_sym a b), (iou_den_sym a b). reflexivity.
Qed.

Section LoopFacts.

Variable keeps : nat -> nat -> bool.

Lemma nms_loop_cons (i : nat) (rest : list nat) :
  nms_loop keeps (i :: rest) = i :: nms_loop keeps (filter (keeps i) rest).
Proof. now simp nms_loop. Qed.

(** What the loop keeps comes from its input. *)
Lemma nms_loop_incl (order : list nat) :
  forall x, In x (nms_loop keeps order) -> In x order.
Proof.
  apply (nms_loop_elim keeps (fun order res => forall x, In x res -> In x order)).
  - intros x H; exact H.
  - intros i rest IH x [->|H]; [now left|].
    right. apply IH in H. apply filter_In in H. tauto.
Qed.

Lemma nms_loop_NoDup (order : list nat) :
  NoDup order -> NoDup (nms_loop keeps order).
Proof.
  apply (nms_loop_elim keeps (fun order res => NoDup order -> NoDup res)).
  - intros _. constructor.
  - intros i rest IH Hnd. inversion Hnd as [|? ? Hni Hrest]; subst.
    constructor.
    + intro H. apply nms_loop_incl in H. apply filter_In in H. tauto.
    + apply IH. apply NoDup_filter. exact Hrest.
Qed.

(** Every kept index passed the test against every index kept before it. *)
Lemma nms_loop_pairs (order : list nat) :
  ForallOrdPairs (fun i j => keeps i j = true) (nms_loop keeps order).
Proof.
  apply (nms_loop_elim keeps
           (fun _ res => ForallOrdPairs (fun i j => keeps i j = true) res)).
  - constructor.
  - intros i rest IH. constructor; [|exact IH].
    apply Forall_forall. intros x H.
    apply nms_loop_incl in H. apply filter_In in H. tauto.
Qed.

(** A list whose distinct members all pass the test against one another
    is kept whole. *)
Lemma nms_loop_fixed (order : list nat) :
  NoDup order ->
  (forall i j, In i order -> In j order -> i <> j -> keeps i j = true) ->
  nms_loop keeps order = order.
Proof.
  induction order as [|i rest IH]; intros Hnd Hall.
  - now simp nms_loop.
  - rewrite nms_loop_cons. inversion Hnd as [|? ? Hni Hrest]; subst.
    assert (Hf : filter (keeps i) rest = rest).
    { apply forallb_filter_id. apply forallb_forall. intros j Hj.
      apply Hall; [now left|now right|]. intro E; subst. contradiction. }
    rewrite Hf. f_equal. apply IH; [exact Hrest|].
    intros a b Ha Hb. apply Hall; now right.
Qed.

End LoopFacts.

Lemma insert_by_perm key x l : Permutation (insert_by key x l) (x :: l).
Proof.
  induction l as [|y l IH]; simpl; [reflexivity|].
  destruct (Qle_bool (key x) (key y)); [reflexivity|].
  rewrite IH. apply perm_swap.
Qed.

(** [argsort] lists every index once. *)
Lemma argsort_perm (scores : list Q) :
  Permutation (argsort scores) (seq 0 (List.length scores)).
Proof.
  unfold argsort. induction (seq 0 (List.length scores)) as [|x l IH]; simpl.
  - reflexivity.
  - rewrite insert_by_perm. now apply perm_skip.
Qed.

Lemma order_perm (scores : list Q) :
  Permutation (rev (argsort scores)) (seq 0 (List.length scores)).
Proof. rewrite <- Permutation_rev. apply argsort_perm. Qed.

Lemma ordered_pairs_sym {A : Type} (R : A -> A -> Prop) (l : list A) :
  (forall a b, R a b -> R b a) ->
  ForallOrdPairs R l -> NoDup l ->
  forall a b, In a l -> In b l -> a <> b -> R a b.
Proof.
  intros Hsym Hp. induction Hp as [|x l Hx Hl IH]; intros Hnd a b Ha Hb Hab.
  - destruct Ha.
  - inversion Hnd; subst. rewrite Forall_forall in Hx.
    destruct Ha as [->|Ha], Hb as [->|Hb].
    + contradiction.
    + now apply Hx.
    + apply Hsym. now apply Hx.
    + now apply IH.
Qed.

Lemma nth_take_rows {A : Type} (d : A) (a : list A) (idx : list nat) (p : nat) :
  (p < List.length idx)%nat ->
  nth p (take_rows d a idx) d = nth (nth p idx 0%nat) a d.
Proof.
  intro Hp. unfold take_rows.
  rewrite (nth_indep _ d (nth 0%nat a d)) by (now rewrite length_map).
  apply (map_nth (fun i => nth i a d)).
Qed.

(** The indices [_nms] keeps are distinct, and any two of the kept boxes
    pass the overlap test. *)
Lemma nms_kept_pairwise (boxes : list Box) (scores : list Q) (t : Q) :
  NoDup (_nms boxes scores t)
  /\ (forall i j, In i (_nms boxes scores t) -> In j (_nms boxes scores t) ->
        i <> j ->
        iou_le t (nth i boxes zero_box) (nth j boxes zero_box) = true).
Proof.
  unfold _nms. destruct boxes as [|b bs].
  - split; [constructor|intros i j []].
  - set (keeps := fun i j : nat => iou_le t _ _).
    assert (Hnd : NoDup (nms_loop keeps (rev (argsort scores)))).
    { apply nms_loop_NoDup.
      apply (Permutation_NoDup (Permutation_sym (order_perm scores))).
      apply seq_NoDup. }
    split; [exact Hnd|].
    apply (ordered_pairs_sym (fun i j => keeps i j = true)).
    + intros a c H. unfold keeps in *. now rewrite iou_le_sym.
    + apply nms_loop_pairs.
    + exact Hnd.
Qed.

(** C8: the safety-net NMS is idempotent.  Running [_nms] again on the
    boxes it kept, with their scores and the same threshold, keeps every
    one of them (its answer lists each of their positions once), because
    any two surviving boxes pass the test [iou <= iou_thresh]. *)
Theorem nms_idempotent (boxes : list Box) (scores : list Q) (t : Q) :
  List.length boxes = List.length scores ->
  let keep := _nms boxes scores t in
  Permutation
    (_nms (take_rows zero_box boxes keep) (take_rows 0 scores keep) t)
    (seq 0 (List.length keep))
  /\ (forall i j, In i keep -> In j keep -> i <> j ->
        iou_le t (nth i boxes zero_box) (nth j boxes zero_box) = true).
Proof.
  intros _ keep.
  destruct (nms_kept_pairwise boxes scores t) as [Hnd Hpairs].
  fold keep in Hnd, Hpairs. split; [|exact Hpairs].
  assert (Hlen : List.length (take_rows 0 scores keep) = List.length keep)
    by apply length_map.
  unfold _nms at 1.
  destruct (take_rows zero_box boxes keep) as [|b0 bs0] eqn:E.
  - destruct keep; [reflexivity|discriminate E].
  - rewrite <- E. rewrite nms_loop_fixed.
    + rewrite order_perm, Hlen. reflexivity.
    + apply (Permutation_NoDup (Permutation_sym (order_perm _))).
      apply seq_NoDup.
    + intros p q Hp Hq Hpq.
      assert (Hin : forall x, In x (rev (argsort (take_rows 0 scores keep))) ->
                              (x < List.length keep)%nat).
      { intros x Hx. apply (Permutation_in _ (order_perm _)) in Hx.
        rewrite Hlen in Hx. apply in_seq in Hx. lia. }
      apply Hin in Hp, Hq.
      rewrite !nth_take_rows by assumption.
      apply Hpairs; try (apply nth_In; assumption).
      intro Heq. apply Hpq.
      apply (proj1 (NoDup_nth keep 0%nat) Hnd); assumption.
Qed.

Definition sample_boxes : list Box :=
  [mkBox 0 0 10 10; mkBox 1 1 11 11; mkBox 20 20 30 30].

Definition sample_scores : list Q := [9 # 10; 8 # 10; 7 # 10].

(** Of three boxes the second overlaps the first too much and is dropped. *)
Example nms_sample : _nms sample_boxes sample_scores (9 # 20) = [0; 2]%nat.
Proof. vm_compute. reflexivity. Qed.

Lemma nms_idempotent_witness :
  let keep := _nms sample_boxes sample_scores (9 # 20) in
  Permutation
    (_nms (take_rows zero_box sample_boxes keep)
          (take_rows 0 sample_scores keep) (9 # 20))
    (seq 0 (List.length keep))
  /\ (forall i j, In i keep -> In j keep -> i <> j ->
        iou_le (9 # 20) (nth i sample_boxes zero_box)
                        (nth j sample_boxes zero_box) = true).
Proof.
  apply (nms_idempotent sample_boxes sample_scores (9 # 20)). reflexivity.
Defined.

End NmsFacts.

(** ** The store *)

Module StoreFacts.
Import Store.

Lemma get_report_update (f : LitterReport -> LitterReport) (rid : uuid)
    (db : DB) (r : LitterReport) :
  (forall x, lr_id (f x) = lr_id x) ->
  get_report db rid = Some r ->
  get_report (update_report f rid db) rid = Some (f r).
Proof.
  intros Hid. unfold get_report, update_report. cbn [litter_reports].
  induction (litter_reports db) as [|x l IH]; cbn [find map]; [discriminate|].
  destruct (N.eqb (lr_id x) rid) eqn:E.
  - intro H. injection H as <-. now rewrite Hid, E.
  - rewrite E. exact IH.
Qed.

Lemma get_report_id (db : DB) (rid : uuid) (r : LitterReport) :
  get_report db rid = Some r -> lr_id r = rid.
Proof.
  unfold get_report. intro H. apply find_some in H.
  now apply N.eqb_eq.
Qed.

End StoreFacts.

(** ** Deduplication gate *)

Module UploadsFacts.
Import Store StoreFacts Uploads.
Local Open Scope Q_scope.

(** The tables a radius attachment touches: only [litter_reports]. *)
Lemma assign_keeps_fingerprints db rid lat lng radius :
  image_fingerprints (Grouper._assign_to_nearest_group db rid lat lng radius)
  = image_fingerprints db.
Proof.
  unfold Grouper._assign_to_nearest_group.
  destruct (Grouper.nearest_group_row db lat lng radius); reflexivity.
Qed.

Lemma create_report_keeps_fingerprints env db user uid lat lng :
  image_fingerprints (snd (create_report_controller env db user uid lat lng))
  = image_fingerprints db.
Proof.
  unfold create_report_controller, create_litter_report.
  destruct (existsb _ (litter_reports db)); [reflexivity|].
  match goal with |- context [get_report ?d ?i] => destruct (get_report d i) end;
    cbn [snd]; rewrite assign_keeps_fingerprints; reflexivity.
Qed.

Lemma create_upload_keeps_fingerprints env db file lat lng user sess :
  image_fingerprints
    (snd (create_upload_controller env db file lat lng user sess))
  = image_fingerprints db.
Proof.
  unfold create_upload_controller.
  destruct (negb (disk_write_ok env)); [reflexivity|].
  destruct (existsb _ (uploads db)); reflexivity.
Qed.

(** A row appended under a fresh id is the row found under that id. *)
Lemma new_row_found (db : DB) (r : LitterReport) up fps gs ds :
  existsb (fun x => N.eqb (lr_id x) (lr_id r)) (litter_reports db) = false ->
  get_report (mkDB up (litter_reports db ++ [r]) fps gs ds) (lr_id r)
  = Some r.
Proof.
  unfold get_report. cbn [litter_reports].
  induction (litter_reports db) as [|x l IH]; cbn [existsb find app].
  - intros _. now rewrite N.eqb_refl.
  - destruct (N.eqb (lr_id x) (lr_id r)); [discriminate|]. exact IH.
Qed.

(** The report the controller returns is the row of the store with its
    id, still [pending]. *)
Lemma create_report_returns_row env db user uid lat lng report db2 :
  create_report_controller env db user uid lat lng = (inr report, db2) ->
  get_report db2 (lr_id report) = Some report
  /\ lr_status report = "pending"%string.
Proof.
  unfold create_report_controller, create_litter_report.
  destruct (existsb _ (litter_reports db)) eqn:Hex; [discriminate|].
  match goal with |- context [get_report ?d ?i] =>
    destruct (get_report d i) as [r|] eqn:Hg end; [|discriminate].
  intro H. injection H as <- <-.
  pose proof (get_report_id _ _ _ Hg) as Hid. cbn [lr_id] in Hid.
  split; [rewrite Hid; exact Hg|].
  revert Hg. unfold Grouper._assign_to_nearest_group.
  set (row := mkReport (new_report_id env) user None (Some uid) lat lng
                None None "pending" false false (localnow env) None).
  assert (Hgeom : get_report
            (update_report (set_geom (st_makepoint (Some lng) (Some lat)))
               (new_report_id env)
               (mkDB (uploads db) (litter_reports db ++ [row])
                     (image_fingerprints db) (litter_groups db)
                     (litter_detections db)))
            (new_report_id env)
          = Some (set_geom (st_makepoint (Some lng) (Some lat)) row)).
  { apply get_report_update; [reflexivity|].
    apply (new_row_found db row). exact Hex. }
  match goal with |- context [Grouper.nearest_group_row ?d ?a ?b ?c] =>
    destruct (Grouper.nearest_group_row d a b c) as [g|] end.
  - change (lr_id row) with (new_report_id env).
    rewrite (get_report_update (set_group (lg_id g)) _ _ _
               (fun _ => eq_refl) Hgeom).
    intro H. injection H as <-. reflexivity.
  - change (lr_id row) with (new_report_id env).
    rewrite Hgeom. intro H. injection H as <-. reflexivity.
Qed.

(** The only way to a 409: a decodable image and a non-empty list of
    pHash duplicates, raised with the store untouched. *)
Lemma upload_409_inv env sess file lat lng db user d :
  fst (upload_create_report_and_detect env sess file lat lng db user)
    = inl (HTTPException 409 d) ->
  exists ph,
    file_phash file = Some ph
    /\ d = Duplicate "phash"
             (phash_duplicates ph
                (recent_fingerprints db (utcnow env - days 7)%Z))
    /\ phash_duplicates ph (recent_fingerprints db (utcnow env - days 7)%Z)
       <> []
    /\ snd (upload_create_report_and_detect env sess file lat lng db user)
       = db.
Proof.
  unfold upload_create_report_and_detect.
  destruct (file_phash file) as [ph|]; [|discriminate].
  destruct (phash_duplicates ph _) as [|i ids] eqn:Hd.
  - intro H. exfalso. revert H.
    destruct (create_upload_controller env db file lat lng user sess)
      as [[e|upload] db1] eqn:Hu.
    + unfold create_upload_controller in Hu.
      destruct (negb (disk_write_ok env)); [inversion Hu; discriminate|].
      destruct (existsb _ (uploads db)); inversion Hu; discriminate.
    + destruct lat as [lat|]; [|discriminate].
      destruct lng as [lng|]; [|discriminate].
      destruct (create_report_controller env db1 user (up_id upload) lat lng)
        as [[e|report] db2] eqn:Hr.
      * unfold create_report_controller in Hr.
        destruct (create_litter_report env db1 user (up_id upload) lat lng)
          as [[r|] db2']; inversion Hr; discriminate.
      * destruct (existsb _ (image_fingerprints db2)); discriminate.
  - cbn [fst snd]. intro H. injection H as <-.
    exists ph. rewrite Hd. repeat split. discriminate.
Qed.

Lemma upload_409_intro env sess file lat lng db user ph :
  file_phash file = Some ph ->
  phash_duplicates ph (recent_fingerprints db (utcnow env - days 7)%Z) <> [] ->
  upload_create_report_and_detect env sess file lat lng db user
  = (inl (HTTPException 409
            (Duplicate "phash"
               (phash_duplicates ph
                  (recent_fingerprints db (utcnow env - days 7)%Z)))),
     db).
Proof.
  intros Hph Hne. unfold upload_create_report_and_detect. rewrite Hph.
  destruct (phash_duplicates ph _); [contradiction|reflexivity].
Qed.

(** Membership in the list of duplicate ids, spelled out over the tables. *)
Lemma phash_duplicates_spec db ph t id :
  In id (phash_duplicates ph (recent_fingerprints db t)) <->
  exists fp r,
    In fp (image_fingerprints db) /\ In r (litter_reports db)
    /\ fp_report_id fp = lr_id r /\ (t <= lr_created_at r)%Z
    /\ (hamming ph (fp_phash fp) <= PHASH_THRESHOLD)%nat
    /\ id = fp_report_id fp.
Proof.
  unfold phash_duplicates, recent_fingerprints. rewrite in_map_iff. split.
  - intros [[rid h] [Hid Hin]]. cbn [fst] in Hid. subst rid.
    apply filter_In in Hin. destruct Hin as [Hin Hham].
    apply in_flat_map in Hin. destruct Hin as [fp [Hfp Hrow]].
    apply in_map_iff in Hrow. destruct Hrow as [r [Heq Hr]].
    apply filter_In in Hr. destruct Hr as [Hr Hc].
    apply andb_true_iff in Hc. destruct Hc as [Hid Ht].
    cbn beta in Heq. injection Heq as <- <-. cbn [snd] in Hham.
    exists fp, r. repeat split; try assumption.
    + now apply N.eqb_eq.
    + now apply Z.leb_le.
    + now apply Nat.leb_le.
  - intros [fp [r [Hfp [Hr [Hid [Ht [Hham ->]]]]]]].
    exists (fp_report_id fp, fp_phash fp). split; [reflexivity|].
    apply filter_In. split.
    + apply in_flat_map. exists fp. split; [assumption|].
      apply in_map_iff. exists r. split; [reflexivity|].
      apply filter_In. split; [assumption|].
      apply andb_true_iff. split; [now apply N.eqb_eq|now apply Z.leb_le].
    + cbn [snd]. now apply Nat.leb_le.
Qed.

(** The test the query and the loop make on a fingerprint of the store:
    the [created_at] of its report, a stamp of the local clock
    ([datetime.now]), is no earlier than the UTC time of the request
    ([datetime.utcnow()]) minus seven days, and its perceptual hash is
    within 8 bits of the image's. *)
Definition phash_match (env : Env) (file : UploadFile) (db : DB) (id : uuid)
  : Prop :=
  exists ph fp r,
    file_phash file = Some ph
    /\ In fp (image_fingerprints db) /\ In r (litter_reports db)
    /\ fp_report_id fp = lr_id r
    /\ (utcnow env - days 7 <= lr_created_at r)%Z
    /\ (hamming ph (fp_phash fp) <= 8)%nat
    /\ id = fp_report_id fp.

(** The endpoint answers 409 with reason [phash] if and only if some
    fingerprint passes the test of [phash_match], which compares the
    local-clock [created_at] of the report with the UTC time of the
    request minus seven days; the ids it reports are exactly the ids of
    the reports that pass. *)
Theorem phash_rejection_iff env sess file lat lng db user :
  ((exists ids,
      fst (upload_create_report_and_detect env sess file lat lng db user)
      = inl (HTTPException 409 (Duplicate "phash" ids)))
   <-> (exists id, phash_match env file db id))
  /\ (forall ids,
        fst (upload_create_report_and_detect env sess file lat lng db user)
        = inl (HTTPException 409 (Duplicate "phash" ids)) ->
        forall id, In id ids <-> phash_match env file db id).
Proof.
  assert (Hspec : forall ph id, file_phash file = Some ph ->
            (In id (phash_duplicates ph
                      (recent_fingerprints db (utcnow env - days 7)%Z))
             <-> phash_match env file db id)).
  { intros ph id Hph. rewrite phash_duplicates_spec. unfold phash_match.
    split.
    - intros (fp & r & H). exists ph, fp, r. tauto.
    - intros (ph' & fp & r & Hph' & H). rewrite Hph in Hph'.
      injection Hph' as <-. exists fp, r. tauto. }
  split; [split|].
  - intros [ids H]. apply upload_409_inv in H.
    destruct H as (ph & Hph & _ & Hne & _).
    destruct (phash_duplicates ph _) as [|id l] eqn:E; [contradiction|].
    exists id. apply (Hspec ph id Hph). rewrite E. now left.
  - intros [id Hm]. pose proof Hm as (ph & _ & _ & Hph & _).
    apply (Hspec ph id Hph) in Hm.
    eexists. rewrite (upload_409_intro env sess file lat lng db user ph Hph).
    + reflexivity.
    + intro E. rewrite E in Hm. destruct Hm.
  - intros ids H id. apply upload_409_inv in H.
    destruct H as (ph & Hph & Hd & _). injection Hd as ->.
    apply Hspec. exact Hph.
Qed.

(** *** The seven-day window on one clock

    A report is created within the last seven days when its [created_at]
    is no earlier than seven days before the time of the request, both
    read on the clock that stamps [created_at]. *)
Definition created_within_last_7_days (env : Env) (r : LitterReport) : Prop :=
  (localnow env - days 7 <= lr_created_at r)%Z.

(** The match of the specification: a fingerprint whose report was created
    within the last seven days, within 8 bits of the submitted image. *)
Definition recent_phash_match (env : Env) (file : UploadFile) (db : DB)
    (id : uuid) : Prop :=
  exists ph fp r,
    file_phash file = Some ph
    /\ In fp (image_fingerprints db) /\ In r (litter_reports db)
    /\ fp_report_id fp = lr_id r
    /\ created_within_last_7_days env r
    /\ (hamming ph (fp_phash fp) <= 8)%nat
    /\ id = fp_report_id fp.

(** A request at the UTC instant of day 30, on a server whose local time
    is UTC+05:30, and the one report of its store, created seven days and
    five hours earlier. *)
Definition kolkata_env : Env :=
  mkEnv (days 30) (days 30 + seconds 19800)%Z 2%N 2%N "/uploads/b.jpg" true.

Definition old_report : LitterReport :=
  mkReport 1%N 7%Z None (Some 1%N) (129716 # 10000) (775946 # 10000)
           None None "pending" false false
           (days 30 + seconds 19800 - (days 7 + seconds 18000))%Z
           (Some (mkPoint (775946 # 10000) (129716 # 10000))).

Definition kolkata_db : DB :=
  mkDB [mkUpload 1%N 7%Z (Some "s"%string) "/uploads/a.jpg"
                 (Some (129716 # 10000)) (Some (775946 # 10000))]
       [old_report] [mkFingerprint 1%N 0%N []] [] [].

(** The same instant on a server whose local time is UTC-05:00, and a
    report created six days and twenty-three hours earlier. *)
Definition new_york_env : Env :=
  mkEnv (days 30) (days 30 - seconds 18000)%Z 2%N 2%N "/uploads/b.jpg" true.

Definition young_report : LitterReport :=
  mkReport 1%N 7%Z None (Some 1%N) (129716 # 10000) (775946 # 10000)
           None None "pending" false false
           (days 30 - seconds 18000 - (days 7 - seconds 3600))%Z
           (Some (mkPoint (775946 # 10000) (129716 # 10000))).

Definition new_york_db : DB :=
  mkDB [mkUpload 1%N 7%Z (Some "s"%string) "/uploads/a.jpg"
                 (Some (129716 # 10000)) (Some (775946 # 10000))]
       [young_report] [mkFingerprint 1%N 0%N []] [] [].

(** C5: the window of the pHash check is not the last seven days.  The
    query compares [created_at], stamped by the local clock, with the UTC
    time of the request minus seven days.  East of Greenwich a report
    older than seven days still rejects an image two bits away from its
    own (409, reason [phash]) although no fingerprint of the last seven
    days matches; west of Greenwich a report younger than seven days, a
    match of the specification, is passed over and the same image is
    accepted. *)
Theorem phash_window_mixes_two_clocks :
  (fst (upload_create_report_and_detect kolkata_env "s"
          (mkFile "b.jpg" (Some 3%N))
          (Some (129716 # 10000)) (Some (775947 # 10000)) kolkata_db 8%Z)
   = inl (HTTPException 409 (Duplicate "phash" [1%N]))
   /\ ~ (exists id,
           recent_phash_match kolkata_env (mkFile "b.jpg" (Some 3%N))
                              kolkata_db id))
  /\ (fst (upload_create_report_and_detect new_york_env "s"
             (mkFile "b.jpg" (Some 3%N))
             (Some (129716 # 10000)) (Some (775947 # 10000)) new_york_db 8%Z)
      = inr 2%N
      /\ recent_phash_match new_york_env (mkFile "b.jpg" (Some 3%N))
                            new_york_db 1%N).
Proof.
  split; split.
  - vm_compute. reflexivity.
  - intros (id & ph & fp & r & _ & _ & Hr & _ & Hc & _).
    destruct Hr as [<-|[]].
    unfold created_within_last_7_days in Hc. vm_compute in Hc.
    apply Hc. reflexivity.
  - vm_compute. reflexivity.
  - exists 3%N, (mkFingerprint 1%N 0%N []), young_report.
    split; [reflexivity|]. split; [left; reflexivity|].
    split; [left; reflexivity|]. split; [reflexivity|].
    split; [unfold created_within_last_7_days; vm_compute; discriminate|].
    split; [vm_compute; lia|reflexivity].
Qed.

(** C10: a pHash rejection is raised before any write: the store the
    endpoint leaves is the store it was given, so no upload, report or
    fingerprint row exists for the rejected submission. *)
Theorem phash_rejection_writes_nothing env sess file lat lng db user ids :
  fst (upload_create_report_and_detect env sess file lat lng db user)
  = inl (HTTPException 409 (Duplicate "phash" ids)) ->
  snd (upload_create_report_and_detect env sess file lat lng db user) = db.
Proof.
  intro H. apply upload_409_inv in H. destruct H as (_ & _ & _ & _ & H).
  exact H.
Qed.

(** *** The scenario of the specification

    A report at (12.9716, 77.5946) created at time T = 0 with its upload
    and fingerprint, and a request ten minutes later from (12.9716,
    77.5947), some 11 m away. *)
Definition first_report : LitterReport :=
  mkReport 1%N 7%Z None (Some 1%N) (129716 # 10000) (775946 # 10000)
           None None "pending" false false 0%Z
           (Some (mkPoint (775946 # 10000) (129716 # 10000))).

Definition scenario_db : DB :=
  mkDB [mkUpload 1%N 7%Z (Some "s"%string) "/uploads/a.jpg"
                 (Some (129716 # 10000)) (Some (775946 # 10000))]
       [first_report] [mkFingerprint 1%N 0%N []] [] [].

Definition scenario_env : Env :=
  mkEnv (seconds 600) (seconds 600) 2%N 2%N "/uploads/b.jpg" true.

(** The second request with an image two bits away from the first. *)
Lemma phash_rejection_writes_nothing_witness :
  fst (upload_create_report_and_detect scenario_env "s"
         (mkFile "b.jpg" (Some 3%N))
         (Some (129716 # 10000)) (Some (775947 # 10000)) scenario_db 8%Z)
  = inl (HTTPException 409 (Duplicate "phash" [1%N]))
  /\ snd (upload_create_report_and_detect scenario_env "s"
            (mkFile "b.jpg" (Some 3%N))
            (Some (129716 # 10000)) (Some (775947 # 10000)) scenario_db 8%Z)
     = scenario_db.
Proof.
  split; [reflexivity|].
  apply (phash_rejection_writes_nothing scenario_env "s"
           (mkFile "b.jpg" (Some 3%N))
           (Some (129716 # 10000)) (Some (775947 # 10000)) scenario_db 8%Z
           [1%N]).
  reflexivity.
Defined.

(** Membership in the answer of [find_spatio_temporal]. *)
Lemma find_spatio_temporal_spec dwithin db lat lng ts radius window id :
  In id (find_spatio_temporal dwithin db lat lng ts radius window) <->
  exists r g p,
    In r (litter_reports db) /\ lr_id r = id
    /\ (ts - seconds window <= lr_created_at r <= ts + seconds window)%Z
    /\ lr_geom r = Some g /\ st_makepoint lng lat = Some p
    /\ dwithin g p radius = true.
Proof.
  unfold find_spatio_temporal. rewrite in_map_iff. split.
  - intros [r [Hid Hin]]. apply filter_In in Hin. destruct Hin as [Hin Hc].
    apply andb_true_iff in Hc. destruct Hc as [Ht Hg].
    apply andb_true_iff in Ht. destruct Ht as [Hlo Hhi].
    apply Z.leb_le in Hlo, Hhi.
    destruct (lr_geom r) as [g|] eqn:Eg; [|discriminate].
    destruct (st_makepoint lng lat) as [p|] eqn:Ep; [|discriminate].
    exists r, g, p. repeat split; assumption.
  - intros (r & g & p & Hin & Hid & [Hlo Hhi] & Eg & Ep & Hd).
    exists r. split; [assumption|]. apply filter_In. split; [assumption|].
    rewrite Eg, Ep, Hd.
    apply Z.leb_le in Hlo, Hhi. rewrite Hlo, Hhi. reflexivity.
Qed.

(** C1 (as amended): [find_spatio_temporal] returns exactly the ids of the
    reports created within the window around [ts] whose geography is
    within the radius of the claimed point; the upload endpoint does not
    consult it: whenever the endpoint rejects a submission as a duplicate,
    the status is 409 and the reason is [phash]. *)
Theorem spatio_temporal_not_consulted
    (dwithin : Point -> Point -> Q -> bool) env sess file lat lng db user :
  (forall id,
     In id (find_spatio_temporal dwithin db lat lng (utcnow env)
              SPATIAL_RADIUS_M TEMPORAL_WINDOW_S) <->
     exists r g p,
       In r (litter_reports db) /\ lr_id r = id
       /\ (utcnow env - seconds 1800 <= lr_created_at r
           <= utcnow env + seconds 1800)%Z
       /\ lr_geom r = Some g /\ st_makepoint lng lat = Some p
       /\ dwithin g p 50 = true)
  /\ (forall status reason ids,
        fst (upload_create_report_and_detect env sess file lat lng db user)
        = inl (HTTPException status (Duplicate reason ids)) ->
        status = 409%Z /\ reason = "phash"%string).
Proof.
  split.
  - intro id. apply find_spatio_temporal_spec.
  - intros status reason ids. unfold upload_create_report_and_detect.
    destruct (file_phash file) as [ph|]; [|discriminate].
    destruct (phash_duplicates ph _) as [|i l].
    + unfold create_upload_controller.
      destruct (negb (disk_write_ok env)); [discriminate|].
      destruct (existsb _ (uploads db)); [discriminate|].
      destruct lat as [la|]; [|discriminate].
      destruct lng as [lo|]; [|discriminate].
      unfold create_report_controller.
      match goal with |- context [create_litter_report ?e ?d ?u ?i ?a ?b] =>
        destruct (create_litter_report e d u i a b) as [[r|] db2] end.
      * destruct (existsb _ (image_fingerprints db2)); discriminate.
      * discriminate.
    + cbn [fst]. intro H. injection H as <- <- _. split; reflexivity.
Qed.

(** C1 (as stated) fails on the scenario of the specification: the first
    report is a spatio-temporal match of the second request (ten minutes
    later, and within 50 m under any ground distance that says so), yet
    the endpoint, given an image nine bits away from the first, accepts
    the submission and answers with the id of a new report. *)
Lemma spatio_temporal_match_is_accepted :
  (forall dwithin : Point -> Point -> Q -> bool,
     dwithin (mkPoint (775946 # 10000) (129716 # 10000))
             (mkPoint (775947 # 10000) (129716 # 10000)) 50 = true ->
     find_spatio_temporal dwithin scenario_db
       (Some (129716 # 10000)) (Some (775947 # 10000))
       (utcnow scenario_env) SPATIAL_RADIUS_M TEMPORAL_WINDOW_S = [1%N])
  /\ fst (upload_create_report_and_detect scenario_env "s"
            (mkFile "b.jpg" (Some 511%N))
            (Some (129716 # 10000)) (Some (775947 # 10000)) scenario_db 8%Z)
     = inr 2%N.
Proof.
  split.
  - intros dwithin H. unfold find_spatio_temporal. cbn.
    change SPATIAL_RADIUS_M with 50. rewrite H. reflexivity.
  - vm_compute. reflexivity.
Qed.

Lemma update_report_fingerprints f rid db :
  image_fingerprints (update_report f rid db) = image_fingerprints db.
Proof. reflexivity. Qed.

Lemma no_fingerprint_yet (rid : uuid) (fps : list ImageFingerprint) :
  existsb (fun f => N.eqb (fp_report_id f) rid) fps = false ->
  filter (fun f => N.eqb (fp_report_id f) rid) fps = [].
Proof.
  induction fps as [|f fps IH]; simpl; [reflexivity|].
  destruct (N.eqb (fp_report_id f) rid); [discriminate|]. exact IH.
Qed.

(** C3 (as amended): for every accepted submission the endpoint adds
    exactly one fingerprint row, keyed by the id of the new report (a row
    of the store, still [pending]) and holding the image's perceptual
    hash; it is the only fingerprint of that report; its embedding is the
    empty byte string (no vector is stored). *)
Theorem accepted_submission_fingerprint env sess file lat lng db user rid :
  fst (upload_create_report_and_detect env sess file lat lng db user)
  = inr rid ->
  exists ph,
    file_phash file = Some ph
    /\ image_fingerprints
         (snd (upload_create_report_and_detect env sess file lat lng db user))
       = image_fingerprints db ++ [mkFingerprint rid ph []]
    /\ filter (fun f => N.eqb (fp_report_id f) rid)
         (image_fingerprints
            (snd (upload_create_report_and_detect env sess file lat lng db
                    user)))
       = [mkFingerprint rid ph []]
    /\ (exists r,
          get_report
            (snd (upload_create_report_and_detect env sess file lat lng db
                    user)) rid = Some r
          /\ lr_status r = "pending"%string).
Proof.
  unfold upload_create_report_and_detect.
  destruct (file_phash file) as [ph|]; [|discriminate].
  destruct (phash_duplicates ph _); [|discriminate].
  pose proof (create_upload_keeps_fingerprints env db file lat lng user sess)
    as Hup.
  destruct (create_upload_controller env db file lat lng user sess)
    as [[e|upload] db1]; [discriminate|].
  destruct lat as [la|]; [|discriminate].
  destruct lng as [lo|]; [|discriminate].
  pose proof (create_report_keeps_fingerprints env db1 user (up_id upload)
                la lo) as Hrep.
  pose proof (create_report_returns_row env db1 user (up_id upload) la lo)
    as Hrow.
  destruct (create_report_controller env db1 user (up_id upload) la lo)
    as [[e|report] db2]; [discriminate|].
  cbn [snd] in Hup, Hrep. specialize (Hrow report db2 eq_refl).
  destruct Hrow as [Hrow Hst].
  destruct (existsb _ (image_fingerprints db2)) eqn:Hex; [discriminate|].
  cbn [fst snd]. intro H. injection H as <-.
  exists ph. rewrite update_report_fingerprints. cbn [image_fingerprints].
  rewrite Hrep, Hup in *. split; [reflexivity|]. split; [reflexivity|].
  split.
  - rewrite filter_app, (no_fingerprint_yet _ _ Hex). cbn.
    rewrite N.eqb_refl. reflexivity.
  - eexists. split.
    + apply get_report_update; [reflexivity|exact Hrow].
    + exact Hst.
Qed.

(** The second request of the scenario, accepted. *)
Lemma accepted_submission_fingerprint_witness :
  exists ph,
    file_phash (mkFile "b.jpg" (Some 511%N)) = Some ph
    /\ image_fingerprints
         (snd (upload_create_report_and_detect scenario_env "s"
                 (mkFile "b.jpg" (Some 511%N))
                 (Some (129716 # 10000)) (Some (775947 # 10000))
                 scenario_db 8%Z))
       = image_fingerprints scenario_db ++ [mkFingerprint 2%N ph []]
    /\ filter (fun f => N.eqb (fp_report_id f) 2%N)
         (image_fingerprints
            (snd (upload_create_report_and_detect scenario_env "s"
                    (mkFile "b.jpg" (Some 511%N))
                    (Some (129716 # 10000)) (Some (775947 # 10000))
                    scenario_db 8%Z)))
       = [mkFingerprint 2%N ph []]
    /\ (exists r,
          get_report
            (snd (upload_create_report_and_detect scenario_env "s"
                    (mkFile "b.jpg" (Some 511%N))
                    (Some (129716 # 10000)) (Some (775947 # 10000))
                    scenario_db 8%Z)) 2%N = Some r
          /\ lr_status r = "pending"%string).
Proof.
  apply (accepted_submission_fingerprint scenario_env "s"
           (mkFile "b.jpg" (Some 511%N))
           (Some (129716 # 10000)) (Some (775947 # 10000)) scenario_db 8%Z
           2%N).
  vm_compute. reflexivity.
Defined.

(** C3 (as stated) fails: the fingerprint stored for the accepted request
    of the scenario has an empty embedding, a vector of no component,
    and no such vector has a norm within [eps] of 1 for any [eps < 1]. *)
Lemma accepted_fingerprint_has_no_embedding :
  image_fingerprints
    (snd (upload_create_report_and_detect scenario_env "s"
            (mkFile "b.jpg" (Some 511%N))
            (Some (129716 # 10000)) (Some (775947 # 10000))
            scenario_db 8%Z))
  = [mkFingerprint 1%N 0%N []; mkFingerprint 2%N 511%N []]
  /\ embedding_dim (fp_embedding (mkFingerprint 2%N 511%N [])) = 0%nat
  /\ (forall eps v, eps < 1 ->
        List.length v
        = embedding_dim (fp_embedding (mkFingerprint 2%N 511%N [])) ->
        ~ unit_norm eps v).
Proof.
  split; [vm_compute; reflexivity|]. split; [reflexivity|].
  intros eps v Heps Hlen [Hlo _]. cbn in Hlen.
  destruct v; [|discriminate]. cbn in Hlo.
  assert (Hpos : 0 < 1 - eps).
  { rewrite <- (Qplus_opp_r eps). apply Qplus_lt_l. exact Heps. }
  assert (Hsq : 0 < (1 - eps) * (1 - eps)).
  { rewrite <- (Qmult_0_l (1 - eps)). apply Qmult_lt_compat_r; assumption. }
  exact (Qlt_not_le _ _ Hsq Hlo).
Qed.

End UploadsFacts.

(** ** Spatial grouper *)

Module GrouperFacts.
Import Store Grouper.
Local Open Scope Q_scope.

(** Without a reference area the severity of a cluster is its
    count-based level. *)
Lemma cluster_severity_count (points : list (Q * Q)) :
  points <> [] ->
  cluster_severity points
  = Severity.count_level (Z.of_nat (List.length points)).
Proof.
  intro Hne. unfold cluster_severity.
  destruct (bounds points) as [[[minx miny] maxx] maxy].
  unfold Severity.determine_severity.
  destruct (Z.eqb_spec (Z.of_nat (List.length points)) 0) as [E|_];
    [|reflexivity].
  destruct points; [contradiction|discriminate E].
Qed.

(** C9 (as amended): for every cluster a suggestion run produces, the
    aggregate severity is the count-based level of the policy ([low] below
    5 members, [medium] below 15, [high] from 15 on) applied to the member
    count, which is positive; no reference area is passed, so no density
    upgrade is applied. *)
Theorem cluster_severity_is_count_level
    (st_transform_3857 : Point -> Q * Q)
    (dbscan : Q -> Z -> list (Q * Q) -> list Z)
    (db : DB) (eps : Q) (minpts : Z)
    (suggestions : list ClusterSuggestion) (s : ClusterSuggestion) :
  get_cluster_suggestions st_transform_3857 dbscan db eps minpts
  = Some suggestions ->
  In s suggestions ->
  avg_severity s = Severity.policy_count_level (report_count s)
  /\ (0 < report_count s)%Z
  /\ report_count s = Z.of_nat (List.length (members s)).
Proof.
  unfold get_cluster_suggestions.
  destruct (select_rows st_transform_3857 db) as [|r0 rows0] eqn:Hrows.
  - intros H Hin. injection H as <-. destruct Hin.
  - destruct (coords_of (r0 :: rows0)) as [coords|]; [|discriminate].
    intros H Hin. injection H as <-.
    apply in_flat_map in Hin. destruct Hin as [label [_ Hin]].
    unfold suggestion_of in Hin.
    destruct (label =? -1)%Z; [destruct Hin|].
    destruct (filter _ _) as [|e idx] eqn:Hidx; [destruct Hin|].
    destruct Hin as [<-|[]]. cbn [avg_severity report_count members].
    rewrite cluster_severity_count by discriminate.
    rewrite !length_map. cbn [List.length].
    split; [reflexivity|]. split; [lia|reflexivity].
Qed.

(** Three mutually close reports, all labelled as cluster 0. *)
Definition three_reports : DB :=
  mkDB [] 
       [ mkReport 1%N 7%Z None None 0 0 None None "pending" false false 0%Z
                  (Some (mkPoint 0 0));
         mkReport 2%N 7%Z None None 0 10 None None "pending" false false 0%Z
                  (Some (mkPoint 10 0));
         mkReport 3%N 7%Z None None 10 0 None None "pending" false false 0%Z
                  (Some (mkPoint 0 10)) ]
       [] [] [].

Definition plane (p : Point) : Q * Q := (pt_x p, pt_y p).

Definition one_cluster (eps : Q) (minpts : Z) (coords : list (Q * Q))
  : list Z :=
  map (fun _ => 0%Z) coords.

Definition sample_suggestion : ClusterSuggestion :=
  mkSuggestion 0 3 Severity.low (0, 0, 10, 10)
               [(1%N, None); (2%N, None); (3%N, None)].

Lemma cluster_severity_is_count_level_witness :
  avg_severity sample_suggestion
  = Severity.policy_count_level (report_count sample_suggestion)
  /\ (0 < report_count sample_suggestion)%Z
  /\ report_count sample_suggestion
     = Z.of_nat (List.length (members sample_suggestion)).
Proof.
  apply (cluster_severity_is_count_level plane one_cluster three_reports
           500 3 [sample_suggestion] sample_suggestion).
  - vm_compute. reflexivity.
  - left. reflexivity.
Defined.

(** C9 (as stated) fails: a cluster of three reports with a 10 m x 10 m
    bounding box.  The policy with the box's own area as the reference
    area sees a density of 1 and answers [high]; the suggestion carries
    [low], the count-based level. *)
Lemma cluster_severity_ignores_area :
  option_map (map avg_severity)
    (get_cluster_suggestions plane one_cluster three_reports 500 3)
  = Some [Severity.low]
  /\ cluster_severity [(0, 0); (10, 0); (0, 10)] = Severity.low
  /\ policy_cluster_severity [(0, 0); (10, 0); (0, 10)] = Severity.high.
Proof. repeat split; vm_compute; reflexivity. Qed.

(** A radius of 500 in the units of SRID 4326 excludes no place on
    Earth: any two points with valid coordinates are within it. *)
Lemma st_dwithin_500_everywhere (a b : Point) :
  -180 <= pt_x a <= 180 -> -90 <= pt_y a <= 90 ->
  -180 <= pt_x b <= 180 -> -90 <= pt_y b <= 90 ->
  st_dwithin (Some a) (Some b) 500 = true.
Proof.
  intros Hxa Hya Hxb Hyb. unfold st_dwithin, dist2.
  apply andb_true_iff. split; [reflexivity|].
  apply Qle_bool_iff.
  destruct a as [xa ya], b as [xb yb]; cbn [pt_x pt_y] in *. nra.
Qed.

(** A report in Bangalore and a single unlocked group whose centroid is
    in London. *)
Definition bangalore_report : LitterReport :=
  mkReport 5%N 7%Z None None (129716 # 10000) (775946 # 10000)
           None None "pending" false false 0%Z
           (Some (mkPoint (775946 # 10000) (129716 # 10000))).

Definition london_group : LitterGroup :=
  mkGroup 10%N "Cluster 0" (Some (mkPoint (-1276 # 10000) (515072 # 10000)))
          false.

Definition far_db : DB := mkDB [] [bangalore_report] [] [london_group] [].

(** C6, the code at the failing input: the radius query compares degrees
    with 500, so the report in Bangalore is attached to the group in
    London, thousands of kilometres away, instead of staying ungrouped. *)
Theorem radius_attachment_reaches_london :
  option_map (fun r => (lr_group_id r, lr_is_grouped r))
    (get_report
       (_assign_to_nearest_group far_db 5%N
          (129716 # 10000) (775946 # 10000) 500) 5%N)
  = Some (Some 10%N, true).
Proof. vm_compute. reflexivity. Qed.

(** The same report next to a group that a cleanup event has locked, and
    three reports that already belong to that locked group. *)
Definition locked_group : LitterGroup :=
  mkGroup 10%N "Cluster 0" (Some (mkPoint (775946 # 10000) (129716 # 10000)))
          true.

Definition locked_db : DB := mkDB [] [bangalore_report] [] [locked_group] [].

Definition claimed_report (id : uuid) (lat lng : Q) : LitterReport :=
  mkReport id 7%Z (Some 10%N) None lat lng None None "pending" false true 0%Z
           (Some (mkPoint lng lat)).

Definition claimed_db : DB :=
  mkDB []
       [claimed_report 1%N 0 0; claimed_report 2%N 0 10;
        claimed_report 3%N 10 0]
       [] [locked_group] [].

(** C4, the code at the failing input: neither query looks at
    [is_locked].  The radius attachment picks the locked group, and the
    rows fed to the clustering are all the rows of [litter_reports], the
    three reports of the locked group included, which come back as the
    members of a suggestion. *)
Theorem locked_group_is_not_excluded :
  lg_is_locked locked_group = true
  /\ option_map lr_group_id
       (get_report
          (_assign_to_nearest_group locked_db 5%N
             (129716 # 10000) (775946 # 10000) 500) 5%N)
     = Some (Some (lg_id locked_group))
  /\ (forall proj, map row_id (select_rows proj claimed_db)
                   = [1%N; 2%N; 3%N])
  /\ option_map (map (fun s => map fst (members s)))
       (get_cluster_suggestions plane one_cluster claimed_db 500 3)
     = Some [[1%N; 2%N; 3%N]].
Proof.
  split; [reflexivity|]. split; [vm_compute; reflexivity|].
  split; [intro proj; reflexivity|vm_compute; reflexivity].
Qed.

End GrouperFacts.

(** ** Object detector *)

Module DetectionFacts.
Import Store StoreFacts Detection.
Local Open Scope Q_scope.

(** What a failed run does guarantee: either the store is left as it was
    found (the failure was raised as an [HTTPException] before or while
    the image was fetched), or the report has reached [no-litter] or
    [error]. *)
Lemma failed_run_outcome env db rid e db' r :
  get_report db rid = Some r ->
  create_litter_detection env db rid = (inl e, db') ->
  db' = db
  \/ exists r', get_report db' rid = Some r'
                /\ terminal (lr_status r') = true.
Proof.
  intros Hr. unfold create_litter_detection. rewrite Hr.
  destruct (match lr_upload_id r with
            | Some uid => get_upload db uid
            | None => None
            end) as [upload|]; [|intro H; injection H as _ <-; now left].
  destruct (String.eqb (up_file_url upload) "");
    [intro H; injection H as _ <-; now left|].
  destruct (fetch_image_bytes env (up_file_url upload)) as [ex|img];
    [intro H; injection H as _ <-; now left|].
  destruct (run_detection_on_image_bytes env img (1 # 4) (9 # 20) 640)
    as [[st d|what]|results].
  - intro H; injection H as _ <-; now left.
  - intro H; injection H as _ <-. right.
    eexists. split; [apply get_report_update; [reflexivity|exact Hr]|].
    reflexivity.
  - destruct (total_litter_count results =? 0)%Z; [|discriminate].
    intro H; injection H as _ <-. right.
    eexists. split; [apply get_report_update; [reflexivity|exact Hr]|].
    reflexivity.
Qed.

(** A pending report whose upload is stored under a relative path, and an
    upload store that answers every request with 404. *)
Definition pending_report : LitterReport :=
  mkReport 1%N 7%Z None (Some 1%N) (129716 # 10000) (775946 # 10000)
           None None "pending" false false 0%Z
           (Some (mkPoint (775946 # 10000) (129716 # 10000))).

Definition pending_db : DB :=
  mkDB [mkUpload 1%N 7%Z (Some "s"%string) "/uploads/a.jpg"
                 (Some (129716 # 10000)) (Some (775946 # 10000))]
       [pending_report] [] [] [].

Definition no_image : ImageBytes := mkImage None (OrtOutputs None).

Definition not_found_env : Env :=
  mkEnv (Some "http://localhost:8000"%string) (fun _ => ""%string)
        (fun _ => Response 404 None no_image) true.

(** C2, the code at the failing input: the image download fails with a
    404, [fetch_image_bytes] raises an [HTTPException], the handler for
    [HTTPException] rolls back and re-raises, and the report is left
    [pending], which is not a terminal status. *)
Theorem download_failure_leaves_pending :
  fst (create_litter_detection not_found_env pending_db 1%N)
  = inl (HTTPException 502 (Message "Failed to download image"))
  /\ option_map lr_status
       (get_report (snd (create_litter_detection not_found_env pending_db
                           1%N)) 1%N)
     = Some "pending"%string
  /\ terminal "pending" = false.
Proof. repeat split; vm_compute; reflexivity. Qed.

(** The same report when the store answers with bytes that do not decode:
    the failure is not an [HTTPException], and the report ends in
    [error]. *)
Definition bad_bytes_env : Env :=
  mkEnv (Some "http://localhost:8000"%string) (fun _ => ""%string)
        (fun _ => Response 200 None no_image) true.

Example bad_decode_ends_in_error :
  fst (create_litter_detection bad_bytes_env pending_db 1%N)
  = inl (HTTPException 500 (Message "Detection service error"))
  /\ option_map lr_status
       (get_report (snd (create_litter_detection bad_bytes_env pending_db
                           1%N)) 1%N)
     = Some "error"%string.
Proof. split; vm_compute; reflexivity. Qed.

(** A model output of shape (1, 0, 6): severity [none], the report ends
    in [no-litter] and no detection row is stored. *)
Definition empty_output_env : Env :=
  mkEnv (Some "http://localhost:8000"%string) (fun _ => ""%string)
        (fun _ => Response 200 None
                    (mkImage (Some (480, 640)%Z)
                       (OrtOutputs (Some (mkTensor [1; 0; 6]%nat [])))))
        true.

Example empty_output_ends_in_no_litter :
  fst (create_litter_detection empty_output_env pending_db 1%N)
  = inl (HTTPException 400 (Message "No litter detected."))
  /\ option_map lr_status
       (get_report (snd (create_litter_detection empty_output_env pending_db
                           1%N)) 1%N)
     = Some "no-litter"%string
  /\ litter_detections
       (snd (create_litter_detection empty_output_env pending_db 1%N)) = [].
Proof. repeat split; vm_compute; reflexivity. Qed.

End DetectionFacts.

(* ===================================================================== *)
(** * Further properties of the modelled code                             *)
(* ===================================================================== *)

(** ** Severity: monotonicity *)

Module SeverityMore.
Import Severity SeverityFacts.
Local Open Scope Q_scope.

Lemma box_area_nonneg (box : list Q) : 0 <= box_area box.
Proof.
  destruct box as [|x1 [|y1 [|x2 [|y2 rest]]]]; cbn; try apply Qle_refl.
  apply Qmult_le_0_compat; apply Q.le_max_l.
Qed.

Lemma fold_area_shift (bs : list (list Q)) (a : Q) :
  fold_left (fun acc box => acc + box_area box) bs a
  == a + fold_left (fun acc box => acc + box_area box) bs 0.
Proof.
  revert a. induction bs as [|b bs IH]; intro a; cbn [fold_left].
  - ring.
  - rewrite (IH (a + box_area b)), (IH (0 + box_area b)). ring.
Qed.

Lemma boxes_area_app (l1 l2 : list (list Q)) :
  boxes_area (l1 ++ l2) == boxes_area l1 + boxes_area l2.
Proof.
  unfold boxes_area. rewrite fold_left_app. apply fold_area_shift.
Qed.

Lemma boxes_area_nonneg (bs : list (list Q)) : 0 <= boxes_area bs.
Proof.
  induction bs as [|b bs IH] using rev_ind.
  - apply Qle_refl.
  - rewrite boxes_area_app.
    assert (E : boxes_area [b] == box_area b) by (unfold boxes_area; cbn; ring).
    rewrite E. pose proof (box_area_nonneg b). lra.
Qed.

Lemma Qlt_bool_mono (t a b : Q) :
  a <= b -> Qlt_bool t a = true -> Qlt_bool t b = true.
Proof.
  intros Hab H. apply Qlt_bool_true in H. apply Qlt_bool_true.
  eapply Qlt_le_trans; eassumption.
Qed.

Lemma count_level_mono (n m : Z) :
  (n <= m)%Z -> level_le (count_level n) (count_level m).
Proof.
  intro H. unfold count_level, level_le.
  destruct (Z.ltb_spec n 5), (Z.ltb_spec n 15),
    (Z.ltb_spec m 5), (Z.ltb_spec m 15); cbn; lia.
Qed.

(** For a fixed list of boxes and image size, a larger object count never
    gives a lower severity. *)
Theorem determine_severity_monotone_in_count
    (n m : Z) (boxes : list (list Q)) (size : option (Q * Q)) :
  (0 <= n <= m)%Z ->
  level_le (determine_severity n boxes size) (determine_severity m boxes size).
Proof.
  intros [Hn Hnm].
  destruct (Z.eq_dec n 0) as [->|Hn0].
  - unfold level_le. cbn. lia.
  - pose proof (count_level_mono n m Hnm) as Hc.
    unfold determine_severity, level_le in *.
    destruct (Z.eqb_spec n 0) as [E|_]; [contradiction|].
    destruct (Z.eqb_spec m 0) as [E|_]; [lia|].
    destruct size as [[w h]|]; [|exact Hc].
    destruct boxes; [exact Hc|].
    destruct (Qlt_bool 0 (w * h)); [|exact Hc].
    destruct (Qlt_bool (1 # 10) _), (Qlt_bool (1 # 20) _),
      (count_level n), (count_level m); cbn in *; lia.
Qed.

Lemma determine_severity_monotone_in_count_witness :
  level_le (determine_severity 3 [[0; 0; 2; 2]] (Some (100, 100)))
           (determine_severity 7 [[0; 0; 2; 2]] (Some (100, 100))).
Proof.
  apply (determine_severity_monotone_in_count 3 7 [[0; 0; 2; 2]]
           (Some (100, 100))).
  lia.
Defined.


End SeverityMore.

(** ** Non-max suppression: order, range and completeness *)

Module NmsMore.
Import Nms NmsFacts.
Local Open Scope Q_scope.

Lemma pairs_app {A : Type} (R : A -> A -> Prop) (l1 l2 : list A) :
  ForallOrdPairs R l1 -> ForallOrdPairs R l2 ->
  (forall a b, In a l1 -> In b l2 -> R a b) ->
  ForallOrdPairs R (l1 ++ l2).
Proof.
  induction l1 as [|x l1 IH]; intros H1 H2 H12; cbn; [exact H2|].
  inversion H1 as [|? ? Hx Hl1]; subst. constructor.
  - apply Forall_app. split; [exact Hx|].
    apply Forall_forall. intros b Hb. apply H12; [now left|exact Hb].
  - apply IH; try assumption. intros a b Ha Hb. apply H12; [now right|exact Hb].
Qed.

Lemma pairs_rev {A : Type} (R : A -> A -> Prop) (l : list A) :
  ForallOrdPairs R l -> ForallOrdPairs (fun a b => R b a) (rev l).
Proof.
  induction 1 as [|x l Hx Hl IH]; cbn; [constructor|].
  apply pairs_app; [exact IH|repeat constructor|].
  intros a b Ha [<-|[]]. apply in_rev in Ha.
  rewrite Forall_forall in Hx. now apply Hx.
Qed.

Lemma insert_by_sorted (key : nat -> Q) (x : nat) (l : list nat) :
  ForallOrdPairs (fun a b => key a <= key b) l ->
  ForallOrdPairs (fun a b => key a <= key b) (insert_by key x l).
Proof.
  induction 1 as [|y l Hy Hl IH]; cbn [insert_by].
  - repeat constructor.
  - destruct (Qle_bool (key x) (key y)) eqn:E.
    + apply Qle_bool_iff in E. constructor; [|now constructor].
      constructor; [exact E|].
      eapply Forall_impl; [|exact Hy]. intros a Ha. cbn in Ha.
      eapply Qle_trans; eassumption.
    + assert (Hyx : key y <= key x).
      { destruct (Qlt_le_dec (key y) (key x)) as [Hlt|Hle].
        - now apply Qlt_le_weak.
        - apply Qle_bool_iff in Hle. congruence. }
      constructor; [|exact IH].
      apply (Permutation_Forall (Permutation_sym (insert_by_perm key x l))).
      constructor; assumption.
Qed.

Lemma argsort_sorted (scores : list Q) :
  ForallOrdPairs (fun a b => nth a scores 0 <= nth b scores 0)
                 (argsort scores).
Proof.
  unfold argsort. induction (seq 0 (List.length scores)) as [|x l IH]; cbn.
  - constructor.
  - now apply insert_by_sorted.
Qed.

(** The order the loop starts from: every index, by descending score. *)
Lemma order_sorted (scores : list Q) :
  ForallOrdPairs (fun a b => nth b scores 0 <= nth a scores 0)
                 (rev (argsort scores)).
Proof. apply pairs_rev, argsort_sorted. Qed.

Section LoopMore.

Variable keeps : nat -> nat -> bool.
Variable R : nat -> nat -> Prop.

Lemma pairs_filter (f : nat -> bool) (l : list nat) :
  ForallOrdPairs R l -> ForallOrdPairs R (filter f l).
Proof.
  induction 1 as [|x l Hx Hl IH]; cbn; [constructor|].
  destruct (f x); [|exact IH]. constructor; [|exact IH].
  apply Forall_forall. intros y Hy. apply filter_In in Hy.
  rewrite Forall_forall in Hx. now apply Hx.
Qed.

(** The loop keeps the relative order of its input. *)
Lemma nms_loop_ordered (order : list nat) :
  ForallOrdPairs R order -> ForallOrdPairs R (nms_loop keeps order).
Proof.
  apply (nms_loop_elim keeps
           (fun order res => ForallOrdPairs R order -> ForallOrdPairs R res)).
  - intros _. constructor.
  - intros i rest IH H. inversion H as [|? ? Hi Hrest]; subst.
    constructor; [|apply IH; now apply pairs_filter].
    apply Forall_forall. intros x Hx.
    apply nms_loop_incl in Hx. apply filter_In in Hx.
    rewrite Forall_forall in Hi. now apply Hi.
Qed.

(** Whatever the loop drops failed the test against an index that is
    kept and that came earlier in the order. *)
Lemma nms_loop_suppressed (order : list nat) :
  ForallOrdPairs R order ->
  forall j, In j order -> ~ In j (nms_loop keeps order) ->
  exists i, In i (nms_loop keeps order) /\ keeps i j = false /\ R i j.
Proof.
  apply (nms_loop_elim keeps
           (fun order res =>
              ForallOrdPairs R order ->
              forall j, In j order -> ~ In j res ->
              exists i, In i res /\ keeps i j = false /\ R i j)).
  - intros _ j [].
  - intros i rest IH H j Hj Hnot.
    inversion H as [|? ? Hi Hrest]; subst. rewrite Forall_forall in Hi.
    destruct Hj as [->|Hj]; [exfalso; apply Hnot; now left|].
    destruct (keeps i j) eqn:Hk.
    + destruct (IH (pairs_filter _ _ Hrest) j) as (i' & Hin & Hk' & Hr).
      * apply filter_In. now split.
      * intro Hc. apply Hnot. now right.
      * exists i'. split; [now right|]. now split.
    + exists i. split; [now left|]. split; [exact Hk|now apply Hi].
Qed.

Lemma nms_loop_head (i : nat) (res : list nat) (order : list nat) :
  nms_loop keeps order = i :: res -> exists tl, order = i :: tl.
Proof.
  destruct order as [|x tl]; [simp nms_loop; discriminate|].
  rewrite nms_loop_cons. intro H. injection H as -> _. now exists tl.
Qed.

End LoopMore.

Lemma nms_in_order (boxes : list Box) (scores : list Q) (t : Q) (i : nat) :
  In i (_nms boxes scores t) -> In i (rev (argsort scores)).
Proof.
  unfold _nms. destruct boxes; [intros []|]. apply nms_loop_incl.
Qed.

Lemma in_order_range (scores : list Q) (i : nat) :
  In i (rev (argsort scores)) <-> (i < List.length scores)%nat.
Proof.
  split; intro H.
  - apply (Permutation_in _ (order_perm scores)) in H.
    apply in_seq in H. lia.
  - apply (Permutation_in _ (Permutation_sym (order_perm scores))).
    apply in_seq. lia.
Qed.

Lemma nms_index_range (boxes : list Box) (scores : list Q) (t : Q) (i : nat) :
  In i (_nms boxes scores t) -> (i < List.length scores)%nat.
Proof. intro Hi. now apply nms_in_order, in_order_range in Hi. Qed.

(** The answer of [_nms] names valid positions, each at most once. *)
Theorem nms_indices_valid (boxes : list Box) (scores : list Q) (t : Q) :
  List.length boxes = List.length scores ->
  NoDup (_nms boxes scores t)
  /\ (forall i, In i (_nms boxes scores t) -> (i < List.length boxes)%nat)
  /\ (List.length (_nms boxes scores t) <= List.length boxes)%nat.
Proof.
  intro Hlen.
  assert (Hr : forall i, In i (_nms boxes scores t) ->
                         (i < List.length boxes)%nat).
  { intros i Hi. rewrite Hlen. now apply nms_index_range in Hi. }
  pose proof (proj1 (nms_kept_pairwise boxes scores t)) as Hnd.
  split; [exact Hnd|]. split; [exact Hr|].
  pose proof (@NoDup_incl_length nat (_nms boxes scores t)
                (seq 0 (List.length boxes)) Hnd) as Hl.
  rewrite length_seq in Hl. apply Hl.
  intros i Hi. apply in_seq. apply Hr in Hi. lia.
Qed.

Lemma nms_indices_valid_witness :
  NoDup (_nms sample_boxes sample_scores (9 # 20))
  /\ (forall i, In i (_nms sample_boxes sample_scores (9 # 20)) ->
                (i < List.length sample_boxes)%nat)
  /\ (List.length (_nms sample_boxes sample_scores (9 # 20))
      <= List.length sample_boxes)%nat.
Proof.
  apply (nms_indices_valid sample_boxes sample_scores (9 # 20)). reflexivity.
Defined.

(** The kept indices come in order of non-increasing score, and the
    first of them has the highest score of all. *)
Theorem nms_keeps_score_order (boxes : list Box) (scores : list Q) (t : Q) :
  ForallOrdPairs (fun i j => nth j scores 0 <= nth i scores 0)
                 (_nms boxes scores t)
  /\ (forall i rest, _nms boxes scores t = i :: rest ->
        forall j, (j < List.length scores)%nat ->
                  nth j scores 0 <= nth i scores 0).
Proof.
  unfold _nms. destruct boxes as [|b bs].
  - split; [constructor|intros i rest H; discriminate H].
  - set (keeps := fun i j : nat => iou_le t _ _). split.
    + apply nms_loop_ordered, order_sorted.
    + intros i rest H j Hj.
      destruct (nms_loop_head keeps i rest _ H) as [tl Htl].
      pose proof (order_sorted scores) as Hs. rewrite Htl in Hs.
      inversion Hs as [|? ? Hi _]; subst. rewrite Forall_forall in Hi.
      apply in_order_range in Hj. rewrite Htl in Hj.
      destruct Hj as [<-|Hj]; [apply Qle_refl|now apply Hi].
Qed.

(** Every box that [_nms] drops overlaps, above the threshold, a kept box
    whose score is at least as high. *)
Theorem nms_dropped_is_suppressed
    (boxes : list Box) (scores : list Q) (t : Q) (j : nat) :
  List.length boxes = List.length scores ->
  (j < List.length boxes)%nat ->
  ~ In j (_nms boxes scores t) ->
  exists i,
    In i (_nms boxes scores t)
    /\ iou_le t (nth i boxes zero_box) (nth j boxes zero_box) = false
    /\ nth j scores 0 <= nth i scores 0.
Proof.
  intros Hlen Hj. unfold _nms. destruct boxes as [|b bs]; [cbn in Hj; lia|].
  intro Hnot.
  apply (nms_loop_suppressed
           (fun i j => iou_le t (nth i (b :: bs) zero_box)
                                (nth j (b :: bs) zero_box))
           (fun i j => nth j scores 0 <= nth i scores 0)
           _ (order_sorted scores) j); [|exact Hnot].
  apply in_order_range. rewrite <- Hlen. exact Hj.
Qed.

Lemma nms_dropped_is_suppressed_witness :
  exists i,
    In i (_nms sample_boxes sample_scores (9 # 20))
    /\ iou_le (9 # 20) (nth i sample_boxes zero_box)
                       (nth 1%nat sample_boxes zero_box) = false
    /\ nth 1%nat sample_scores 0 <= nth i sample_scores 0.
Proof.
  apply (nms_dropped_is_suppressed sample_boxes sample_scores (9 # 20) 1%nat).
  - reflexivity.
  - cbn. lia.
  - vm_compute. intros [H|[H|[]]]; discriminate H.
Defined.

End NmsMore.

(** ** Image download: retries and failures *)

Module FetchFacts.
Import Store Detection.

(** An answer after which the loop makes another attempt: a transport
    failure, or a status that is neither 200 nor a client error. *)
Definition retried (o : HttpOutcome) : bool :=
  match o with
  | RequestException => true
  | Response st _ _ => negb (st =? 200)%Z && negb ((400 <=? st)%Z && (st <? 500)%Z)
  end.

(** The response the loop ends with is the answer to the last request it
    made. *)
Lemma attempts_last env n k r0 st loc body k' :
  attempts env n k r0 = (Some (st, loc, body), k') ->
  (n = 0%nat /\ r0 = Some (st, loc, body) /\ k' = k)
  \/ ((k < k' <= k + n)%nat /\ http_get env (k' - 1) = Response st loc body).
Proof.
  revert k r0. induction n as [|n IH]; intros k r0; cbn [attempts].
  - intro H. injection H as -> ->. now left.
  - destruct (http_get env k) as [|st0 loc0 body0] eqn:Hk.
    + intro H. apply IH in H. right.
      destruct H as [(_ & Hn & _)|[Hr Hg]]; [discriminate|].
      split; [lia|exact Hg].
    + assert (Hhere : forall x : nat, x = S k ->
                (k < x <= k + S n)%nat /\
                http_get env (x - 1) = Response st0 loc0 body0).
      { intros x ->. split; [lia|].
        replace (S k - 1)%nat with k by lia. exact Hk. }
      destruct (st0 =? 200)%Z.
      * intro H. injection H as <- <- <- <-. right. now apply Hhere.
      * destruct ((400 <=? st0)%Z && (st0 <? 500)%Z).
        -- intro H. injection H as <- <- <- <-. right. now apply Hhere.
        -- intro H. apply IH in H. right.
           destruct H as [(-> & Hn & ->)|[Hr Hg]].
           ++ injection Hn as <- <- <-. now apply Hhere.
           ++ split; [lia|exact Hg].
Qed.

(** [fetch_image_bytes] returns only the body of a response with status
    200, obtained with at most four requests (three attempts and one
    manual redirect); every failure it reports is an [HTTPException] of
    status 500 or 502. *)
Theorem fetch_returns_only_ok_bodies (env : Env) (path_or_url : string) :
  match fetch_image_bytes env path_or_url with
  | inr body =>
      exists j loc, (j <= 3)%nat /\ http_get env j = Response 200 loc body
  | inl e =>
      exists st msg, e = HTTPException st (Message msg)
                     /\ (st = 500 \/ st = 502)%Z
  end.
Proof.
  unfold fetch_image_bytes.
  destruct (negb _); [eexists _, _; split; [reflexivity|now left]|].
  destruct (attempts env 3 0 None) as [[[[st loc] body]|] k] eqn:Ha;
    [|eexists _, _; split; [reflexivity|now left]].
  apply attempts_last in Ha.
  destruct Ha as [(Hn & _)|[Hk Hg]]; [discriminate|].
  assert (Hplain : match (if (st =? 200)%Z then inr body
                          else inl (HTTPException 502
                                      (Message "Failed to download image")))
                   with
                   | inr b => exists j loc0, (j <= 3)%nat /\
                                http_get env j = Response 200 loc0 b
                   | inl e => exists st0 msg, e = HTTPException st0 (Message msg)
                                /\ (st0 = 500 \/ st0 = 502)%Z
                   end).
  { destruct (Z.eqb_spec st 200) as [->|_].
    - exists (k - 1)%nat, loc. split; [lia|exact Hg].
    - eexists _, _. split; [reflexivity|now right]. }
  destruct (is_redirect st); [|exact Hplain].
  destruct loc as [l|]; [|exact Hplain].
  destruct (String.eqb l ""); [exact Hplain|].
  destruct (http_get env k) as [|st2 loc2 body2] eqn:Hk2; [exact Hplain|].
  destruct (Z.eqb_spec st2 200) as [->|_].
  - exists k, loc2. split; [lia|exact Hk2].
  - eexists _, _. split; [reflexivity|now right].
Qed.

(** A client error (4xx) is not retried: the loop stops after the first
    request and the download fails. *)
Theorem fetch_does_not_retry_client_errors
    (env : Env) (path_or_url : string) st loc body :
  http_get env 0 = Response st loc body ->
  (400 <= st < 500)%Z ->
  attempts env 3 0 None = (Some (st, loc, body), 1%nat)
  /\ exists e, fetch_image_bytes env path_or_url = inl e.
Proof.
  intros Hget [Hlo Hhi].
  assert (Ha : attempts env 3 0 None = (Some (st, loc, body), 1%nat)).
  { cbn [attempts]. rewrite Hget.
    destruct (Z.eqb_spec st 200); [lia|].
    destruct (Z.leb_spec 400 st); [|lia].
    destruct (Z.ltb_spec st 500); [|lia]. reflexivity. }
  split; [exact Ha|].
  unfold fetch_image_bytes. rewrite Ha.
  destruct (negb _); [eexists; reflexivity|].
  assert (Hr : is_redirect st = false).
  { unfold is_redirect. cbn [existsb].
    repeat (match goal with |- context [Z.eqb ?a ?b] =>
              destruct (Z.eqb_spec a b); [lia|] end).
    reflexivity. }
  rewrite Hr. destruct (Z.eqb_spec st 200); [lia|]. eexists; reflexivity.
Qed.

Lemma retried_response st loc body :
  retried (Response st loc body) = true ->
  (st =? 200)%Z = false /\ ((400 <=? st)%Z && (st <? 500)%Z) = false.
Proof.
  cbn. intro H. apply andb_true_iff in H. destruct H as [H1 H2].
  apply negb_true_iff in H1, H2. now split.
Qed.

Lemma attempts_retry env n k r0 :
  retried (http_get env k) = true ->
  exists r1, attempts env (S n) k r0 = attempts env n (S k) r1.
Proof.
  intro H. cbn [attempts]. destruct (http_get env k) as [|st loc body].
  - now exists None.
  - apply retried_response in H. destruct H as [-> ->].
    now eexists.
Qed.

(** Transient failures are retried: for a URL of scheme [http] or
    [https], when the first answer with status 200 comes at the first,
    second or third attempt and every earlier answer was a transport
    failure or a status outside 200 and 4xx, the download succeeds with
    that body. *)
Theorem fetch_retries_transient_failures
    (env : Env) (url : string) (k : nat) loc body :
  urlparse_scheme env url = "http"%string
  \/ urlparse_scheme env url = "https"%string ->
  (k < 3)%nat ->
  (forall j, (j < k)%nat -> retried (http_get env j) = true) ->
  http_get env k = Response 200 loc body ->
  fetch_image_bytes env url = inr body.
Proof.
  intros Hs Hk Hre Hget.
  assert (Ha : attempts env 3 0 None = (Some (200%Z, loc, body), S k)).
  { assert (Hstop : forall n r0,
              attempts env (S n) k r0 = (Some (200%Z, loc, body), S k)).
    { intros n r0. cbn [attempts]. rewrite Hget. reflexivity. }
    destruct k as [|[|[|k]]]; try lia.
    - apply Hstop.
    - destruct (attempts_retry env 2 0 None (Hre 0%nat ltac:(lia))) as [r1 ->].
      apply Hstop.
    - destruct (attempts_retry env 2 0 None (Hre 0%nat ltac:(lia))) as [r1 ->].
      destruct (attempts_retry env 1 1 r1 (Hre 1%nat ltac:(lia))) as [r2 ->].
      apply Hstop. }
  unfold fetch_image_bytes.
  destruct Hs as [Hs|Hs]; rewrite Hs, Ha; reflexivity.
Qed.

(** Two server errors, then the image. *)
Definition flaky_env : Env :=
  mkEnv None (fun _ => "http"%string)
        (fun k => match k with
                  | 0%nat => Response 503 None (mkImage None (OrtOutputs None))
                  | 1%nat => RequestException
                  | _ => Response 200 None
                           (mkImage (Some (480, 640)%Z) (OrtOutputs None))
                  end)
        true.

Lemma fetch_retries_transient_failures_witness :
  fetch_image_bytes flaky_env "http://img/a.jpg"
  = inr (mkImage (Some (480, 640)%Z) (OrtOutputs None)).
Proof.
  apply (fetch_retries_transient_failures flaky_env "http://img/a.jpg" 2 None).
  - left. reflexivity.
  - lia.
  - intros [|[|j]] Hj; [reflexivity|reflexivity|lia].
  - reflexivity.
Defined.

Definition forbidden_env : Env :=
  mkEnv None (fun _ => "http"%string)
        (fun _ => Response 403 None (mkImage None (OrtOutputs None))) true.

Lemma fetch_does_not_retry_client_errors_witness :
  attempts forbidden_env 3 0 None
  = (Some (403%Z, None, mkImage None (OrtOutputs None)), 1%nat)
  /\ exists e, fetch_image_bytes forbidden_env "http://img/a.jpg" = inl e.
Proof.
  apply (fetch_does_not_retry_client_errors forbidden_env "http://img/a.jpg"
           403 None (mkImage None (OrtOutputs None))).
  - reflexivity.
  - lia.
Defined.

End FetchFacts.

(** ** Letterbox geometry *)

Module LetterboxFacts.
Import Detection.
Local Open Scope Q_scope.

Lemma Qtrunc_inject (q : Q) (z : Z) : q == inject_Z z -> Qtrunc q = z.
Proof.
  unfold Qtrunc, Qeq. destruct q as [n d]. cbn. intro H.
  rewrite Z.mul_1_r in H. subst n. apply Z.quot_mul. discriminate.
Qed.

Lemma Qtrunc_le (q : Q) (z : Z) :
  0 <= q -> q <= inject_Z z -> (Qtrunc q <= z)%Z.
Proof.
  unfold Qtrunc, Qle. destruct q as [n d]. cbn. intros H0 H.
  rewrite Z.mul_1_r in *.
  rewrite Z.quot_div_nonneg by lia.
  apply Z.div_le_upper_bound; lia.
Qed.

Lemma scaled_side (s w : Z) :
  (0 < w)%Z -> inject_Z w * (inject_Z s / inject_Z w) == inject_Z s.
Proof.
  intro Hw. field. intro E.
  assert (H : 0 < inject_Z w) by (change (inject_Z 0 < inject_Z w); rewrite <- Zlt_Qlt; exact Hw).
  rewrite E in H. discriminate H.
Qed.

(** For an image of positive height and width, when the resize goes
    through: the scale is positive, the paddings are non-negative and at
    most half the target side, and one of them is zero (the image fills
    the square along its longer side). *)
Theorem letterbox_pads_one_side (h w s : Z) (scale : Q) (left top : Z) :
  (0 < h)%Z -> (0 < w)%Z -> (0 < s)%Z ->
  _letterbox_resize h w s = Some (scale, (left, top)) ->
  0 < scale
  /\ (0 <= left)%Z /\ (0 <= top)%Z
  /\ (2 * left <= s)%Z /\ (2 * top <= s)%Z
  /\ (left = 0 \/ top = 0)%Z.
Proof.
  intros Hh Hw Hs. unfold _letterbox_resize.
  set (sw := inject_Z s / inject_Z w). set (sh := inject_Z s / inject_Z h).
  assert (Qw : 0 < inject_Z w) by (change (inject_Z 0 < inject_Z w); rewrite <- Zlt_Qlt; exact Hw).
  assert (Qh : 0 < inject_Z h) by (change (inject_Z 0 < inject_Z h); rewrite <- Zlt_Qlt; exact Hh).
  assert (Qs : 0 < inject_Z s) by (change (inject_Z 0 < inject_Z s); rewrite <- Zlt_Qlt; exact Hs).
  assert (Psw : 0 < sw).
  { unfold sw, Qdiv. apply Qmult_lt_0_compat; [exact Qs|].
    now apply Qinv_lt_0_compat. }
  assert (Psh : 0 < sh).
  { unfold sh, Qdiv. apply Qmult_lt_0_compat; [exact Qs|].
    now apply Qinv_lt_0_compat. }
  assert (Pscale : 0 < Qmin sw sh).
  { destruct (Q.min_spec sw sh) as [[_ E]|[_ E]]; rewrite E; assumption. }
  assert (Hww : inject_Z w * Qmin sw sh <= inject_Z s).
  { rewrite <- (scaled_side s w Hw). fold sw.
    apply Qmult_le_l; [exact Qw|apply Q.le_min_l]. }
  assert (Hhh : inject_Z h * Qmin sw sh <= inject_Z s).
  { rewrite <- (scaled_side s h Hh). fold sh.
    apply Qmult_le_l; [exact Qh|apply Q.le_min_r]. }
  assert (Hnw : (Qtrunc (inject_Z w * Qmin sw sh) <= s)%Z).
  { apply Qtrunc_le; [|exact Hww].
    apply Qmult_le_0_compat; now apply Qlt_le_weak. }
  assert (Hnh : (Qtrunc (inject_Z h * Qmin sw sh) <= s)%Z).
  { apply Qtrunc_le; [|exact Hhh].
    apply Qmult_le_0_compat; now apply Qlt_le_weak. }
  assert (Hfill : (Qtrunc (inject_Z w * Qmin sw sh) = s
                   \/ Qtrunc (inject_Z h * Qmin sw sh) = s)%Z).
  { destruct (Q.min_spec sw sh) as [[_ E]|[_ E]].
    - left. apply Qtrunc_inject. rewrite E. now apply scaled_side.
    - right. apply Qtrunc_inject. rewrite E. now apply scaled_side. }
  destruct (Z.leb_spec (Qtrunc (inject_Z w * Qmin sw sh)) 0) as [|Pw];
    [discriminate|].
  destruct (Z.leb_spec (Qtrunc (inject_Z h * Qmin sw sh)) 0) as [|Ph];
    [discriminate|].
  cbn [orb]. intro H. injection H as <- <- <-.
  split; [exact Pscale|].
  set (nw := Qtrunc (inject_Z w * Qmin sw sh)) in *.
  set (nh := Qtrunc (inject_Z h * Qmin sw sh)) in *.
  pose proof (Z.div_pos (s - nw) 2 ltac:(lia) ltac:(lia)).
  pose proof (Z.div_pos (s - nh) 2 ltac:(lia) ltac:(lia)).
  pose proof (Z.mul_div_le (s - nw) 2 ltac:(lia)).
  pose proof (Z.mul_div_le (s - nh) 2 ltac:(lia)).
  repeat split; lia.
Qed.

(** A 640 x 480 image in a 640 square: scale 1, 80 rows of padding on
    top. *)
Lemma letterbox_pads_one_side_witness :
  _letterbox_resize 480 640 640 = Some (640 # 640, (0, 80)%Z)
  /\ 0 < (640 # 640)
  /\ (0 <= 0)%Z /\ (0 <= 80)%Z
  /\ (2 * 0 <= 640)%Z /\ (2 * 80 <= 640)%Z
  /\ (0 = 0 \/ 80 = 0)%Z.
Proof.
  split; [reflexivity|].
  apply (letterbox_pads_one_side 480 640 640 (640 # 640) 0 80);
    reflexivity.
Defined.

End LetterboxFacts.

(** ** The detector's result *)

Module DetectorFacts.
Import Store Detection Nms NmsFacts NmsMore.
Local Open Scope Q_scope.

(** What a run that returns has computed: nothing, or the rows above the
    confidence threshold, remapped, thinned by [_nms] and labelled. *)
Lemma run_detection_inv env img conf iou size r :
  run_detection_on_image_bytes env img conf iou size = inr r ->
  r = nothing_detected
  \/ exists h0 w0 scale pad_x pad_y kept detections,
       imdecode img = Some (h0, w0)
       /\ kept <> []
       /\ Forall (fun row => conf <= nth 4 row 0) kept
       /\ labels_of
            (take_rows 0%Z (map (fun row => Qtrunc (nth 5 row 0)) kept)
               (_nms (map (remap_row scale pad_x pad_y w0 h0) kept)
                     (map (fun row => nth 4 row 0) kept) iou))
            (take_rows 0 (map (fun row => nth 4 row 0) kept)
               (_nms (map (remap_row scale pad_x pad_y w0 h0) kept)
                     (map (fun row => nth 4 row 0) kept) iou))
          = Some detections
       /\ r = mkResults detections
                (map box_to_list
                   (take_rows Nms.zero_box
                      (map (remap_row scale pad_x pad_y w0 h0) kept)
                      (_nms (map (remap_row scale pad_x pad_y w0 h0) kept)
                            (map (fun row => nth 4 row 0) kept) iou)))
                (Z.of_nat (List.length detections))
                (Severity.determine_severity
                   (Z.of_nat (List.length detections))
                   (map box_to_list
                      (take_rows Nms.zero_box
                         (map (remap_row scale pad_x pad_y w0 h0) kept)
                         (_nms (map (remap_row scale pad_x pad_y w0 h0) kept)
                               (map (fun row => nth 4 row 0) kept) iou)))
                   (Some (inject_Z w0, inject_Z h0)))
                (mean
                   (take_rows 0 (map (fun row => nth 4 row 0) kept)
                      (_nms (map (remap_row scale pad_x pad_y w0 h0) kept)
                            (map (fun row => nth 4 row 0) kept) iou))).
Proof.
  unfold run_detection_on_image_bytes.
  destruct (imdecode img) as [[h0 w0]|]; [|discriminate].
  destruct (_letterbox_resize h0 w0 size) as [[scale [pad_x pad_y]]|];
    [|discriminate].
  destruct (negb (model_file_exists env)); [discriminate|].
  destruct (session_run img) as [what|[preds|]]; [discriminate| |].
  2: { intro H. injection H as <-. now left. }
  destruct (Nat.eqb _ 0); [intro H; injection H as <-; now left|].
  destruct (match shape preds with
            | [1%nat; n; c] => [n; c]
            | s => s
            end) as [|a [|ncols [|]]]; try discriminate.
  destruct (ncols <? 6)%nat; [discriminate|].
  destruct (filter _ (data preds)) as [|row0 kept0] eqn:Hk;
    [intro H; injection H as <-; now left|].
  destruct (labels_of _ _) as [detections|] eqn:Hl; [|discriminate].
  intro H. injection H as <-. right.
  exists h0, w0, scale, pad_x, pad_y, (row0 :: kept0), detections.
  split; [reflexivity|]. split; [discriminate|]. split.
  - rewrite <- Hk. apply Forall_forall. intros row Hrow.
    apply filter_In in Hrow. now apply Qle_bool_iff.
  - split; [exact Hl|reflexivity].
Qed.

Lemma label_of_in (c : Z) (l : string) : label_of c = Some l -> In l LABELS.
Proof.
  unfold label_of.
  destruct ((0 <=? c)%Z && (c <? 4)%Z); [apply nth_error_In|].
  destruct ((-4 <=? c)%Z && (c <? 0)%Z); [apply nth_error_In|discriminate].
Qed.

Lemma labels_of_spec (cs : list Z) (ss : list Q) (ds : list (string * Q)) :
  List.length cs = List.length ss ->
  labels_of cs ss = Some ds ->
  List.length ds = List.length ss
  /\ Forall (fun d => In (fst d) LABELS /\ In (snd d) ss) ds.
Proof.
  revert ss ds. induction cs as [|c cs IH]; intros [|s ss] ds Hlen;
    cbn [labels_of]; try discriminate.
  - intro H. injection H as <-. split; [reflexivity|constructor].
  - destruct (label_of c) as [l|] eqn:Hl; [|discriminate].
    destruct (labels_of cs ss) as [rest|] eqn:Hr; [|discriminate].
    intro H. injection H as <-.
    destruct (IH ss rest ltac:(cbn in Hlen; lia) Hr) as [Hn Hall].
    split; [cbn; lia|]. constructor.
    + split; [now apply label_of_in in Hl|now left].
    + eapply Forall_impl; [|exact Hall].
      intros d [H1 H2]. split; [exact H1|now right].
Qed.

(** The count of a returned dictionary is the length of its object list,
    and its severity is [none] exactly for a zero count. *)
Lemma run_detection_count env img conf iou size r :
  run_detection_on_image_bytes env img conf iou size = inr r ->
  total_litter_count r = Z.of_nat (List.length (detected_objects r))
  /\ (severity_level r = Severity.none <-> total_litter_count r = 0%Z).
Proof.
  intro H. apply run_detection_inv in H.
  destruct H as [->|(h0 & w0 & scale & px & py & kept & ds & _ & _ & _
                     & _ & ->)].
  - cbn. split; [reflexivity|]. split; reflexivity.
  - cbn [total_litter_count detected_objects severity_level].
    split; [reflexivity|apply SeverityFacts.determine_severity_none_iff].
Qed.

(** The dictionary a run returns is consistent: the count is the number
    of detected objects and of bounding boxes, the severity is [none]
    exactly for a zero count, every label comes from the label table and
    every confidence is at least the threshold. *)
Theorem run_detection_result_consistent env img conf iou size r :
  run_detection_on_image_bytes env img conf iou size = inr r ->
  total_litter_count r = Z.of_nat (List.length (detected_objects r))
  /\ List.length (bounding_boxes r) = List.length (detected_objects r)
  /\ (severity_level r = Severity.none <-> total_litter_count r = 0%Z)
  /\ Forall (fun d => In (fst d) LABELS /\ conf <= snd d)
            (detected_objects r).
Proof.
  intro H. apply run_detection_inv in H.
  destruct H as [->|(h0 & w0 & scale & px & py & kept & ds & _ & _ & Hconf
                     & Hl & ->)].
  - cbn. repeat split; try reflexivity. constructor.
  - cbn [total_litter_count detected_objects bounding_boxes severity_level].
    set (boxes := map (remap_row scale px py w0 h0) kept) in *.
    set (scores := map (fun row => nth 4 row 0) kept) in *.
    set (keep := _nms boxes scores iou) in *.
    assert (Hlen : List.length boxes = List.length scores)
      by (unfold boxes, scores; now rewrite !length_map).
    apply labels_of_spec in Hl;
      [|unfold take_rows; now rewrite !length_map].
    destruct Hl as [Hn Hall].
    split; [reflexivity|]. split.
    + rewrite Hn. unfold take_rows. now rewrite !length_map.
    + split; [apply SeverityFacts.determine_severity_none_iff|].
      eapply Forall_impl; [|exact Hall]. intros d [Hlab Hin].
      split; [exact Hlab|].
      unfold take_rows in Hin. apply in_map_iff in Hin.
      destruct Hin as [i [<- Hi]].
      apply nms_index_range in Hi.
      pose proof (nth_In scores 0 Hi) as Hs. unfold scores in Hs at 2.
      apply in_map_iff in Hs. destruct Hs as [row [Heq Hrow]].
      rewrite <- Heq. rewrite Forall_forall in Hconf. now apply Hconf.
Qed.

Lemma clip_bounds (hi x : Q) : 0 <= hi -> 0 <= clip 0 hi x /\ clip 0 hi x <= hi.
Proof.
  intro H. unfold clip. split; [|apply Q.le_min_l].
  apply Q.min_glb; [exact H|apply Q.le_max_l].
Qed.

(** A box lies inside an image of width [w] and height [h]. *)
Definition inside (w h : Z) (box : list Q) : Prop :=
  exists x1 y1 x2 y2,
    box = [x1; y1; x2; y2]
    /\ 0 <= x1 <= inject_Z w /\ 0 <= x2 <= inject_Z w
    /\ 0 <= y1 <= inject_Z h /\ 0 <= y2 <= inject_Z h.


(** A 640 x 480 image and four rows: two overlapping bottles, a row below
    the confidence threshold and a wrapper. *)
Definition sample_image : ImageBytes :=
  mkImage (Some (480, 640)%Z)
    (OrtOutputs (Some (mkTensor [1; 4; 6]%nat
       [ [100; 100; 300; 300; 9 # 10; 1];
         [110; 110; 310; 310; 8 # 10; 1];
         [400; 200; 500; 300; 1 # 5; 2];
         [10; 90; 50; 120; 1 # 2; 3] ]))).

Definition sample_env : Env :=
  mkEnv None (fun _ => "http"%string)
        (fun _ => Response 200 None sample_image) true.

Example sample_run_counts :
  match run_detection_on_image_bytes sample_env sample_image
          (1 # 4) (9 # 20) 640 with
  | inr r => map fst (detected_objects r)
             = ["plastic_bottle"; "food_wrapper"]%string
             /\ severity_level r = Severity.high
  | inl _ => False
  end.
Proof. vm_compute. split; reflexivity. Qed.

Lemma run_detection_result_consistent_witness :
  exists r,
    run_detection_on_image_bytes sample_env sample_image (1 # 4) (9 # 20) 640
    = inr r
    /\ total_litter_count r = Z.of_nat (List.length (detected_objects r))
    /\ List.length (bounding_boxes r) = List.length (detected_objects r)
    /\ (severity_level r = Severity.none <-> total_litter_count r = 0%Z)
    /\ Forall (fun d => In (fst d) LABELS /\ (1 # 4) <= snd d)
              (detected_objects r).
Proof.
  eexists. split; [vm_compute; reflexivity|].
  apply (run_detection_result_consistent sample_env sample_image
           (1 # 4) (9 # 20) 640).
  vm_compute. reflexivity.
Defined.


End DetectorFacts.

(** ** What a detection run writes *)

Module PipelineFacts.
Import Store StoreFacts Detection DetectionQueries.
Local Open Scope Q_scope.

Lemma get_report_update_other (f : LitterReport -> LitterReport)
    (rid id : uuid) (db : DB) :
  (forall x, lr_id (f x) = lr_id x) ->
  id <> rid ->
  get_report (update_report f rid db) id = get_report db id.
Proof.
  intros Hid Hne. unfold get_report, update_report. cbn [litter_reports].
  induction (litter_reports db) as [|x l IH]; cbn [find map]; [reflexivity|].
  destruct (N.eqb_spec (lr_id x) rid) as [E|E].
  - rewrite Hid. destruct (N.eqb_spec (lr_id x) id) as [E'|_]; [congruence|].
    exact IH.
  - destruct (N.eqb (lr_id x) id); [reflexivity|exact IH].
Qed.

Lemma fetch_raises_http env url e :
  fetch_image_bytes env url = inl e -> exists st d, e = HTTPException st d.
Proof.
  unfold fetch_image_bytes.
  destruct (negb _); [intro H; injection H as <-; now eexists _, _|].
  destruct (attempts env 3 0 None) as [[[[st loc] body]|] k];
    [|intro H; injection H as <-; now eexists _, _].
  destruct (match is_redirect st, loc with
            | true, Some l =>
                if String.eqb l "" then (st, body)
                else match http_get env k with
                     | Response st2 _ body2 => (st2, body2)
                     | RequestException => (st, body)
                     end
            | _, _ => (st, body)
            end) as [st' body'].
  destruct (st' =? 200)%Z; [discriminate|].
  intro H; injection H as <-; now eexists _, _.
Qed.

(** A run that fails raises an [HTTPException] and nothing else; it
    stores no detection row, leaves uploads, fingerprints and groups as
    they were, and touches no report but the one it was called for. *)
Theorem failed_run_writes_no_detection env db rid e db' :
  create_litter_detection env db rid = (inl e, db') ->
  (exists st d, e = HTTPException st d)
  /\ litter_detections db' = litter_detections db
  /\ uploads db' = uploads db
  /\ image_fingerprints db' = image_fingerprints db
  /\ litter_groups db' = litter_groups db
  /\ (forall id, id <> rid -> get_report db' id = get_report db id).
Proof.
  unfold create_litter_detection.
  assert (Hsame : forall st d,
            (exists st0 d0, HTTPException st d = HTTPException st0 d0)
            /\ litter_detections db = litter_detections db
            /\ uploads db = uploads db
            /\ image_fingerprints db = image_fingerprints db
            /\ litter_groups db = litter_groups db
            /\ (forall id, id <> rid -> get_report db id = get_report db id)).
  { intros st d. split; [now eexists _, _|]. repeat split. }
  assert (Hupd : forall st d f, (forall x, lr_id (f x) = lr_id x) ->
            (exists st0 d0, HTTPException st d = HTTPException st0 d0)
            /\ litter_detections (update_report f rid db) = litter_detections db
            /\ uploads (update_report f rid db) = uploads db
            /\ image_fingerprints (update_report f rid db)
               = image_fingerprints db
            /\ litter_groups (update_report f rid db) = litter_groups db
            /\ (forall id, id <> rid ->
                  get_report (update_report f rid db) id = get_report db id)).
  { intros st d f Hf. split; [now eexists _, _|]. repeat split.
    intros id Hid. now apply get_report_update_other. }
  destruct (get_report db rid) as [report|];
    [|intro H; injection H as <- <-; apply Hsame].
  destruct (match lr_upload_id report with
            | Some uid => get_upload db uid
            | None => None
            end) as [upload|];
    [|intro H; injection H as <- <-; apply Hsame].
  destruct (String.eqb (up_file_url upload) "");
    [intro H; injection H as <- <-; apply Hsame|].
  destruct (fetch_image_bytes env (up_file_url upload)) as [ex|img] eqn:Hf.
  - intro H; injection H as <- <-.
    destruct (fetch_raises_http _ _ _ Hf) as (st & d & ->). apply Hsame.
  - destruct (run_detection_on_image_bytes env img (1 # 4) (9 # 20) 640)
      as [[st d|what]|results].
    + intro H; injection H as <- <-. apply Hsame.
    + intro H; injection H as <- <-. now apply Hupd.
    + destruct (total_litter_count results =? 0)%Z; [|discriminate].
      intro H; injection H as <- <-. now apply Hupd.
Qed.

Lemma successful_run_row env db rid d db' :
  create_litter_detection env db rid = (inr d, db') ->
  litter_detections db' = litter_detections db ++ [d]
  /\ ld_litter_report_id d = rid.
Proof.
  unfold create_litter_detection.
  destruct (get_report db rid) as [report|]; [|discriminate].
  destruct (match lr_upload_id report with
            | Some uid => get_upload db uid
            | None => None
            end) as [upload|]; [|discriminate].
  destruct (String.eqb (up_file_url upload) ""); [discriminate|].
  destruct (fetch_image_bytes env (up_file_url upload)) as [ex|img];
    [discriminate|].
  destruct (run_detection_on_image_bytes env img (1 # 4) (9 # 20) 640)
    as [[st dd|what]|results]; try discriminate.
  destruct (total_litter_count results =? 0)%Z; [discriminate|].
  intro H. injection H as <- <-. split; reflexivity.
Qed.

(** A run that returns has stored exactly one new detection row, for the
    report it was called for and with a positive count; the report takes
    the detection's severity and is marked detected, while its status is
    left as it was. *)
Theorem successful_run_effects env db rid d db' :
  create_litter_detection env db rid = (inr d, db') ->
  litter_detections db' = litter_detections db ++ [d]
  /\ ld_litter_report_id d = rid
  /\ (0 < ld_total_litter_count d)%Z
  /\ ld_severity_level d <> Severity.none
  /\ exists r r',
       get_report db rid = Some r /\ get_report db' rid = Some r'
       /\ lr_severity r' = Some (ld_severity_level d)
       /\ lr_is_detected r' = true
       /\ lr_status r' = lr_status r
       /\ lr_group_id r' = lr_group_id r.
Proof.
  unfold create_litter_detection.
  destruct (get_report db rid) as [report|] eqn:Hr; [|discriminate].
  destruct (match lr_upload_id report with
            | Some uid => get_upload db uid
            | None => None
            end) as [upload|]; [|discriminate].
  destruct (String.eqb (up_file_url upload) ""); [discriminate|].
  destruct (fetch_image_bytes env (up_file_url upload)) as [ex|img];
    [discriminate|].
  destruct (run_detection_on_image_bytes env img (1 # 4) (9 # 20) 640)
    as [[st dd|what]|results] eqn:Hrun; try discriminate.
  destruct (Z.eqb_spec (total_litter_count results) 0) as [|Hne];
    [discriminate|].
  intro H. injection H as <- <-.
  destruct (DetectorFacts.run_detection_count _ _ _ _ _ _ Hrun)
    as (Htot & Hsev).
  cbn [ld_litter_report_id ld_total_litter_count ld_severity_level].
  split; [reflexivity|]. split; [reflexivity|]. split; [lia|].
  split; [intro E; now apply Hsev in E|].
  eexists report, _. split; [reflexivity|]. split.
  - apply get_report_update; [reflexivity|]. exact Hr.
  - repeat split.
Qed.

(** After a run that returns, the detections of the report are the ones
    it had, followed by the new one. *)
Theorem successful_run_is_listed env db rid d db' :
  create_litter_detection env db rid = (inr d, db') ->
  get_detections_for_report db' rid
  = get_detections_for_report db rid ++ [d].
Proof.
  intro H. destruct (successful_run_row _ _ _ _ _ H) as (Hl & Hid).
  unfold get_detections_for_report. rewrite Hl, filter_app. cbn [filter].
  rewrite Hid, N.eqb_refl. reflexivity.
Qed.

(** [update_litter_report_with_detection] never changes the status of a
    report: whatever the payload, the report comes out marked detected,
    with the payload's severity (none when the payload has no such key)
    and the status it had; no other report and no detection row is
    touched. *)
Theorem patch_keeps_status db id sev j r :
  get_report db id = Some r ->
  exists r',
    fst (update_litter_report_with_detection db id sev j) = inr r'
    /\ get_report (snd (update_litter_report_with_detection db id sev j)) id
       = Some r'
    /\ lr_status r' = lr_status r
    /\ lr_is_detected r' = true
    /\ lr_severity r' = sev
    /\ litter_detections (snd (update_litter_report_with_detection db id sev j))
       = litter_detections db
    /\ (forall id', id' <> id ->
          get_report (snd (update_litter_report_with_detection db id sev j))
                     id'
          = get_report db id').
Proof.
  intro Hr. unfold update_litter_report_with_detection. rewrite Hr.
  cbn [fst snd]. eexists. split; [reflexivity|]. split.
  - apply get_report_update; [reflexivity|exact Hr].
  - repeat split. intros id' Hne. now apply get_report_update_other.
Qed.

Lemma failed_run_writes_no_detection_witness :
  exists e db',
    create_litter_detection DetectionFacts.bad_bytes_env
      DetectionFacts.pending_db 1%N = (inl e, db')
    /\ (exists st d, e = HTTPException st d)
    /\ litter_detections db' = litter_detections DetectionFacts.pending_db
    /\ uploads db' = uploads DetectionFacts.pending_db
    /\ image_fingerprints db'
       = image_fingerprints DetectionFacts.pending_db
    /\ litter_groups db' = litter_groups DetectionFacts.pending_db
    /\ (forall id, id <> 1%N ->
          get_report db' id = get_report DetectionFacts.pending_db id).
Proof.
  eexists _, _. split; [vm_compute; reflexivity|].
  apply (failed_run_writes_no_detection DetectionFacts.bad_bytes_env
           DetectionFacts.pending_db 1%N).
  vm_compute. reflexivity.
Defined.

(** The pending report of the scenario, its image now served and holding
    two objects. *)
Lemma successful_run_effects_witness :
  exists d db',
    create_litter_detection DetectorFacts.sample_env
      DetectionFacts.pending_db 1%N = (inr d, db')
    /\ litter_detections db'
       = litter_detections DetectionFacts.pending_db ++ [d]
    /\ ld_litter_report_id d = 1%N
    /\ (0 < ld_total_litter_count d)%Z
    /\ ld_severity_level d <> Severity.none
    /\ exists r r',
         get_report DetectionFacts.pending_db 1%N = Some r
         /\ get_report db' 1%N = Some r'
         /\ lr_severity r' = Some (ld_severity_level d)
         /\ lr_is_detected r' = true
         /\ lr_status r' = lr_status r
         /\ lr_group_id r' = lr_group_id r.
Proof.
  eexists _, _. split; [vm_compute; reflexivity|].
  apply (successful_run_effects DetectorFacts.sample_env
           DetectionFacts.pending_db 1%N).
  vm_compute. reflexivity.
Defined.

Lemma successful_run_is_listed_witness :
  exists d db',
    create_litter_detection DetectorFacts.sample_env
      DetectionFacts.pending_db 1%N = (inr d, db')
    /\ get_detections_for_report db' 1%N
       = get_detections_for_report DetectionFacts.pending_db 1%N ++ [d].
Proof.
  eexists _, _. split; [vm_compute; reflexivity|].
  apply (successful_run_is_listed DetectorFacts.sample_env
           DetectionFacts.pending_db 1%N).
  vm_compute. reflexivity.
Defined.

(** The payload the worker sends after a failure: no severity, an error
    message. *)
Lemma patch_keeps_status_witness :
  exists r',
    fst (update_litter_report_with_detection DetectionFacts.pending_db 1%N
           None (ErrorJson "Failed to download image")) = inr r'
    /\ get_report
         (snd (update_litter_report_with_detection DetectionFacts.pending_db
                 1%N None (ErrorJson "Failed to download image"))) 1%N
       = Some r'
    /\ lr_status r' = lr_status DetectionFacts.pending_report
    /\ lr_is_detected r' = true
    /\ lr_severity r' = None
    /\ litter_detections
         (snd (update_litter_report_with_detection DetectionFacts.pending_db
                 1%N None (ErrorJson "Failed to download image")))
       = litter_detections DetectionFacts.pending_db
    /\ (forall id', id' <> 1%N ->
          get_report
            (snd (update_litter_report_with_detection
                    DetectionFacts.pending_db 1%N None
                    (ErrorJson "Failed to download image"))) id'
          = get_report DetectionFacts.pending_db id').
Proof.
  apply (patch_keeps_status DetectionFacts.pending_db 1%N None
           (ErrorJson "Failed to download image")
           DetectionFacts.pending_report).
  reflexivity.
Defined.

(** The outcome of a failed run, on bytes that do not decode. *)
Lemma failed_run_outcome_witness :
  exists e db',
    create_litter_detection DetectionFacts.bad_bytes_env
      DetectionFacts.pending_db 1%N = (inl e, db')
    /\ (db' = DetectionFacts.pending_db
        \/ exists r', get_report db' 1%N = Some r'
                      /\ terminal (lr_status r') = true).
Proof.
  eexists _, _. split; [vm_compute; reflexivity|].
  eapply (DetectionFacts.failed_run_outcome DetectionFacts.bad_bytes_env
            DetectionFacts.pending_db 1%N).
  - reflexivity.
  - vm_compute. reflexivity.
Defined.

End PipelineFacts.

(** ** Radius attachment and cluster suggestions: what they return *)

Module GrouperMore.
Import Store StoreFacts Grouper.
Local Open Scope Q_scope.

Lemma order_by_distance_spec (p : Point) (rows : list LitterGroup) :
  match order_by_distance_limit_1 p rows with
  | Some g => In g rows
              /\ forall g', In g' rows -> group_dist2 p g <= group_dist2 p g'
  | None => rows = []
  end.
Proof.
  induction rows as [|g rest IH]; cbn [order_by_distance_limit_1];
    [reflexivity|].
  destruct (order_by_distance_limit_1 p rest) as [b|].
  - destruct IH as [Hb Hmin].
    destruct (Qle_bool (group_dist2 p g) (group_dist2 p b)) eqn:E.
    + apply Qle_bool_iff in E. split; [now left|].
      intros g' [<-|Hg']; [apply Qle_refl|].
      eapply Qle_trans; [exact E|now apply Hmin].
    + split; [now right|]. intros g' [<-|Hg']; [|now apply Hmin].
      destruct (Qlt_le_dec (group_dist2 p b) (group_dist2 p g)) as [Hlt|Hle].
      * now apply Qlt_le_weak.
      * apply Qle_bool_iff in Hle. congruence.
  - subst rest. split; [now left|].
    intros g' [<-|[]]. apply Qle_refl.
Qed.

Lemma nearest_group_row_in (db : DB) (lat lng radius : Q) :
  forall g, nearest_group_row db lat lng radius = Some g ->
            In g (litter_groups db).
Proof.
  unfold nearest_group_row. intros g Hg.
  pose proof (order_by_distance_spec (mkPoint lng lat)
                (filter (fun g => st_dwithin (lg_geom g)
                                    (Some (mkPoint lng lat)) radius)
                        (litter_groups db))) as H.
  rewrite Hg in H. destruct H as [H _]. now apply filter_In in H.
Qed.

(** The row the radius query selects is a group within the radius (in
    the units of the stored geometry) at the least planar distance from
    the point; the query selects nothing exactly when no group is within
    the radius. *)
Theorem radius_query_selects_nearest (db : DB) (lat lng radius : Q) :
  match nearest_group_row db lat lng radius with
  | Some g =>
      In g (litter_groups db)
      /\ st_dwithin (lg_geom g) (Some (mkPoint lng lat)) radius = true
      /\ forall g', In g' (litter_groups db) ->
           st_dwithin (lg_geom g') (Some (mkPoint lng lat)) radius = true ->
           group_dist2 (mkPoint lng lat) g <= group_dist2 (mkPoint lng lat) g'
  | None =>
      forall g', In g' (litter_groups db) ->
        st_dwithin (lg_geom g') (Some (mkPoint lng lat)) radius = false
  end.
Proof.
  unfold nearest_group_row.
  pose proof (order_by_distance_spec (mkPoint lng lat)
                (filter (fun g => st_dwithin (lg_geom g)
                                    (Some (mkPoint lng lat)) radius)
                        (litter_groups db))) as H.
  destruct (order_by_distance_limit_1 _ _) as [g|].
  - destruct H as [Hin Hmin]. apply filter_In in Hin. destruct Hin as [Hin Hw].
    repeat split; try assumption.
    intros g' Hg' Hw'. apply Hmin. apply filter_In. now split.
  - intros g' Hg'.
    destruct (st_dwithin (lg_geom g') _ radius) eqn:E; [|reflexivity].
    assert (Hf : In g' (filter (fun g => st_dwithin (lg_geom g)
                                  (Some (mkPoint lng lat)) radius)
                          (litter_groups db)))
      by (apply filter_In; now split).
    rewrite H in Hf. destruct Hf.
Qed.

(** Radius attachment writes to one report only, and of that report only
    the group and the grouped flag: every table but [litter_reports] is
    left as it was, every other report is unchanged, and the report
    itself either stays as it was or points to a group of the store. *)
Theorem radius_attachment_frame (db : DB) (rid : uuid) (lat lng radius : Q) :
  uploads (_assign_to_nearest_group db rid lat lng radius) = uploads db
  /\ image_fingerprints (_assign_to_nearest_group db rid lat lng radius)
     = image_fingerprints db
  /\ litter_groups (_assign_to_nearest_group db rid lat lng radius)
     = litter_groups db
  /\ litter_detections (_assign_to_nearest_group db rid lat lng radius)
     = litter_detections db
  /\ (forall id, id <> rid ->
        get_report (_assign_to_nearest_group db rid lat lng radius) id
        = get_report db id)
  /\ (forall r, get_report db rid = Some r ->
        get_report (_assign_to_nearest_group db rid lat lng radius) rid
        = Some r
        \/ exists g, In g (litter_groups db)
             /\ get_report (_assign_to_nearest_group db rid lat lng radius) rid
                = Some (set_group (lg_id g) r)).
Proof.
  unfold _assign_to_nearest_group.
  pose proof (nearest_group_row_in db lat lng radius) as Hin.
  destruct (nearest_group_row db lat lng radius) as [g|].
  - repeat split; try reflexivity.
    + intros id Hne. now apply PipelineFacts.get_report_update_other.
    + intros r Hr. right. exists g. split; [now apply Hin|].
      now apply get_report_update.
  - repeat split; try reflexivity. intros r Hr. now left.
Qed.

(** *** Cluster suggestions *)

Lemma insert_label_in (x z : Z) (l : list Z) :
  In z (insert_label x l) <-> z = x \/ In z l.
Proof.
  induction l as [|y l IH]; cbn [insert_label].
  - cbn. intuition.
  - destruct (Z.ltb_spec x y); [cbn; intuition|].
    destruct (Z.eqb_spec x y) as [->|]; [cbn; intuition|].
    cbn [In]. rewrite IH. intuition.
Qed.

Lemma insert_label_sorted (x : Z) (l : list Z) :
  ForallOrdPairs Z.lt l -> ForallOrdPairs Z.lt (insert_label x l).
Proof.
  induction 1 as [|y l Hy Hl IH]; cbn [insert_label].
  - repeat constructor.
  - destruct (Z.ltb_spec x y) as [Hxy|Hxy].
    + constructor; [|now constructor]. constructor; [exact Hxy|].
      eapply Forall_impl; [|exact Hy]. intros a Ha. cbn in Ha. lia.
    + destruct (Z.eqb_spec x y) as [->|Hne]; [now constructor|].
      constructor; [|exact IH].
      apply Forall_forall. intros a Ha. apply insert_label_in in Ha.
      rewrite Forall_forall in Hy. destruct Ha as [->|Ha]; [lia|now apply Hy].
Qed.

(** [sorted(set(labels))] is strictly increasing. *)
Lemma sorted_set_sorted (labels : list Z) :
  ForallOrdPairs Z.lt (sorted_set labels).
Proof.
  unfold sorted_set. induction labels as [|x l IH]; cbn [fold_right].
  - constructor.
  - now apply insert_label_sorted.
Qed.

Lemma suggestion_of_cases rows coords labels c :
  suggestion_of rows coords labels c = []
  \/ exists s, suggestion_of rows coords labels c = [s]
               /\ cluster_id s = c /\ c <> (-1)%Z.
Proof.
  unfold suggestion_of. destruct (Z.eqb_spec c (-1)) as [|Hne]; [now left|].
  destruct (filter _ _); [now left|]. right. eexists. repeat split. exact Hne.
Qed.

Lemma suggestions_sorted rows coords labels (ls : list Z) :
  ForallOrdPairs Z.lt ls ->
  ForallOrdPairs Z.lt
    (map cluster_id (flat_map (suggestion_of rows coords labels) ls))
  /\ Forall (fun s => In (cluster_id s) ls /\ cluster_id s <> (-1)%Z)
       (flat_map (suggestion_of rows coords labels) ls).
Proof.
  induction 1 as [|x l Hx Hl [IH1 IH2]]; cbn [flat_map map].
  - split; constructor.
  - assert (IH2' : Forall (fun s => In (cluster_id s) (x :: l)
                                    /\ cluster_id s <> (-1)%Z)
                     (flat_map (suggestion_of rows coords labels) l)).
    { eapply Forall_impl; [|exact IH2]. intros s [H1 H2].
      split; [now right|exact H2]. }
    destruct (suggestion_of_cases rows coords labels x)
      as [->|(s & -> & Hid & Hne)]; [now split|].
    cbn [app map]. split.
    + constructor; [|exact IH1]. apply Forall_map.
      eapply Forall_impl; [|exact IH2]. intros s' [Hin _]. cbn.
      rewrite Hid. rewrite Forall_forall in Hx. now apply Hx.
    + constructor; [|exact IH2']. split; [left; now rewrite Hid|].
      now rewrite Hid.
Qed.

(** The suggestions of a run come in strictly increasing order of their
    cluster id, so no id occurs twice, and the noise label -1 never makes
    a suggestion. *)
Theorem cluster_ids_increase_and_skip_noise
    (st_transform_3857 : Point -> Q * Q)
    (dbscan : Q -> Z -> list (Q * Q) -> list Z)
    (db : DB) (eps : Q) (minpts : Z) :
  match get_cluster_suggestions st_transform_3857 dbscan db eps minpts with
  | Some suggestions =>
      ForallOrdPairs Z.lt (map cluster_id suggestions)
      /\ Forall (fun s => cluster_id s <> (-1)%Z) suggestions
  | None => True
  end.
Proof.
  unfold get_cluster_suggestions.
  destruct (select_rows st_transform_3857 db) as [|r0 rows0];
    [split; constructor|].
  destruct (coords_of (r0 :: rows0)) as [coords|]; [|exact I].
  destruct (suggestions_sorted (r0 :: rows0) coords
              (dbscan eps minpts coords)
              (sorted_set (dbscan eps minpts coords))
              (sorted_set_sorted _)) as [H1 H2].
  split; [exact H1|].
  eapply Forall_impl; [|exact H2]. now intros s [_ H].
Qed.

Lemma coords_of_none (rows : list Row) :
  coords_of rows = None <-> exists r, In r rows /\ row_xy r = None.
Proof.
  induction rows as [|r rows IH]; cbn [coords_of].
  - split; [discriminate|intros (r & [] & _)].
  - destruct (row_xy r) as [xy|] eqn:E.
    + destruct (coords_of rows) as [cs|].
      * split; [discriminate|].
        intros (r' & [<-|Hin] & Hn); [congruence|].
        assert (Hc : Some cs = None) by (apply (proj2 IH); now exists r').
        discriminate Hc.
      * split; [|reflexivity]. intros _.
        destruct (proj1 IH eq_refl) as (r' & Hin & Hn).
        exists r'. split; [now right|exact Hn].
    + split; [|reflexivity]. intros _. exists r. split; [now left|exact E].
Qed.

(** A report without geometry makes the suggestion run fail, whatever
    [eps] and [minpts] are; on an empty table the run answers with the
    empty list before any clustering. *)
Theorem cluster_run_fails_on_missing_geom
    (st_transform_3857 : Point -> Q * Q)
    (dbscan : Q -> Z -> list (Q * Q) -> list Z)
    (db : DB) (eps : Q) (minpts : Z) :
  ((exists r, In r (litter_reports db) /\ lr_geom r = None) ->
   get_cluster_suggestions st_transform_3857 dbscan db eps minpts = None)
  /\ (litter_reports db = [] ->
      get_cluster_suggestions st_transform_3857 dbscan db eps minpts
      = Some []).
Proof.
  unfold get_cluster_suggestions. split.
  - intros (r & Hr & Hg).
    assert (Hnone : coords_of (select_rows st_transform_3857 db) = None).
    { apply coords_of_none. unfold select_rows. eexists. split.
      - apply in_map_iff. exists r. split; [reflexivity|exact Hr].
      - cbn. now rewrite Hg. }
    destruct (select_rows st_transform_3857 db) as [|r0 rows0];
      [discriminate Hnone|].
    rewrite Hnone. reflexivity.
  - intro He. unfold select_rows. rewrite He. reflexivity.
Qed.

(** One report without geometry among two. *)
Lemma cluster_run_fails_on_missing_geom_witness :
  get_cluster_suggestions (fun p => (pt_x p, pt_y p))
    (fun _ _ coords => map (fun _ => 0%Z) coords)
    (mkDB []
       [mkReport 1%N 7%Z None None 0 0 None None "pending" false false 0%Z
                 (Some (mkPoint 0 0));
        mkReport 2%N 7%Z None None 0 0 None None "pending" false false 0%Z
                 None]
       [] [] [])
    500 3 = None.
Proof.
  apply (proj1 (cluster_run_fails_on_missing_geom
                  (fun p => (pt_x p, pt_y p))
                  (fun _ _ coords => map (fun _ => 0%Z) coords)
                  (mkDB []
                     [mkReport 1%N 7%Z None None 0 0 None None "pending"
                               false false 0%Z (Some (mkPoint 0 0));
                      mkReport 2%N 7%Z None None 0 0 None None "pending"
                               false false 0%Z None]
                     [] [] [])
                  500 3)).
  eexists. split; [right; left; reflexivity|reflexivity].
Defined.

Lemma bounds_from_spec (pts : list (Q * Q)) :
  forall b1 b2 b3 b4 a1 a2 a3 a4,
    bounds_from (b1, b2, b3, b4) pts = (a1, a2, a3, a4) ->
    (a1 <= b1 /\ a2 <= b2 /\ b3 <= a3 /\ b4 <= a4)
    /\ forall x y, In (x, y) pts ->
         a1 <= x /\ x <= a3 /\ a2 <= y /\ y <= a4.
Proof.
  induction pts as [|[px py] pts IH]; intros b1 b2 b3 b4 a1 a2 a3 a4;
    cbn [bounds_from].
  - intro H. injection H as <- <- <- <-.
    split; [repeat split; apply Qle_refl|intros x y []].
  - intro H. apply IH in H. destruct H as [(H1 & H2 & H3 & H4) Hall].
    pose proof (Q.le_min_l b1 px). pose proof (Q.le_min_r b1 px).
    pose proof (Q.le_min_l b2 py). pose proof (Q.le_min_r b2 py).
    pose proof (Q.le_max_l b3 px). pose proof (Q.le_max_r b3 px).
    pose proof (Q.le_max_l b4 py). pose proof (Q.le_max_r b4 py).
    split; [repeat split; lra|].
    intros x y [E|Hin]; [|now apply Hall].
    injection E as <- <-. repeat split; lra.
Qed.

(** The envelope of a set of points contains each of them. *)
Lemma bounds_contain (pts : list (Q * Q)) (x y : Q) a1 a2 a3 a4 :
  bounds pts = (a1, a2, a3, a4) -> In (x, y) pts ->
  a1 <= x /\ x <= a3 /\ a2 <= y /\ y <= a4.
Proof.
  destruct pts as [|[px py] pts]; [intros _ []|]. cbn [bounds].
  intros H Hin. apply bounds_from_spec in H.
  destruct H as [(H1 & H2 & H3 & H4) Hall].
  destruct Hin as [E|Hin]; [|now apply Hall].
  injection E as <- <-. repeat split; assumption.
Qed.

(** Every report that the clustering labels with a suggestion's cluster
    id is a member of the suggestion, and its point lies inside the
    suggestion's bounding box. *)
Theorem cluster_contains_its_members
    (st_transform_3857 : Point -> Q * Q)
    (dbscan : Q -> Z -> list (Q * Q) -> list Z)
    (db : DB) (eps : Q) (minpts : Z)
    (coords : list (Q * Q)) (suggestions : list ClusterSuggestion)
    (s : ClusterSuggestion) (row : Row) (x y : Q) :
  coords_of (select_rows st_transform_3857 db) = Some coords ->
  get_cluster_suggestions st_transform_3857 dbscan db eps minpts
  = Some suggestions ->
  In s suggestions ->
  In (row, (x, y), cluster_id s)
     (combine (combine (select_rows st_transform_3857 db) coords)
              (dbscan eps minpts coords)) ->
  In (row_id row) (map fst (members s))
  /\ (let '(minx, miny, maxx, maxy) := bbox_bounds s in
      minx <= x /\ x <= maxx /\ miny <= y /\ y <= maxy).
Proof.
  intros Hc. unfold get_cluster_suggestions.
  destruct (select_rows st_transform_3857 db) as [|r0 rows0] eqn:Hrows;
    [intros _ _ []|].
  rewrite Hc. intro H. injection H as <-. intros Hs Hin.
  apply in_flat_map in Hs. destruct Hs as (c & _ & Hs).
  unfold suggestion_of in Hs. destruct (c =? -1)%Z; [destruct Hs|].
  destruct (filter _ _) as [|e idx] eqn:Hidx; [destruct Hs|].
  destruct Hs as [<-|[]]. cbn [cluster_id members bbox_bounds] in *.
  assert (He : In (row, (x, y), c) (e :: idx)).
  { rewrite <- Hidx. apply filter_In. split; [exact Hin|].
    cbn. apply Z.eqb_refl. }
  split.
  - rewrite map_map. apply in_map_iff.
    exists (row, (x, y), c). split; [reflexivity|exact He].
  - destruct (bounds _) as [[[minx miny] maxx] maxy] eqn:Hb.
    apply (bounds_contain _ x y _ _ _ _ Hb).
    apply in_map_iff. exists (row, (x, y), c). split; [reflexivity|exact He].
Qed.

(** Three reports, the first and the last in cluster 0 and the second
    noise. *)
Definition with_noise (eps : Q) (minpts : Z) (coords : list (Q * Q))
  : list Z :=
  [0; -1; 0]%Z.

Lemma cluster_contains_its_members_witness :
  In 3%N (map fst (members
            (mkSuggestion 0 2 Severity.low (0, 0, 0, 10)
                          [(1%N, None); (3%N, None)])))
  /\ (let '(minx, miny, maxx, maxy) :=
        bbox_bounds (mkSuggestion 0 2 Severity.low (0, 0, 0, 10)
                                  [(1%N, None); (3%N, None)]) in
      minx <= 0 /\ 0 <= maxx /\ miny <= 10 /\ 10 <= maxy).
Proof.
  apply (cluster_contains_its_members GrouperFacts.plane with_noise
           GrouperFacts.three_reports 500 3
           [(0, 0); (10, 0); (0, 10)]
           [mkSuggestion 0 2 Severity.low (0, 0, 0, 10)
                         [(1%N, None); (3%N, None)]]
           (mkSuggestion 0 2 Severity.low (0, 0, 0, 10)
                         [(1%N, None); (3%N, None)])
           (mkRow 3%N (Some (0, 10)) None) 0 10).
  - reflexivity.
  - vm_compute. reflexivity.
  - left. reflexivity.
  - vm_compute. right. right. left. reflexivity.
Defined.

End GrouperMore.

(** ** The upload endpoint: what it writes *)

Module UploadsMore.
Import Store StoreFacts Uploads.
Local Open Scope Q_scope.

Lemma update_fresh (f : LitterReport -> LitterReport) (id : uuid)
    (l : list LitterReport) (x : LitterReport) :
  existsb (fun r => N.eqb (lr_id r) id) l = false ->
  map (fun r => if N.eqb (lr_id r) id then f r else r) (l ++ [x])
  = l ++ [if N.eqb (lr_id x) id then f x else x].
Proof.
  intro H. rewrite map_app. cbn [map]. f_equal.
  induction l as [|y l IH]; [reflexivity|]. cbn [existsb map] in *.
  apply orb_false_iff in H. destruct H as [-> H]. now rewrite IH.
Qed.

Lemma find_fresh (id : uuid) (l : list LitterReport) (x : LitterReport) :
  existsb (fun r => N.eqb (lr_id r) id) l = false ->
  find (fun r => N.eqb (lr_id r) id) (l ++ [x])
  = if N.eqb (lr_id x) id then Some x else None.
Proof.
  intro H. induction l as [|y l IH]; [reflexivity|].
  cbn [existsb app find] in *.
  apply orb_false_iff in H. destruct H as [-> H]. now apply IH.
Qed.

(** What [create_litter_report] leaves: on failure nothing; on success
    one new row at the end of [litter_reports], the row it returns, and
    every other table as it was. *)
Lemma create_litter_report_rows env db user uid lat lng :
  match create_litter_report env db user uid lat lng with
  | (Some report, db') =>
      litter_reports db' = litter_reports db ++ [report]
      /\ uploads db' = uploads db
      /\ image_fingerprints db' = image_fingerprints db
      /\ litter_groups db' = litter_groups db
      /\ litter_detections db' = litter_detections db
      /\ existsb (fun r => N.eqb (lr_id r) (new_report_id env))
                 (litter_reports db) = false
      /\ lr_id report = new_report_id env
      /\ lr_upload_id report = Some uid
      /\ lr_geom report = Some (mkPoint lng lat)
      /\ lr_created_at report = localnow env
      /\ lr_status report = "pending"%string
  | (None, db') => db' = db
  end.
Proof.
  unfold create_litter_report. cbn [lr_id].
  destruct (existsb _ (litter_reports db)) eqn:Hex; [reflexivity|].
  unfold Grouper._assign_to_nearest_group.
  match goal with |- context [Grouper.nearest_group_row ?d ?a ?b ?c] =>
    destruct (Grouper.nearest_group_row d a b c) as [g|] end;
    unfold get_report, update_report; cbn [litter_reports uploads
      image_fingerprints litter_groups litter_detections];
    repeat (rewrite (update_fresh _ _ _ _ Hex); cbn [lr_id set_geom set_group]);
    rewrite ?N.eqb_refl;
    rewrite (find_fresh _ _ _ Hex); cbn [lr_id set_geom set_group];
    rewrite N.eqb_refl; repeat split; reflexivity.
Qed.

(** Whatever the outcome, the endpoint only appends: each of [uploads],
    [litter_reports] and [image_fingerprints] keeps its rows, unchanged
    and in place, and gains at most one; groups and detections are left
    as they were. *)
Theorem upload_only_appends env sess file lat lng db user :
  exists ups reps fps,
    uploads (snd (upload_create_report_and_detect env sess file lat lng db
                    user)) = uploads db ++ ups
    /\ litter_reports
         (snd (upload_create_report_and_detect env sess file lat lng db user))
       = litter_reports db ++ reps
    /\ image_fingerprints
         (snd (upload_create_report_and_detect env sess file lat lng db user))
       = image_fingerprints db ++ fps
    /\ (List.length ups <= 1)%nat /\ (List.length reps <= 1)%nat
    /\ (List.length fps <= List.length reps)%nat
    /\ (List.length reps <= List.length ups)%nat
    /\ litter_groups
         (snd (upload_create_report_and_detect env sess file lat lng db user))
       = litter_groups db
    /\ litter_detections
         (snd (upload_create_report_and_detect env sess file lat lng db user))
       = litter_detections db.
Proof.
  assert (Hnil : forall d : DB, d = db ->
            exists ups reps fps,
              uploads d = uploads db ++ ups
              /\ litter_reports d = litter_reports db ++ reps
              /\ image_fingerprints d = image_fingerprints db ++ fps
              /\ (List.length ups <= 1)%nat /\ (List.length reps <= 1)%nat
              /\ (List.length fps <= List.length reps)%nat
              /\ (List.length reps <= List.length ups)%nat
              /\ litter_groups d = litter_groups db
              /\ litter_detections d = litter_detections db).
  { intros d ->. exists [], [], []. rewrite !app_nil_r.
    repeat split; cbn; lia. }
  unfold upload_create_report_and_detect.
  destruct (file_phash file) as [ph|]; [|now apply Hnil].
  destruct (phash_duplicates ph _); [|now apply Hnil].
  unfold create_upload_controller.
  destruct (negb (disk_write_ok env)); [now apply Hnil|].
  destruct (existsb _ (uploads db)); [now apply Hnil|].
  set (upload := mkUpload _ _ _ _ _ _).
  set (db1 := mkDB (uploads db ++ [upload]) _ _ _ _).
  assert (Hone : forall d : DB,
            uploads d = uploads db1 -> litter_reports d = litter_reports db1 ->
            image_fingerprints d = image_fingerprints db1 ->
            litter_groups d = litter_groups db1 ->
            litter_detections d = litter_detections db1 ->
            exists ups reps fps,
              uploads d = uploads db ++ ups
              /\ litter_reports d = litter_reports db ++ reps
              /\ image_fingerprints d = image_fingerprints db ++ fps
              /\ (List.length ups <= 1)%nat /\ (List.length reps <= 1)%nat
              /\ (List.length fps <= List.length reps)%nat
              /\ (List.length reps <= List.length ups)%nat
              /\ litter_groups d = litter_groups db
              /\ litter_detections d = litter_detections db).
  { intros d -> -> -> -> ->. exists [upload], [], [].
    rewrite !app_nil_r. repeat split; cbn; lia. }
  destruct lat as [la|]; [|now apply Hone].
  destruct lng as [lo|]; [|now apply Hone].
  unfold create_report_controller.
  pose proof (create_litter_report_rows env db1 user (up_id upload) la lo)
    as Hrows.
  destruct (create_litter_report env db1 user (up_id upload) la lo)
    as [[report|] db2].
  - destruct Hrows as (Hr & Hu & Hf & Hg & Hd & Hex & Hid & _ & Hgeom & _).
    assert (Htwo : forall d : DB,
              uploads d = uploads db2 ->
              litter_reports d = litter_reports db2 ->
              (image_fingerprints d = image_fingerprints db2
               \/ exists fp, image_fingerprints d
                             = image_fingerprints db2 ++ [fp]) ->
              litter_groups d = litter_groups db2 ->
              litter_detections d = litter_detections db2 ->
              exists ups reps fps,
                uploads d = uploads db ++ ups
                /\ litter_reports d = litter_reports db ++ reps
                /\ image_fingerprints d = image_fingerprints db ++ fps
                /\ (List.length ups <= 1)%nat /\ (List.length reps <= 1)%nat
                /\ (List.length fps <= List.length reps)%nat
                /\ (List.length reps <= List.length ups)%nat
                /\ litter_groups d = litter_groups db
                /\ litter_detections d = litter_detections db).
    { intros d -> -> Hfp -> ->. rewrite Hu, Hr, Hg, Hd.
      destruct Hfp as [->|[fp ->]]; rewrite Hf.
      - exists [upload], [report], []. rewrite !app_nil_r.
        repeat split; cbn; lia.
      - exists [upload], [report], [fp]. repeat split; cbn; lia. }
    destruct (existsb _ (image_fingerprints db2)).
    + apply Htwo; try reflexivity. now left.
    + apply Htwo; try reflexivity.
      * unfold update_report. cbn [litter_reports].
        rewrite Hr, Hid, (update_fresh _ _ _ _ Hex), Hid, N.eqb_refl.
        f_equal. f_equal. destruct report. cbn in Hgeom |- *.
        now rewrite Hgeom.
      * right. now eexists.
  - subst db2. now apply Hone.
Qed.

(** An accepted submission leaves exactly one new upload row and one new
    report row: the upload under the fresh id and the stored URL, the
    report under the id the response carries, linked to that upload,
    [pending], created at the local clock's time, with its geometry at
    the submitted coordinates. *)
Theorem accepted_submission_rows env sess file lat lng db user rid :
  fst (upload_create_report_and_detect env sess file lat lng db user)
  = inr rid ->
  exists la lo u r,
    lat = Some la /\ lng = Some lo
    /\ uploads (snd (upload_create_report_and_detect env sess file lat lng db
                       user)) = uploads db ++ [u]
    /\ litter_reports
         (snd (upload_create_report_and_detect env sess file lat lng db user))
       = litter_reports db ++ [r]
    /\ up_id u = new_upload_id env /\ up_file_url u = new_file_url env
    /\ up_user_id u = user
    /\ lr_id r = rid /\ rid = new_report_id env
    /\ lr_upload_id r = Some (up_id u)
    /\ lr_geom r = Some (mkPoint lo la)
    /\ lr_created_at r = localnow env
    /\ lr_status r = "pending"%string.
Proof.
  unfold upload_create_report_and_detect.
  destruct (file_phash file) as [ph|]; [|discriminate].
  destruct (phash_duplicates ph _); [|discriminate].
  unfold create_upload_controller.
  destruct (negb (disk_write_ok env)); [discriminate|].
  destruct (existsb _ (uploads db)); [discriminate|].
  set (upload := mkUpload _ _ _ _ _ _).
  set (db1 := mkDB (uploads db ++ [upload]) _ _ _ _).
  destruct lat as [la|]; [|discriminate].
  destruct lng as [lo|]; [|discriminate].
  unfold create_report_controller.
  pose proof (create_litter_report_rows env db1 user (up_id upload) la lo)
    as Hrows.
  destruct (create_litter_report env db1 user (up_id upload) la lo)
    as [[report|] db2]; [|discriminate].
  destruct Hrows as (Hr & Hu & _ & _ & _ & Hex & Hid & Hup & Hgeom & Hat & Hst).
  destruct (existsb _ (image_fingerprints db2)); [discriminate|].
  cbn [fst snd]. intro H. injection H as <-.
  exists la, lo, upload, report.
  split; [reflexivity|]. split; [reflexivity|].
  split; [exact Hu|]. split.
  - unfold update_report. cbn [litter_reports].
    rewrite Hr, Hid, (update_fresh _ _ _ _ Hex), Hid, N.eqb_refl.
    f_equal. f_equal. destruct report. cbn in Hgeom |- *. now rewrite Hgeom.
  - repeat split; assumption.
Qed.

Lemma accepted_submission_rows_witness :
  exists la lo u r,
    Some (129716 # 10000) = Some la /\ Some (775947 # 10000) = Some lo
    /\ uploads (snd (upload_create_report_and_detect
                       UploadsFacts.scenario_env "s"
                       (mkFile "b.jpg" (Some 511%N))
                       (Some (129716 # 10000)) (Some (775947 # 10000))
                       UploadsFacts.scenario_db 8%Z))
       = uploads UploadsFacts.scenario_db ++ [u]
    /\ litter_reports
         (snd (upload_create_report_and_detect
                 UploadsFacts.scenario_env "s"
                 (mkFile "b.jpg" (Some 511%N))
                 (Some (129716 # 10000)) (Some (775947 # 10000))
                 UploadsFacts.scenario_db 8%Z))
       = litter_reports UploadsFacts.scenario_db ++ [r]
    /\ up_id u = new_upload_id UploadsFacts.scenario_env
    /\ up_file_url u = new_file_url UploadsFacts.scenario_env
    /\ up_user_id u = 8%Z
    /\ lr_id r = 2%N /\ 2%N = new_report_id UploadsFacts.scenario_env
    /\ lr_upload_id r = Some (up_id u)
    /\ lr_geom r = Some (mkPoint lo la)
    /\ lr_created_at r = localnow UploadsFacts.scenario_env
    /\ lr_status r = "pending"%string.
Proof.
  apply (accepted_submission_rows UploadsFacts.scenario_env "s"
           (mkFile "b.jpg" (Some 511%N))
           (Some (129716 # 10000)) (Some (775947 # 10000))
           UploadsFacts.scenario_db 8%Z 2%N).
  vm_compute. reflexivity.
Defined.

(** A submission without latitude or longitude is never accepted and
    never creates a report or a fingerprint; but when it passes the
    duplicate check and the file is stored, it fails only after the
    upload row was committed, and leaves that row behind. *)
Theorem submission_without_coordinates env sess file lat lng db user :
  lat = None \/ lng = None ->
  (exists e,
     fst (upload_create_report_and_detect env sess file lat lng db user)
     = inl e)
  /\ litter_reports
       (snd (upload_create_report_and_detect env sess file lat lng db user))
     = litter_reports db
  /\ image_fingerprints
       (snd (upload_create_report_and_detect env sess file lat lng db user))
     = image_fingerprints db
  /\ (forall ph,
        file_phash file = Some ph ->
        phash_duplicates ph (recent_fingerprints db (utcnow env - days 7)%Z)
        = [] ->
        disk_write_ok env = true ->
        existsb (fun u => N.eqb (up_id u) (new_upload_id env)) (uploads db)
        = false ->
        upload_create_report_and_detect env sess file lat lng db user
        = (inl (OtherException "ValidationError"),
           mkDB (uploads db
                 ++ [mkUpload (new_upload_id env) user (Some sess)
                              (new_file_url env) lat lng])
                (litter_reports db) (image_fingerprints db)
                (litter_groups db) (litter_detections db))).
Proof.
  intro Hmissing. unfold upload_create_report_and_detect.
  assert (Hcoord : forall (A : Type) (a : Q -> Q -> A) (b : A),
            match lat, lng with
            | Some la, Some lo => a la lo
            | _, _ => b
            end = b).
  { intros A a b. destruct Hmissing as [-> | ->]; [reflexivity|].
    destruct lat; reflexivity. }
  split; [|split; [|split]].
  - destruct (file_phash file) as [ph|]; [|now eexists].
    destruct (phash_duplicates ph _); [|now eexists].
    destruct (create_upload_controller env db file lat lng user sess)
      as [[e|upload] db1]; [now eexists|].
    rewrite Hcoord. now eexists.
  - destruct (file_phash file) as [ph|]; [|reflexivity].
    destruct (phash_duplicates ph _); [|reflexivity].
    unfold create_upload_controller.
    destruct (negb (disk_write_ok env)); [reflexivity|].
    destruct (existsb _ (uploads db)); [reflexivity|].
    rewrite Hcoord. reflexivity.
  - destruct (file_phash file) as [ph|]; [|reflexivity].
    destruct (phash_duplicates ph _); [|reflexivity].
    unfold create_upload_controller.
    destruct (negb (disk_write_ok env)); [reflexivity|].
    destruct (existsb _ (uploads db)); [reflexivity|].
    rewrite Hcoord. reflexivity.
  - intros ph Hph Hdup Hdisk Hfresh. rewrite Hph, Hdup.
    unfold create_upload_controller. rewrite Hdisk. cbn [negb up_id].
    rewrite Hfresh, Hcoord. reflexivity.
Qed.

(** The second request of the scenario, sent without a latitude. *)
Lemma submission_without_coordinates_witness :
  (exists e,
     fst (upload_create_report_and_detect UploadsFacts.scenario_env "s"
            (mkFile "b.jpg" (Some 511%N)) None (Some (775947 # 10000))
            UploadsFacts.scenario_db 8%Z) = inl e)
  /\ litter_reports
       (snd (upload_create_report_and_detect UploadsFacts.scenario_env "s"
               (mkFile "b.jpg" (Some 511%N)) None (Some (775947 # 10000))
               UploadsFacts.scenario_db 8%Z))
     = litter_reports UploadsFacts.scenario_db
  /\ image_fingerprints
       (snd (upload_create_report_and_detect UploadsFacts.scenario_env "s"
               (mkFile "b.jpg" (Some 511%N)) None (Some (775947 # 10000))
               UploadsFacts.scenario_db 8%Z))
     = image_fingerprints UploadsFacts.scenario_db
  /\ (forall ph,
        file_phash (mkFile "b.jpg" (Some 511%N)) = Some ph ->
        phash_duplicates ph
          (recent_fingerprints UploadsFacts.scenario_db
             (utcnow UploadsFacts.scenario_env - days 7)%Z) = [] ->
        disk_write_ok UploadsFacts.scenario_env = true ->
        existsb (fun u => N.eqb (up_id u)
                            (new_upload_id UploadsFacts.scenario_env))
                (uploads UploadsFacts.scenario_db) = false ->
        upload_create_report_and_detect UploadsFacts.scenario_env "s"
          (mkFile "b.jpg" (Some 511%N)) None (Some (775947 # 10000))
          UploadsFacts.scenario_db 8%Z
        = (inl (OtherException "ValidationError"),
           mkDB (uploads UploadsFacts.scenario_db
                 ++ [mkUpload (new_upload_id UploadsFacts.scenario_env) 8%Z
                              (Some "s"%string)
                              (new_file_url UploadsFacts.scenario_env)
                              None (Some (775947 # 10000))])
                (litter_reports UploadsFacts.scenario_db)
                (image_fingerprints UploadsFacts.scenario_db)
                (litter_groups UploadsFacts.scenario_db)
                (litter_detections UploadsFacts.scenario_db))).
Proof.
  apply (submission_without_coordinates UploadsFacts.scenario_env "s"
           (mkFile "b.jpg" (Some 511%N)) None (Some (775947 # 10000))
           UploadsFacts.scenario_db 8%Z).
  left. reflexivity.
Defined.

End UploadsMore.

(** ** Groups and their locks under the pipeline *)

Module LockFacts.
Import Store.

Lemma upload_keeps_groups env sess file lat lng db user :
  litter_groups
    (snd (Uploads.upload_create_report_and_detect env sess file lat lng db
            user))
  = litter_groups db.
Proof.
  unfold Uploads.upload_create_report_and_detect.
  destruct (Uploads.file_phash file) as [ph|]; [|reflexivity].
  destruct (Uploads.phash_duplicates ph _); [|reflexivity].
  unfold Uploads.create_upload_controller.
  destruct (negb (Uploads.disk_write_ok env)); [reflexivity|].
  destruct (existsb _ (uploads db)); [reflexivity|].
  destruct lat as [la|]; [|reflexivity].
  destruct lng as [lo|]; [|reflexivity].
  unfold Uploads.create_report_controller.
  match goal with |- context [Uploads.create_litter_report ?e ?d ?u ?i ?a ?b] =>
    pose proof (UploadsMore.create_litter_report_rows e d u i a b) as Hrows;
    destruct (Uploads.create_litter_report e d u i a b) as [[report|] db2]
  end.
  - destruct Hrows as (_ & _ & _ & Hg & _).
    destruct (existsb _ (image_fingerprints db2)); exact Hg.
  - subst db2. reflexivity.
Qed.

Lemma detection_keeps_groups env db rid :
  litter_groups (snd (Detection.create_litter_detection env db rid))
  = litter_groups db.
Proof.
  unfold Detection.create_litter_detection.
  destruct (get_report db rid) as [report|]; [|reflexivity].
  destruct (match lr_upload_id report with
            | Some uid => get_upload db uid
            | None => None
            end) as [upload|]; [|reflexivity].
  destruct (String.eqb (up_file_url upload) ""); [reflexivity|].
  destruct (Detection.fetch_image_bytes env (up_file_url upload));
    [reflexivity|].
  destruct (Detection.run_detection_on_image_bytes _ _ _ _ _)
    as [[st d|what]|results]; try reflexivity.
  destruct (Detection.total_litter_count results =? 0)%Z; reflexivity.
Qed.

(** No step of the submission pipeline writes to [litter_groups]: the
    upload endpoint (radius attachment included) and a detection run,
    alone or one after the other and whatever their outcome, leave every
    group as it was, so a locked group stays locked and no group is
    created, moved or removed. *)
Theorem pipeline_never_writes_groups
    (uenv : Uploads.Env) (denv : Detection.Env) sess file lat lng
    (db : DB) user (rid : uuid) :
  litter_groups
    (snd (Uploads.upload_create_report_and_detect uenv sess file lat lng db
            user)) = litter_groups db
  /\ litter_groups (snd (Detection.create_litter_detection denv db rid))
     = litter_groups db
  /\ litter_groups
       (snd (Detection.create_litter_detection denv
               (snd (Uploads.upload_create_report_and_detect uenv sess file
                       lat lng db user)) rid))
     = litter_groups db.
Proof.
  rewrite !detection_keeps_groups, upload_keeps_groups.
  repeat split.
Qed.

End LockFacts.

(** ** Invariants of the store *)

Module StoreInvariants.
Import Store StoreFacts.
Local Open Scope Q_scope.

(** Detection rows are sound: each counts at least one object and
    belongs to a report of the store. *)
Definition detections_sound (db : DB) : Prop :=
  Forall (fun d => (0 < ld_total_litter_count d)%Z
                   /\ get_report db (ld_litter_report_id d) <> None)
         (litter_detections db).

Lemma get_report_update_some (f : LitterReport -> LitterReport)
    (rid id : uuid) (db : DB) :
  (forall x, lr_id (f x) = lr_id x) ->
  get_report db id <> None ->
  get_report (update_report f rid db) id <> None.
Proof.
  intros Hf H. destruct (N.eq_dec id rid) as [->|Hne].
  - destruct (get_report db rid) as [r|] eqn:E; [|contradiction].
    rewrite (get_report_update f rid db r Hf E). discriminate.
  - now rewrite PipelineFacts.get_report_update_other.
Qed.

(** A detection run keeps the detection rows sound: it never stores a
    row with a zero count, nor a row for a report that is not there. *)
Theorem detection_run_keeps_rows_sound (env : Detection.Env) (db : DB)
    (rid : uuid) :
  detections_sound db ->
  detections_sound (snd (Detection.create_litter_detection env db rid)).
Proof.
  intro Hs. unfold Detection.create_litter_detection.
  assert (Hupd : forall f, (forall x, lr_id (f x) = lr_id x) ->
                           detections_sound (update_report f rid db)).
  { intros f Hf. unfold detections_sound in *.
    change (litter_detections (update_report f rid db))
      with (litter_detections db).
    eapply Forall_impl; [|exact Hs]. intros d [H1 H2].
    split; [exact H1|now apply get_report_update_some]. }
  destruct (get_report db rid) as [report|] eqn:Hr; [|exact Hs].
  destruct (match lr_upload_id report with
            | Some uid => get_upload db uid
            | None => None
            end) as [upload|]; [|exact Hs].
  destruct (String.eqb (up_file_url upload) ""); [exact Hs|].
  destruct (Detection.fetch_image_bytes env (up_file_url upload));
    [exact Hs|].
  destruct (Detection.run_detection_on_image_bytes _ _ _ _ _)
    as [[st d|what]|results] eqn:Hrun; [exact Hs|now apply Hupd|].
  destruct (Z.eqb_spec (Detection.total_litter_count results) 0) as [|Hne];
    [now apply Hupd|].
  cbn [snd]. unfold detections_sound.
  cbn [litter_detections update_report]. apply Forall_app. split.
  - eapply Forall_impl; [|exact Hs]. intros d [H1 H2]. split; [exact H1|].
    now apply (get_report_update_some _ rid _
                 (mkDB (uploads db) (litter_reports db)
                       (image_fingerprints db) (litter_groups db)
                       (litter_detections db ++ [_]))).
  - constructor; [|constructor].
    cbn [ld_total_litter_count ld_litter_report_id].
    destruct (DetectorFacts.run_detection_count _ _ _ _ _ _ Hrun) as [Ht _].
    split; [lia|].
    apply (get_report_update_some _ rid rid
             (mkDB (uploads db) (litter_reports db)
                   (image_fingerprints db) (litter_groups db)
                   (litter_detections db ++ [_]))); [reflexivity|].
    change (get_report db rid <> None). rewrite Hr. discriminate.
Qed.

Lemma detection_run_keeps_rows_sound_witness :
  detections_sound
    (snd (Detection.create_litter_detection DetectorFacts.sample_env
            DetectionFacts.pending_db 1%N)).
Proof.
  apply (detection_run_keeps_rows_sound DetectorFacts.sample_env
           DetectionFacts.pending_db 1%N).
  constructor.
Defined.

(** Primary keys are unique, every fingerprint belongs to a report of the
    store and every report's upload is a row of the store. *)
Definition keys_unique (db : DB) : Prop :=
  NoDup (map up_id (uploads db))
  /\ NoDup (map lr_id (litter_reports db))
  /\ NoDup (map fp_report_id (image_fingerprints db)).

Definition references_hold (db : DB) : Prop :=
  (forall fp, In fp (image_fingerprints db) ->
              get_report db (fp_report_id fp) <> None)
  /\ (forall r uid, In r (litter_reports db) -> lr_upload_id r = Some uid ->
                    get_upload db uid <> None).

Lemma nodup_snoc {A : Type} (key : A -> N) (l : list A) (x : A) :
  NoDup (map key l) ->
  existsb (fun y => N.eqb (key y) (key x)) l = false ->
  NoDup (map key (l ++ [x])).
Proof.
  intros Hnd Hex. rewrite map_app. cbn [map].
  apply NoDup_app; [exact Hnd|repeat constructor; intros []|].
  intros k Hk [<-|[]]. apply in_map_iff in Hk. destruct Hk as (y & Hy & Hin).
  assert (Ht : existsb (fun y => N.eqb (key y) (key x)) l = true).
  { apply existsb_exists. exists y. split; [exact Hin|].
    now apply N.eqb_eq. }
  congruence.
Qed.

Lemma find_app_some {A : Type} (p : A -> bool) (l l' : list A) :
  find p l <> None -> find p (l ++ l') <> None.
Proof.
  induction l as [|x l IH]; cbn [find app]; [contradiction|].
  destruct (p x); [discriminate|exact IH].
Qed.

Lemma find_app_last {A : Type} (p : A -> bool) (l : list A) (x : A) :
  p x = true -> find p (l ++ [x]) <> None.
Proof.
  intro H. induction l as [|y l IH]; cbn [find app].
  - rewrite H. discriminate.
  - destruct (p y); [discriminate|exact IH].
Qed.

(** The shape of the store the endpoint leaves: rows appended under
    fresh keys, the report linked to the upload and the fingerprint to
    the report. *)
Lemma upload_store_cases env sess file lat lng db user :
  exists ups reps fps,
    uploads (snd (Uploads.upload_create_report_and_detect env sess file lat
                    lng db user)) = uploads db ++ ups
    /\ litter_reports
         (snd (Uploads.upload_create_report_and_detect env sess file lat lng
                 db user)) = litter_reports db ++ reps
    /\ image_fingerprints
         (snd (Uploads.upload_create_report_and_detect env sess file lat lng
                 db user)) = image_fingerprints db ++ fps
    /\ (ups = []
        \/ exists u, ups = [u]
             /\ existsb (fun y => N.eqb (up_id y) (up_id u)) (uploads db)
                = false)
    /\ (reps = []
        \/ exists u r, ups = [u] /\ reps = [r]
             /\ existsb (fun y => N.eqb (lr_id y) (lr_id r))
                        (litter_reports db) = false
             /\ lr_upload_id r = Some (up_id u))
    /\ (fps = []
        \/ exists r ph, reps = [r] /\ fps = [mkFingerprint (lr_id r) ph []]
             /\ existsb (fun y => N.eqb (fp_report_id y) (lr_id r))
                        (image_fingerprints db) = false).
Proof.
  assert (Hnil : exists ups reps fps : _,
            uploads db = uploads db ++ ups
            /\ litter_reports db = litter_reports db ++ reps
            /\ image_fingerprints db = image_fingerprints db ++ fps
            /\ (ups = []
                \/ exists u, ups = [u]
                     /\ existsb (fun y => N.eqb (up_id y) (up_id u))
                                (uploads db) = false)
            /\ (reps = []
                \/ exists u r, ups = [u] /\ reps = [r]
                     /\ existsb (fun y => N.eqb (lr_id y) (lr_id r))
                                (litter_reports db) = false
                     /\ lr_upload_id r = Some (up_id u))
            /\ (fps = []
                \/ exists r ph, reps = [r]
                     /\ fps = [mkFingerprint (lr_id r) ph []]
                     /\ existsb (fun y => N.eqb (fp_report_id y) (lr_id r))
                                (image_fingerprints db) = false)).
  { exists [], [], []. rewrite !app_nil_r. repeat split; now left. }
  unfold Uploads.upload_create_report_and_detect.
  destruct (Uploads.file_phash file) as [ph|]; [|exact Hnil].
  destruct (Uploads.phash_duplicates ph _); [|exact Hnil].
  unfold Uploads.create_upload_controller.
  destruct (negb (Uploads.disk_write_ok env)); [exact Hnil|].
  destruct (existsb _ (uploads db)) eqn:Hup; [exact Hnil|].
  set (upload := mkUpload _ _ _ _ _ _) in *.
  set (db1 := mkDB (uploads db ++ [upload]) _ _ _ _).
  assert (Hone : exists ups reps fps : _,
            uploads db1 = uploads db ++ ups
            /\ litter_reports db1 = litter_reports db ++ reps
            /\ image_fingerprints db1 = image_fingerprints db ++ fps
            /\ (ups = []
                \/ exists u, ups = [u]
                     /\ existsb (fun y => N.eqb (up_id y) (up_id u))
                                (uploads db) = false)
            /\ (reps = []
                \/ exists u r, ups = [u] /\ reps = [r]
                     /\ existsb (fun y => N.eqb (lr_id y) (lr_id r))
                                (litter_reports db) = false
                     /\ lr_upload_id r = Some (up_id u))
            /\ (fps = []
                \/ exists r ph, reps = [r]
                     /\ fps = [mkFingerprint (lr_id r) ph []]
                     /\ existsb (fun y => N.eqb (fp_report_id y) (lr_id r))
                                (image_fingerprints db) = false)).
  { exists [upload], [], []. cbn [db1 uploads litter_reports
      image_fingerprints]. rewrite !app_nil_r.
    repeat split; try (now left). right. exists upload. now split. }
  destruct lat as [la|]; [|exact Hone].
  destruct lng as [lo|]; [|exact Hone].
  unfold Uploads.create_report_controller.
  pose proof (UploadsMore.create_litter_report_rows env db1 user
                (up_id upload) la lo) as Hrows.
  destruct (Uploads.create_litter_report env db1 user (up_id upload) la lo)
    as [[report|] db2]; [|subst db2; exact Hone].
  destruct Hrows as (Hr & Hu & Hf & _ & _ & Hex & Hid & Hlink & Hgeom & _).
  cbn [db1 uploads litter_reports image_fingerprints] in Hr, Hu, Hf, Hex.
  rewrite <- Hid in Hex.
  destruct (existsb _ (image_fingerprints db2)) eqn:Hfp; cbn [snd].
  - exists [upload], [report], []. rewrite Hr, Hu, Hf, !app_nil_r.
    repeat split; try (now left).
    + right. exists upload. now split.
    + right. exists upload, report. repeat split; assumption.
  - exists [upload], [report], [mkFingerprint (lr_id report) ph []].
    unfold update_report. cbn [uploads litter_reports image_fingerprints].
    rewrite Hr, Hu, Hf, (UploadsMore.update_fresh _ _ _ _ Hex), N.eqb_refl.
    assert (Hsame : set_geom (st_makepoint (Some lo) (Some la)) report
                    = report).
    { destruct report. cbn in Hgeom |- *. now rewrite Hgeom. }
    rewrite Hsame. repeat split.
    + right. exists upload. now split.
    + right. exists upload, report. repeat split; assumption.
    + right. exists report, ph. rewrite Hf in Hfp. repeat split. exact Hfp.
Qed.

(** The upload endpoint keeps the store well-keyed and well-linked:
    whatever the outcome, primary keys stay unique (in particular a
    report never has two fingerprints), every fingerprint still belongs
    to a report and every report's upload can still be looked up. *)
Theorem upload_keeps_keys_and_references env sess file lat lng db user :
  keys_unique db -> references_hold db ->
  keys_unique (snd (Uploads.upload_create_report_and_detect env sess file lat
                      lng db user))
  /\ references_hold
       (snd (Uploads.upload_create_report_and_detect env sess file lat lng db
               user)).
Proof.
  intros (Ku & Kr & Kf) (Rf & Rr).
  destruct (upload_store_cases env sess file lat lng db user)
    as (ups & reps & fps & Hu & Hr & Hf & Cu & Cr & Cf).
  unfold keys_unique, references_hold, get_report, get_upload.
  rewrite Hu, Hr, Hf. split; [split; [|split]|split].
  - destruct Cu as [->|(u & -> & Hex)]; [now rewrite app_nil_r|].
    now apply nodup_snoc.
  - destruct Cr as [->|(u & r & _ & -> & Hex & _)]; [now rewrite app_nil_r|].
    now apply nodup_snoc.
  - destruct Cf as [->|(r & ph & _ & -> & Hex)]; [now rewrite app_nil_r|].
    now apply (nodup_snoc fp_report_id).
  - intros fp Hin. apply in_app_or in Hin. destruct Hin as [Hin|Hin].
    + apply find_app_some. now apply Rf.
    + destruct Cf as [->|(r & ph & -> & -> & _)]; [destruct Hin|].
      destruct Hin as [<-|[]]. cbn [fp_report_id].
      apply find_app_last. apply N.eqb_refl.
  - intros r uid Hin Hlink. apply in_app_or in Hin. destruct Hin as [Hin|Hin].
    + apply find_app_some. now apply (Rr r).
    + destruct Cr as [->|(u & r' & -> & -> & _ & Hl)]; [destruct Hin|].
      destruct Hin as [<-|[]]. rewrite Hl in Hlink. injection Hlink as <-.
      apply find_app_last. apply N.eqb_refl.
Qed.

Lemma scenario_well_formed :
  keys_unique UploadsFacts.scenario_db
  /\ references_hold UploadsFacts.scenario_db.
Proof.
  split; [repeat split; repeat constructor; cbn; intuition discriminate|].
  split.
  - intros fp [<-|[]]. vm_compute. discriminate.
  - intros r uid [<-|[]] H. injection H as <-. vm_compute. discriminate.
Qed.

Lemma upload_keeps_keys_and_references_witness :
  keys_unique
    (snd (Uploads.upload_create_report_and_detect UploadsFacts.scenario_env
            "s" (Uploads.mkFile "b.jpg" (Some 511%N))
            (Some (129716 # 10000)) (Some (775947 # 10000))
            UploadsFacts.scenario_db 8%Z))
  /\ references_hold
       (snd (Uploads.upload_create_report_and_detect UploadsFacts.scenario_env
               "s" (Uploads.mkFile "b.jpg" (Some 511%N))
               (Some (129716 # 10000)) (Some (775947 # 10000))
               UploadsFacts.scenario_db 8%Z)).
Proof.
  apply (upload_keeps_keys_and_references UploadsFacts.scenario_env "s"
           (Uploads.mkFile "b.jpg" (Some 511%N))
           (Some (129716 # 10000)) (Some (775947 # 10000))
           UploadsFacts.scenario_db 8%Z);
    apply scenario_well_formed.
Defined.

End StoreInvariants.
